(** * Restaurant withdrawal requests over the wallet ledger

    A shallow embedding of
    [backend/modules/restaurant/controllers/withdrawalController.js]:
    the five request handlers [createWithdrawalRequest],
    [getRestaurantWithdrawalRequests], [getAllWithdrawalRequests],
    [approveWithdrawalRequest] and [rejectWithdrawalRequest], as functions
    from the database to a response and the database afterwards.

    Conventions of the embedding.
    - JavaScript numbers are exact rationals ([Q]): no rounding, no NaN and
      no infinities.  [x || 0] on a number is written out as [orZero].
      Where the rounding of doubles decides a property, the lines that
      compute the wallet totals are also given over binary64 numbers, in
      the module [Binary64].
    - A [Date] is its number of milliseconds on the local clock ([Z]), every
      local day having 24 hours.
    - The collections are lists in insertion order; an ObjectId is a natural
      number handed out by the counter [nextId], and its string form is the
      24 hexadecimal digits of its twelve bytes.
    - The handlers are followed along their [try] block.  The database and
      the mailer do not throw; the one exception that the handlers raise
      themselves is kept: approve and reject read [_id] off the populated
      restaurant, and when the restaurant document is gone that read throws
      and the [catch] block answers 500 before anything is written.
      Logging and the best-effort e-mails leave the database alone and are
      left out. *)

From Stdlib Require Import QArith Qminmax Lqa ZArith Lia List String Bool
  Arith DecimalString Ascii Sorted Permutation.
From Stdlib Require HexadecimalString PrimFloat.
Import ListNotations.

Local Open Scope Q_scope.

(** ** Numbers and JavaScript coercions *)

(** [x || 0] for a number [x]: zero is the only falsy rational. *)
Definition orZero (x : Q) : Q := if Qeq_bool x 0 then 0 else x.

(** [o?.f || 0] for a field that may be absent. *)
Definition optOrZero (o : option Q) : Q :=
  match o with Some x => orZero x | None => 0 end.

(** [a > b] on numbers. *)
Definition Qgtb (a b : Q) : bool := negb (Qle_bool a b).

(** [s1 || s2] on strings: the empty string is falsy. *)
Definition strOr (s1 s2 : string) : string :=
  match s1 with EmptyString => s2 | _ => s1 end.

(** [hay.includes(needle)]. *)
Fixpoint includes (needle hay : string) : bool :=
  String.prefix needle hay ||
  match hay with
  | EmptyString => false
  | String _ rest => includes needle rest
  end.

(** [Array.prototype.findIndex], [None] standing for -1. *)
Fixpoint findIndex {A : Type} (p : A -> bool) (l : list A) : option nat :=
  match l with
  | [] => None
  | x :: rest =>
      if p x then Some O
      else match findIndex p rest with
           | Some i => Some (S i)
           | None => None
           end
  end.

(** In-place update of the element at index [i]; nothing out of range. *)
Fixpoint updateAt {A : Type} (i : nat) (f : A -> A) (l : list A) : list A :=
  match l, i with
  | [], _ => []
  | x :: rest, O => f x :: rest
  | x :: rest, S j => x :: updateAt j f rest
  end.

(** ** Data model *)

Definition ObjectId := nat.

(** [ObjectId.prototype.toString]: the twelve bytes as 24 hexadecimal
    digits, in lower case, with their leading zeros. *)
Definition idToString (i : ObjectId) : string :=
  let digits :=
    HexadecimalString.NilZero.string_of_uint (Nat.to_hex_uint i) in
  (String.concat "" (repeat "0" (24 - String.length digits)) ++ digits)%string.

Inductive RequestStatus := Pending | Approved | Rejected | Processed.

Inductive TxStatus := TxPending | TxCompleted | TxCancelled.

Inductive TxType := withdrawal | refund.

Definition RequestStatus_eqb (a b : RequestStatus) : bool :=
  match a, b with
  | Pending, Pending | Approved, Approved
  | Rejected, Rejected | Processed, Processed => true
  | _, _ => false
  end.

Definition TxStatus_eqb (a b : TxStatus) : bool :=
  match a, b with
  | TxPending, TxPending | TxCompleted, TxCompleted
  | TxCancelled, TxCancelled => true
  | _, _ => false
  end.

Definition TxType_eqb (a b : TxType) : bool :=
  match a, b with
  | withdrawal, withdrawal | refund, refund => true
  | _, _ => false
  end.

(** The string a status is stored as. *)
Definition statusName (s : RequestStatus) : string :=
  match s with
  | Pending => "Pending"
  | Approved => "Approved"
  | Rejected => "Rejected"
  | Processed => "Processed"
  end.

(** A sub-document of [RestaurantWallet.transactions]. *)
Record Transaction := mkTransaction {
  t_id : ObjectId;
  t_amount : Q;
  t_type : TxType;
  t_status : TxStatus;
  t_description : string;
  t_processedAt : option Z
}.

Record RestaurantWallet := mkWallet {
  w_restaurantId : ObjectId;
  totalBalance : Q;
  totalWithdrawn : Q;
  transactions : list Transaction
}.

Record WithdrawalRequest := mkRequest {
  _id : ObjectId;
  restaurantId : ObjectId;
  amount : Q;
  status : RequestStatus;
  restaurantName : string;
  restaurantIdString : string;
  transactionId : option ObjectId;
  createdAt : Z;
  processedAt : option Z;
  processedBy : option ObjectId;
  rejectionReason : option string
}.

Record Pricing := mkPricing {
  subtotal : option Q;
  discount : option Q
}.

(** An order, with the fields the controller queries and selects.  The
    order collection stores the restaurant id as a string. *)
Record Order := mkOrder {
  o_status : string;
  o_restaurantId : string;
  deliveredAt : option Z;
  trackingDeliveredTimestamp : option Z;
  o_createdAt : Z;
  pricing : option Pricing
}.

(** A restaurant document, with the two selected fields. *)
Record Restaurant := mkRestaurant {
  r_id : ObjectId;
  r_name : string;
  r_restaurantId : string
}.

(** The database: four collections and the ObjectId counter. *)
Record Db := mkDb {
  requests : list WithdrawalRequest;
  wallets : list RestaurantWallet;
  orders : list Order;
  restaurants : list Restaurant;
  nextId : ObjectId
}.

(** ** Responses *)

Inductive Message :=
  | RestaurantAuthRequired
  | AdminAuthRequired
  | ValidAmountRequired
  | InsufficientBalance (available : Q)
  | AlreadyPending
  | RequestNotFound
  | AlreadyProcessed (s : RequestStatus)
  | RequestCreated
  | RequestsRetrieved
  | RequestApproved
  | RequestRejected
  | ApproveFailed
  | RejectFailed.

(** What the success answers carry. *)
Inductive Payload :=
  | RequestData (r : WithdrawalRequest)
  | ListData (rows : list WithdrawalRequest) (page limit : Z) (total : nat).

Inductive Response :=
  | errorResponse (code : nat) (m : Message)
  | successResponse (code : nat) (m : Message) (data : Payload).

Definition isClientError (r : Response) : bool :=
  match r with
  | errorResponse code _ => (400 <=? code)%nat && (code <? 500)%nat
  | successResponse _ _ _ => false
  end.

Definition isSuccess (r : Response) : bool :=
  match r with
  | successResponse _ _ _ => true
  | errorResponse _ _ => false
  end.

(** ** What the handlers receive *)

(** [req.restaurant], set by the restaurant authentication middleware. *)
Record RestaurantAuth := mkRestaurantAuth {
  ra_id : option ObjectId;
  ra_name : string;
  ra_restaurantId : string
}.

(** [req.admin], set by the admin authentication middleware. *)
Record AdminAuth := mkAdminAuth {
  admin_id : option ObjectId
}.

(** [req.body.amount], as far as the handler can tell values apart:
    a falsy value that is not a non-zero number ([undefined], [null],
    the empty string, [false], [NaN]); a number; or any other truthy value,
    given by what [Number(v)] and [parseFloat(v)] make of it ([None] for
    NaN; a string such as ["5abc"] has NaN for the first and 5 for the
    second). *)
Inductive AmountField :=
  | AmountMissing
  | AmountNumber (q : Q)
  | AmountOther (toNumber parsed : option Q).

(** [!amount]. *)
Definition amountFalsy (a : AmountField) : bool :=
  match a with
  | AmountMissing => true
  | AmountNumber q => Qeq_bool q 0
  | AmountOther _ _ => false
  end.

(** [amount <= 0], false when the comparison meets NaN. *)
Definition amountLeZero (a : AmountField) : bool :=
  match a with
  | AmountMissing => false
  | AmountNumber q => Qle_bool q 0
  | AmountOther (Some n) _ => Qle_bool n 0
  | AmountOther None _ => false
  end.

(** [parseFloat(amount)], [None] for NaN. *)
Definition parseFloat (a : AmountField) : option Q :=
  match a with
  | AmountMissing => None
  | AmountNumber q => Some q
  | AmountOther _ p => p
  end.

Record CreateRequest := mkCreateRequest {
  req_restaurant : option RestaurantAuth;
  body_amount : AmountField
}.

(** ** Collections *)

Definition withRequests (db : Db) (rs : list WithdrawalRequest) : Db :=
  mkDb rs (wallets db) (orders db) (restaurants db) (nextId db).

Definition withWallets (db : Db) (ws : list RestaurantWallet) : Db :=
  mkDb (requests db) ws (orders db) (restaurants db) (nextId db).

Definition withNextId (db : Db) (n : ObjectId) : Db :=
  mkDb (requests db) (wallets db) (orders db) (restaurants db) n.

(** [WithdrawalRequest.findById]. *)
Definition findById (id : ObjectId) (rs : list WithdrawalRequest)
  : option WithdrawalRequest :=
  find (fun r => Nat.eqb (_id r) id) rs.

(** [Restaurant.findById]. *)
Definition findRestaurantById (id : ObjectId) (rs : list Restaurant)
  : option Restaurant :=
  find (fun r => Nat.eqb (r_id r) id) rs.

(** [withdrawalRequest.save()]: the stored document of that [_id] is
    replaced. *)
Definition saveRequest (r : WithdrawalRequest) (db : Db) : Db :=
  withRequests db
    (map (fun x => if Nat.eqb (_id x) (_id r) then r else x) (requests db)).

(** The wallet stored for a restaurant. *)
Definition findWallet (rid : ObjectId) (ws : list RestaurantWallet)
  : option RestaurantWallet :=
  find (fun w => Nat.eqb (w_restaurantId w) rid) ws.

(** Modelled from the spec: [RestaurantWallet.findOrCreateByRestaurantId]
    (models/RestaurantWallet.js is not among the sources).  A wallet is
    owned by one restaurant: the stored wallet of the restaurant is
    returned, and when there is none a wallet with zero balances and no
    transactions is stored and returned. *)
Definition findOrCreateByRestaurantId (rid : ObjectId) (db : Db)
  : RestaurantWallet * Db :=
  match findWallet rid (wallets db) with
  | Some w => (w, db)
  | None =>
      let w := mkWallet rid 0 0 [] in
      (w, withWallets db (wallets db ++ [w]))
  end.

(** [wallet.save()]: the stored wallet of that restaurant is replaced. *)
Definition saveWallet (w : RestaurantWallet) (db : Db) : Db :=
  withWallets db
    (map (fun x =>
            if Nat.eqb (w_restaurantId x) (w_restaurantId w) then w else x)
         (wallets db)).

(** The argument of [wallet.addTransaction]. *)
Record TransactionData := mkTransactionData {
  d_amount : Q;
  d_type : TxType;
  d_status : TxStatus;
  d_description : string
}.

(** The part of the wallet model the controller relies on without
    containing it: what [addTransaction] does to the pair
    ([totalBalance], [totalWithdrawn]) when the transaction it is given
    has status Completed. *)
Class WalletModel := {
  completedEffect : TxType -> Q -> Q * Q -> Q * Q
}.

Section Controller.

Context `{WalletModel}.

(** Modelled from the spec: [RestaurantWallet.prototype.addTransaction]
    (models/RestaurantWallet.js is not among the sources).  The
    transaction is appended to the wallet's ordered list under a new id
    and returned.  The controller says at its line 170 that
    [addTransaction] `only deducts when status is 'Completed'`: a
    transaction of another status leaves both totals alone, and for a
    Completed one the totals are what [completedEffect] makes of them. *)
Definition addTransaction (newId : ObjectId) (w : RestaurantWallet)
  (d : TransactionData) : RestaurantWallet * Transaction :=
  let t := mkTransaction newId (d_amount d) (d_type d) (d_status d)
             (d_description d) None in
  let totals :=
    match d_status d with
    | TxCompleted =>
        completedEffect (d_type d) (d_amount d)
          (totalBalance w, totalWithdrawn w)
    | _ => (totalBalance w, totalWithdrawn w)
    end in
  (mkWallet (w_restaurantId w) (fst totals) (snd totals)
     (transactions w ++ [t]), t).

(** ** The weekly cycle *)

Definition msPerDay : Z := 86400000.

(** The local day a date falls on, counted from Thursday 1 January 1970. *)
Definition dayNumber (t : Z) : Z := (t / msPerDay)%Z.

(** [Date.prototype.getDay]: 0 is Sunday. *)
Definition getDay (t : Z) : Z := ((dayNumber t + 4) mod 7)%Z.

(** Lines 53-58: Monday of the current week, at 00:00:00.000. *)
Definition cycleStartOf (now : Z) : Z :=
  let currentDay := getDay now in
  let daysFromMonday :=
    if (currentDay =? 0)%Z then 6%Z else (currentDay - 1)%Z in
  ((dayNumber now - daysFromMonday) * msPerDay)%Z.

(** Lines 59-61: six days after the start, at 23:59:59.999. *)
Definition cycleEndOf (cycleStart : Z) : Z :=
  ((dayNumber cycleStart + 6) * msPerDay + (msPerDay - 1))%Z.

(** [{ $gte: lo, $lte: hi }] on a field that may be absent. *)
Definition inRange (lo hi : Z) (t : option Z) : bool :=
  match t with
  | Some x => ((lo <=? x) && (x <=? hi))%Z
  | None => false
  end.

(** Lines 63-70.  The string of an ObjectId is its own normal form, so
    the test of line 67 finds it in the list already. *)
Definition restaurantIdVariations (restaurantId : string) : list string :=
  let objectIdString := restaurantId in
  if existsb (String.eqb objectIdString) [restaurantId]
  then [restaurantId]
  else [restaurantId; objectIdString].

(** The filter of [Order.find] at lines 72-89. *)
Definition deliveredInCycle (variations : list string) (restaurantId : string)
  (cycleStart cycleEnd : Z) (o : Order) : bool :=
  String.eqb (o_status o) "delivered" &&
  ((existsb (String.eqb (o_restaurantId o)) variations
    || String.eqb (o_restaurantId o) restaurantId) &&
   (inRange cycleStart cycleEnd (deliveredAt o)
    || inRange cycleStart cycleEnd (trackingDeliveredTimestamp o)
    || inRange cycleStart cycleEnd (Some (o_createdAt o)))).

(** Lines 94-98. *)
Definition cyclePayoutOf (deliveredOrders : list Order) : Q :=
  fold_left
    (fun sum order =>
       let foodPrice :=
         optOrZero (match pricing order with
                    | Some p => subtotal p | None => None end)
         - optOrZero (match pricing order with
                      | Some p => discount p | None => None end) in
       let defaultCommission := (foodPrice * 10) / 100 in
       sum + Qmax 0 (foodPrice - defaultCommission))
    deliveredOrders 0.

(** The filter of [WithdrawalRequest.find] at lines 100-103. *)
Definition pendingOrApprovedOf (rid : ObjectId) (r : WithdrawalRequest)
  : bool :=
  Nat.eqb (restaurantId r) rid &&
  (RequestStatus_eqb (status r) Pending
   || RequestStatus_eqb (status r) Approved).

(** Lines 107-110. *)
Definition totalExistingWithdrawalsOf (existing : list WithdrawalRequest)
  : Q :=
  fold_left (fun sum request => sum + orZero (amount request)) existing 0.

(** Lines 49-119: the balance a new request is checked against. *)
Definition effectiveAvailableBalance (now : Z) (rid : ObjectId)
  (wallet : RestaurantWallet) (db : Db) : Q :=
  let walletAvailableBalance := orZero (totalBalance wallet) in
  let cycleStart := cycleStartOf now in
  let cycleEnd := cycleEndOf cycleStart in
  let restaurantId := idToString rid in
  let deliveredOrders :=
    filter (deliveredInCycle (restaurantIdVariations restaurantId)
              restaurantId cycleStart cycleEnd) (orders db) in
  let cyclePayout := cyclePayoutOf deliveredOrders in
  let existingWithdrawals := filter (pendingOrApprovedOf rid) (requests db) in
  let totalExistingWithdrawals :=
    totalExistingWithdrawalsOf existingWithdrawals in
  let financeAvailableBalance :=
    Qmax 0 (cyclePayout - totalExistingWithdrawals) in
  Qmax walletAvailableBalance financeAvailableBalance.

(** The filter of [WithdrawalRequest.findOne] at lines 130-133. *)
Definition pendingOf (rid : ObjectId) (r : WithdrawalRequest) : bool :=
  Nat.eqb (restaurantId r) rid && RequestStatus_eqb (status r) Pending.

(** ** createWithdrawalRequest (lines 27-225) *)

Definition createWithdrawalRequest (now : Z) (req : CreateRequest) (db : Db)
  : Response * Db :=
  match req_restaurant req with
  | None => (errorResponse 401 RestaurantAuthRequired, db)
  | Some restaurant =>
  match ra_id restaurant with
  | None => (errorResponse 401 RestaurantAuthRequired, db)
  | Some rid =>
  if amountFalsy (body_amount req) || amountLeZero (body_amount req)
  then (errorResponse 400 ValidAmountRequired, db)
  else
  let (wallet, db1) := findOrCreateByRestaurantId rid db in
  match parseFloat (body_amount req) with
  | None => (errorResponse 400 ValidAmountRequired, db1)
  | Some numericAmount =>
  if Qle_bool numericAmount 0
  then (errorResponse 400 ValidAmountRequired, db1)
  else
  let effective := effectiveAvailableBalance now rid wallet db1 in
  if Qgtb numericAmount effective
  then (errorResponse 400 (InsufficientBalance effective), db1)
  else
  match find (pendingOf rid) (requests db1) with
  | Some _ => (errorResponse 400 AlreadyPending, db1)
  | None =>
  let restaurantDetails := findRestaurantById rid (restaurants db1) in
  let withdrawalRequest :=
    mkRequest (nextId db1) rid numericAmount Pending
      (strOr (match restaurantDetails with
              | Some d => r_name d | None => EmptyString end)
             (strOr (ra_name restaurant) "Unknown"))
      (strOr (match restaurantDetails with
              | Some d => r_restaurantId d | None => EmptyString end)
             (strOr (ra_restaurantId restaurant) (idToString rid)))
      None now None None None in
  let db2 :=
    withNextId (withRequests db1 (requests db1 ++ [withdrawalRequest]))
      (S (nextId db1)) in
  let withdrawalRequestId := idToString (_id withdrawalRequest) in
  let (wallet1, transaction) :=
    addTransaction (nextId db2) wallet
      (mkTransactionData numericAmount withdrawal TxPending
         ("Withdrawal request created - Request ID: "
            ++ withdrawalRequestId)) in
  let db3 := withNextId db2 (S (nextId db2)) in
  let wallet2 :=
    mkWallet (w_restaurantId wallet1)
      (Qmax 0 (orZero (totalBalance wallet1) - numericAmount))
      (orZero (totalWithdrawn wallet1) + numericAmount)
      (transactions wallet1) in
  let db4 := saveWallet wallet2 db3 in
  let withdrawalRequest' :=
    mkRequest (_id withdrawalRequest) (restaurantId withdrawalRequest)
      (amount withdrawalRequest) (status withdrawalRequest)
      (restaurantName withdrawalRequest)
      (restaurantIdString withdrawalRequest)
      (Some (t_id transaction))
      (createdAt withdrawalRequest) (processedAt withdrawalRequest)
      (processedBy withdrawalRequest) (rejectionReason withdrawalRequest) in
  let db5 := saveRequest withdrawalRequest' db4 in
  (successResponse 201 RequestCreated (RequestData withdrawalRequest'), db5)
  end
  end
  end
  end.

(** ** Finding the wallet transaction of a request

    Lines 406-423 and 537-554: by the linked id first
    ([wallet.transactions.id]), else the first Pending withdrawal whose
    description mentions the request.  The result is the position of the
    sub-document, which the handlers then change in place. *)
Definition locateTransaction (wallet : RestaurantWallet)
  (withdrawalRequest : WithdrawalRequest) : option nat :=
  let pendingTransaction :=
    match transactionId withdrawalRequest with
    | Some tid =>
        findIndex (fun t => Nat.eqb (t_id t) tid) (transactions wallet)
    | None => None
    end in
  match pendingTransaction with
  | Some i => Some i
  | None =>
      findIndex
        (fun t =>
           TxType_eqb (t_type t) withdrawal
           && TxStatus_eqb (t_status t) TxPending
           && includes (idToString (_id withdrawalRequest))
                (t_description t))
        (transactions wallet)
  end.

(** [pendingTransaction.status = s; pendingTransaction.processedAt = new
    Date()]. *)
Definition settleTransaction (s : TxStatus) (now : Z) (t : Transaction)
  : Transaction :=
  mkTransaction (t_id t) (t_amount t) (t_type t) s (t_description t)
    (Some now).

(** The processing stamps of lines 399-401 and 527-532. *)
Definition processRequest (s : RequestStatus) (now : Z) (adminId : ObjectId)
  (reason : option string) (r : WithdrawalRequest) : WithdrawalRequest :=
  mkRequest (_id r) (restaurantId r) (amount r) s (restaurantName r)
    (restaurantIdString r) (transactionId r) (createdAt r) (Some now)
    (Some adminId)
    (match reason with
     | Some (String c rest) => Some (String c rest)
     | _ => rejectionReason r
     end).

(** ** approveWithdrawalRequest (lines 369-490)

    [findById(id).populate("restaurantId")] puts the restaurant document,
    or [null] when there is none, in the place of the reference.  Line 395
    reads [withdrawalRequest.restaurantId._id]: on [null] that throws, and
    the [catch] of lines 486-489 answers 500 with nothing saved yet. *)

Definition approveWithdrawalRequest (now : Z) (admin : option AdminAuth)
  (id : ObjectId) (db : Db) : Response * Db :=
  match admin with
  | None => (errorResponse 401 AdminAuthRequired, db)
  | Some adminDoc =>
  match admin_id adminDoc with
  | None => (errorResponse 401 AdminAuthRequired, db)
  | Some adminId =>
  match findById id (requests db) with
  | None => (errorResponse 404 RequestNotFound, db)
  | Some found =>
  if negb (RequestStatus_eqb (status found) Pending)
  then (errorResponse 400 (AlreadyProcessed (status found)), db)
  else
  match findRestaurantById (restaurantId found) (restaurants db) with
  | None => (errorResponse 500 ApproveFailed, db)
  | Some restaurant =>
  let (wallet, db1) := findOrCreateByRestaurantId (r_id restaurant) db in
  let withdrawalRequest := processRequest Approved now adminId None found in
  let db2 := saveRequest withdrawalRequest db1 in
  let (wallet', db3) :=
    match locateTransaction wallet withdrawalRequest with
    | Some i =>
        (mkWallet (w_restaurantId wallet) (totalBalance wallet)
           (totalWithdrawn wallet)
           (updateAt i (settleTransaction TxCompleted now)
              (transactions wallet)),
         db2)
    | None =>
        (fst (addTransaction (nextId db2) wallet
                (mkTransactionData (amount withdrawalRequest) withdrawal
                   TxCompleted
                   ("Withdrawal request approved - Request ID: "
                      ++ idToString (_id withdrawalRequest)))),
         withNextId db2 (S (nextId db2)))
    end in
  let db4 := saveWallet wallet' db3 in
  (successResponse 200 RequestApproved (RequestData withdrawalRequest), db4)
  end
  end
  end
  end.

(** ** rejectWithdrawalRequest (lines 496-637)

    Line 523 reads [withdrawalRequest.restaurantId._id] before its [||]:
    with the restaurant document gone it throws as in approve, and the
    [catch] of lines 633-636 answers 500. *)

Definition rejectWithdrawalRequest (now : Z) (admin : option AdminAuth)
  (id : ObjectId) (rejectionReason : option string) (db : Db)
  : Response * Db :=
  match admin with
  | None => (errorResponse 401 AdminAuthRequired, db)
  | Some adminDoc =>
  match admin_id adminDoc with
  | None => (errorResponse 401 AdminAuthRequired, db)
  | Some adminId =>
  match findById id (requests db) with
  | None => (errorResponse 404 RequestNotFound, db)
  | Some found =>
  if negb (RequestStatus_eqb (status found) Pending)
  then (errorResponse 400 (AlreadyProcessed (status found)), db)
  else
  match findRestaurantById (restaurantId found) (restaurants db) with
  | None => (errorResponse 500 RejectFailed, db)
  | Some restaurant =>
  let (wallet, db1) := findOrCreateByRestaurantId (r_id restaurant) db in
  let withdrawalRequest :=
    processRequest Rejected now adminId rejectionReason found in
  let db2 := saveRequest withdrawalRequest db1 in
  let (wallet', db3) :=
    match locateTransaction wallet withdrawalRequest with
    | Some i =>
        (mkWallet (w_restaurantId wallet)
           (orZero (totalBalance wallet) + amount withdrawalRequest)
           (Qmax 0 (orZero (totalWithdrawn wallet)
                    - amount withdrawalRequest))
           (updateAt i (settleTransaction TxCancelled now)
              (transactions wallet)),
         db2)
    | None =>
        let wallet1 :=
          fst (addTransaction (nextId db2) wallet
                 (mkTransactionData (amount withdrawalRequest) refund
                    TxCompleted
                    ("Withdrawal request rejected - Refund for Request ID: "
                       ++ idToString (_id withdrawalRequest)))) in
        (mkWallet (w_restaurantId wallet1)
           (orZero (totalBalance wallet1) + amount withdrawalRequest)
           (Qmax 0 (orZero (totalWithdrawn wallet1)
                    - amount withdrawalRequest))
           (transactions wallet1),
         withNextId db2 (S (nextId db2)))
    end in
  let db4 := saveWallet wallet' db3 in
  (successResponse 200 RequestRejected (RequestData withdrawalRequest), db4)
  end
  end
  end
  end.

(** The wallet [approveWithdrawalRequest] saves at line 441, by the
    branches of lines 425-439. *)
Definition approvedWallet (now : Z) (newId : ObjectId)
  (wallet : RestaurantWallet) (found : WithdrawalRequest)
  : RestaurantWallet :=
  match locateTransaction wallet found with
  | Some i =>
      mkWallet (w_restaurantId wallet) (totalBalance wallet)
        (totalWithdrawn wallet)
        (updateAt i (settleTransaction TxCompleted now) (transactions wallet))
  | None =>
      fst (addTransaction newId wallet
             (mkTransactionData (amount found) withdrawal TxCompleted
                ("Withdrawal request approved - Request ID: "
                   ++ idToString (_id found))))
  end.

(** The wallet [rejectWithdrawalRequest] saves at line 585, by the
    branches of lines 556-583. *)
Definition rejectedWallet (now : Z) (newId : ObjectId)
  (wallet : RestaurantWallet) (found : WithdrawalRequest)
  : RestaurantWallet :=
  match locateTransaction wallet found with
  | Some i =>
      mkWallet (w_restaurantId wallet)
        (orZero (totalBalance wallet) + amount found)
        (Qmax 0 (orZero (totalWithdrawn wallet) - amount found))
        (updateAt i (settleTransaction TxCancelled now) (transactions wallet))
  | None =>
      let wallet1 :=
        fst (addTransaction newId wallet
               (mkTransactionData (amount found) refund TxCompleted
                  ("Withdrawal request rejected - Refund for Request ID: "
                     ++ idToString (_id found)))) in
      mkWallet (w_restaurantId wallet1)
        (orZero (totalBalance wallet1) + amount found)
        (Qmax 0 (orZero (totalWithdrawn wallet1) - amount found))
        (transactions wallet1)
  end.

(** ** The ledger as a transition system *)

Inductive Op :=
  | OpCreate (now : Z) (req : CreateRequest)
  | OpApprove (now : Z) (admin : option AdminAuth) (id : ObjectId)
  | OpReject (now : Z) (admin : option AdminAuth) (id : ObjectId)
      (rejectionReason : option string).

Definition step (op : Op) (db : Db) : Response * Db :=
  match op with
  | OpCreate now req => createWithdrawalRequest now req db
  | OpApprove now admin id => approveWithdrawalRequest now admin id db
  | OpReject now admin id reason =>
      rejectWithdrawalRequest now admin id reason db
  end.

Definition run (ops : list Op) (db : Db) : Db :=
  fold_left (fun d op => snd (step op d)) ops db.

End Controller.

(** ** The listing handlers *)

(** What the database does with a query once the handler has built it:
    the case-insensitive [$regex] test, and the cursor of
    [.sort({ createdAt: -1 }).skip(skip).limit(limit)]. *)
Class QueryEngine := {
  regexTest : string -> string -> bool;
  sortSkipLimit : Z -> Z -> list WithdrawalRequest -> list WithdrawalRequest
}.

(** The [query] object of the two listings. *)
Record Query := mkQuery {
  q_restaurantId : option ObjectId;
  q_status : option string;
  q_or : option string
}.

(** [req.query] of the listings; [page] and [limit] are what [parseInt]
    reads from them when they are given. *)
Record ListingParams := mkListingParams {
  p_status : option string;
  p_page : option Z;
  p_limit : option Z;
  p_search : option string
}.

Definition definedStatuses : list string :=
  ["Pending"%string; "Approved"%string; "Rejected"%string;
   "Processed"%string].

(** Lines 242-247 and 298-303: [query.status] is set when [status] is
    truthy and one of the four names. *)
Definition statusFilter (status : option string) : option string :=
  match status with
  | Some (String c rest) =>
      if existsb (String.eqb (String c rest)) definedStatuses
      then Some (String c rest)
      else None
  | _ => None
  end.

(** Lines 306-311: [query.$or] is set when [search] is truthy. *)
Definition searchFilter (search : option string) : option string :=
  match search with
  | Some (String c rest) => Some (String c rest)
  | _ => None
  end.

Section Listing.

Context `{QueryEngine}.

(** Whether a stored request satisfies a query. *)
Definition matchesQuery (q : Query) (r : WithdrawalRequest) : bool :=
  match q_restaurantId q with
  | Some rid => Nat.eqb (restaurantId r) rid
  | None => true
  end
  && match q_status q with
     | Some s => String.eqb (statusName (status r)) s
     | None => true
     end
  && match q_or q with
     | Some s =>
         regexTest s (restaurantName r) || regexTest s (restaurantIdString r)
     | None => true
     end.

(** The common tail of both listings (lines 249-281 and 313-358). *)
Definition listWith (query : Query) (params : ListingParams) (db : Db)
  : Response :=
  let page := match p_page params with Some n => n | None => 1%Z end in
  let limit := match p_limit params with Some n => n | None => 20%Z end in
  let skip := ((page - 1) * limit)%Z in
  let total := List.length (filter (matchesQuery query) (requests db)) in
  let requests :=
    sortSkipLimit skip limit (filter (matchesQuery query) (requests db)) in
  successResponse 200 RequestsRetrieved (ListData requests page limit total).

(** getRestaurantWithdrawalRequests (lines 231-287). *)
Definition getRestaurantWithdrawalRequests
  (restaurant : option RestaurantAuth) (params : ListingParams) (db : Db)
  : Response :=
  match restaurant with
  | None => errorResponse 401 RestaurantAuthRequired
  | Some r =>
  match ra_id r with
  | None => errorResponse 401 RestaurantAuthRequired
  | Some rid =>
      let query :=
        mkQuery (Some rid) (statusFilter (p_status params)) None in
      listWith query params db
  end
  end.

(** getAllWithdrawalRequests (lines 293-363). *)
Definition getAllWithdrawalRequests (params : ListingParams) (db : Db)
  : Response :=
  let query :=
    mkQuery None (statusFilter (p_status params))
      (searchFilter (p_search params)) in
  listWith query params db.

End Listing.

(** ** The listings as the specification words them

    A page of the selected requests, with their number: the rows the
    database returns for the selection, and the count of the selection. *)
Section ListingAnswers.

Context `{QueryEngine}.

Definition hasStatus (s : string) (r : WithdrawalRequest) : bool :=
  String.eqb (statusName (status r)) s.

Definition belongsTo (rid : ObjectId) (r : WithdrawalRequest) : bool :=
  Nat.eqb (restaurantId r) rid.

(** Search over restaurant name and external id; no search, or an empty
    one, selects everything. *)
Definition searched (search : option string) (r : WithdrawalRequest) : bool :=
  match search with
  | Some (String c rest) =>
      regexTest (String c rest) (restaurantName r)
      || regexTest (String c rest) (restaurantIdString r)
  | _ => true
  end.

Definition pageOver (page limit : option Z)
  (selection : list WithdrawalRequest) : Response :=
  let page := match page with Some n => n | None => 1%Z end in
  let limit := match limit with Some n => n | None => 20%Z end in
  successResponse 200 RequestsRetrieved
    (ListData (sortSkipLimit ((page - 1) * limit)%Z limit selection)
       page limit (List.length selection)).

End ListingAnswers.

(** The balance [createWithdrawalRequest] checks a request of restaurant
    [rid] against: [effectiveAvailableBalance] on the wallet the handler
    fetched. *)
Definition availableFor (now : Z) (rid : ObjectId) (db : Db) : Q :=
  let (wallet, db1) := findOrCreateByRestaurantId rid db in
  effectiveAvailableBalance now rid wallet db1.

(** The restaurant a create request is authenticated for. *)
Definition authenticatedAs (req : CreateRequest) : option ObjectId :=
  match req_restaurant req with
  | Some restaurant => ra_id restaurant
  | None => None
  end.

(** ** The balance rule as the specification words it *)

Definition sumQ (l : list Q) : Q := fold_right Qplus 0 l.

(** Weeks run from Monday to Sunday; Monday 5 January 1970 opens week 1. *)
Definition weekNumber (t : Z) : Z := ((dayNumber t + 3) / 7)%Z.

Definition inCurrentWeek (now : Z) (t : option Z) : bool :=
  match t with
  | Some x => (weekNumber x =? weekNumber now)%Z
  | None => false
  end.

(** A delivered order of the restaurant in the current Monday-Sunday
    window, by its delivery date, its tracked delivery or its creation. *)
Definition spec_deliveredThisWeek (now : Z) (rid : ObjectId) (o : Order)
  : bool :=
  String.eqb (o_status o) "delivered"
  && String.eqb (o_restaurantId o) (idToString rid)
  && (inCurrentWeek now (deliveredAt o)
      || inCurrentWeek now (trackingDeliveredTimestamp o)
      || inCurrentWeek now (Some (o_createdAt o))).

Definition valueOr0 (o : option Q) : Q :=
  match o with Some x => x | None => 0 end.

(** Net revenue of an order: food price less a 10% commission, never below
    zero, where the food price is subtotal minus discount. *)
Definition spec_netRevenue (o : Order) : Q :=
  let foodPrice :=
    valueOr0 (match pricing o with Some p => subtotal p | None => None end)
    - valueOr0 (match pricing o with Some p => discount p | None => None end)
  in
  Qmax 0 (foodPrice - (10 # 100) * foodPrice).

Definition spec_weeklyCyclePayout (now : Z) (rid : ObjectId) (db : Db) : Q :=
  sumQ (map spec_netRevenue
          (filter (spec_deliveredThisWeek now rid) (orders db))).

Definition spec_existingWithdrawals (rid : ObjectId) (db : Db) : Q :=
  sumQ (map amount
          (filter (fun r =>
                     Nat.eqb (restaurantId r) rid
                     && match status r with
                        | Pending | Approved => true
                        | _ => false
                        end)
             (requests db))).

(** The greater of the stored balance and the weekly payout less the
    existing Pending and Approved withdrawals. *)
Definition spec_effectiveAvailableBalance (now : Z) (rid : ObjectId)
  (wallet : RestaurantWallet) (db : Db) : Q :=
  Qmax (totalBalance wallet)
    (spec_weeklyCyclePayout now rid db - spec_existingWithdrawals rid db).

(** ** Invariants of the ledger *)

(** How many Pending requests a restaurant has. *)
Definition pendingCount (rid : ObjectId) (db : Db) : nat :=
  List.length (filter (pendingOf rid) (requests db)).

(** At most one Pending request per restaurant, over a collection whose
    ids all come from the counter. *)
Definition OnePendingInv (db : Db) : Prop :=
  (forall r, In r (requests db) -> (_id r < nextId db)%nat)
  /\ forall rid, (pendingCount rid db <= 1)%nat.

(** A request is linked when the wallet of its restaurant holds the
    transaction its [transactionId] names. *)
Definition linked (db : Db) (r : WithdrawalRequest) : Prop :=
  exists w tid,
    findWallet (restaurantId r) (wallets db) = Some w
    /\ transactionId r = Some tid
    /\ findIndex (fun t => Nat.eqb (t_id t) tid) (transactions w) <> None.

(** The data model of the ledger: no wallet balance and no requested amount
    is negative, and every Pending request references a transaction inside
    its wallet's transaction list. *)
Definition LedgerInv (db : Db) : Prop :=
  (forall w, In w (wallets db) -> 0 <= totalBalance w)
  /\ (forall r, In r (requests db) -> 0 <= amount r)
  /\ (forall r, In r (requests db) -> status r = Pending -> linked db r).




(** ** The wallet totals on doubles

    The four assignments to [totalBalance] and [totalWithdrawn], over the
    numbers JavaScript computes with: binary64, every operation rounded
    to the nearest double. *)
Module Binary64.

Import PrimFloat.

(** [x || 0]: zero, minus zero and NaN are falsy. *)
Definition orZero (x : float) : float :=
  if (x =? 0)%float || negb (x =? x)%float then 0%float else x.

(** [Math.max(0, x)]; NaN stays NaN. *)
Definition max0 (x : float) : float :=
  if (x <=? 0)%float then 0%float else x.

(** Lines 171-174. *)
Definition balanceAfterCreate (totalBalance numericAmount : float) : float :=
  max0 (orZero totalBalance - numericAmount)%float.

(** Line 175. *)
Definition withdrawnAfterCreate (totalWithdrawn numericAmount : float)
  : float :=
  (orZero totalWithdrawn + numericAmount)%float.

(** Lines 564-565, and 577-578. *)
Definition balanceAfterReject (totalBalance amount : float) : float :=
  (orZero totalBalance + amount)%float.

(** Lines 566-567, and 579-582. *)
Definition withdrawnAfterReject (totalWithdrawn amount : float) : float :=
  max0 (orZero totalWithdrawn - amount)%float.

(** The doubles that the literals 0.3 and 0.03 denote, and the double
    next above the first, which prints as 0.30000000000000004. *)
Definition threeTenths : float := 0x1.3333333333333p-2%float.
Definition threeHundredths : float := 0x1.eb851eb851eb8p-6%float.
Definition aboveThreeTenths : float := 0x1.3333333333334p-2%float.

End Binary64.

(** ** Sample data *)

(** A wallet model in line with the remark of line 170: a Completed
    withdrawal handed to [addTransaction] is deducted from the balance. *)
Definition deductingWallet : WalletModel :=
  {| completedEffect := fun ty a totals =>
       match ty with
       | withdrawal => (fst totals - a, snd totals)
       | refund => totals
       end |}.


(** Monday 5 January 1970 at noon, and the Wednesday after. *)
Definition mondayNoon : Z := (4 * 86400000 + 43200000)%Z.
Definition wednesdayNoon : Z := (6 * 86400000 + 43200000)%Z.

Definition cafe : RestaurantAuth := mkRestaurantAuth (Some 7%nat) "Cafe" "R-7".

Definition theAdmin : option AdminAuth := Some (mkAdminAuth (Some 99%nat)).

(** An order of 100 delivered to the cafe on Monday. *)
Definition mondayOrder : Order :=
  mkOrder "delivered" (idToString 7%nat) (Some mondayNoon) None mondayNoon
    (Some (mkPricing (Some 100) None)).

(** The cafe holds 20 in its wallet and has 90 of payout in the week. *)
Definition cafeDb : Db :=
  mkDb [] [mkWallet 7%nat 20 0 []] [mondayOrder]
    [mkRestaurant 7%nat "Cafe" "R-7"] 1%nat.

Definition ask (a : Q) : CreateRequest :=
  mkCreateRequest (Some cafe) (AmountNumber a).


(** A Pending request of 50 with its transaction, in a wallet whose
    [totalWithdrawn] stands at 20. *)
Definition lowWithdrawnDb : Db :=
  mkDb [mkRequest 1%nat 7%nat 50 Pending "Cafe" "R-7" (Some 2%nat)
          mondayNoon None None None]
    [mkWallet 7%nat 0 20
       [mkTransaction 2%nat 50 withdrawal TxPending
          "Withdrawal request created - Request ID: 000000000000000000000001"
          None]]
    [] [mkRestaurant 7%nat "Cafe" "R-7"] 3%nat.

(** The cafe without its restaurant document, and the database after its
    request of 10 was accepted there: line 144 finds no document, and
    lines 153-157 fall back on the authenticated restaurant's names. *)
Definition noDocumentDb : Db :=
  mkDb [] [mkWallet 7%nat 20 0 []] [mondayOrder] [] 1%nat.

Definition strandedDb : Db :=
  mkDb [mkRequest 1%nat 7%nat 10 Pending "Cafe" "R-7" (Some 2%nat)
          wednesdayNoon None None None]
    [mkWallet 7%nat 10 10
       [mkTransaction 2%nat 10 withdrawal TxPending
          "Withdrawal request created - Request ID: 000000000000000000000001"
          None]]
    [mondayOrder] [] 3%nat.

(** A query engine to run the listings on sample data: patterns are
    matched literally, the newest request comes first, and [skip] and
    [limit] count rows. *)
Fixpoint insertNewestFirst (r : WithdrawalRequest)
  (l : list WithdrawalRequest) : list WithdrawalRequest :=
  match l with
  | [] => [r]
  | x :: rest =>
      if (createdAt x <=? createdAt r)%Z then r :: x :: rest
      else x :: insertNewestFirst r rest
  end.

Definition sortNewestFirst (l : list WithdrawalRequest)
  : list WithdrawalRequest :=
  fold_right insertNewestFirst [] l.

Definition listEngine : QueryEngine :=
  {| regexTest := fun pattern subject => includes pattern subject;
     sortSkipLimit := fun skip limit l =>
       firstn (Z.to_nat limit) (skipn (Z.to_nat skip) (sortNewestFirst l)) |}.

(** The request of [lowWithdrawnDb] once it has been approved. *)
Definition approvedDb : Db :=
  mkDb [mkRequest 1%nat 7%nat 50 Approved "Cafe" "R-7" (Some 2%nat)
          mondayNoon (Some wednesdayNoon) (Some 99%nat) None]
    [mkWallet 7%nat 0 50
       [mkTransaction 2%nat 50 withdrawal TxCompleted
          "Withdrawal request created - Request ID: 000000000000000000000001"
          (Some wednesdayNoon)]]
    [] [mkRestaurant 7%nat "Cafe" "R-7"] 3%nat.

(** ** What the operations leave alone *)

(** What makes a request the request it is: everything but its status, its
    processing stamps and its rejection reason. *)
Definition requestCore (r : WithdrawalRequest)
  : ObjectId * ObjectId * Q * Z * string * string :=
  (_id r, restaurantId r, amount r, createdAt r, restaurantName r,
   restaurantIdString r).

(** What makes a ledger entry the entry it is: everything but its status
    and its processing date. *)
Definition entryCore (t : Transaction) : ObjectId * Q * TxType * string :=
  (t_id t, t_amount t, t_type t, t_description t).

(** Request ids are unique and come from the counter, as the database
    hands them out. *)
Definition UniqueIds (db : Db) : Prop :=
  NoDup (map _id (requests db))
  /\ forall r, In r (requests db) -> (_id r < nextId db)%nat.

(** Whether an operation is a create that went through. *)
Definition createdBy `{WalletModel} (op : Op) (db : Db) : bool :=
  match op with
  | OpCreate _ _ => isSuccess (fst (step op db))
  | _ => false
  end.

(** The food price of an order, as line 95 reads it. *)
Definition foodPriceOf (o : Order) : Q :=
  optOrZero (match pricing o with Some p => subtotal p | None => None end)
  - optOrZero (match pricing o with Some p => discount p | None => None end).

(** A query engine answers with rows of the collection it was given. *)
Definition AnswersFromInput `{QueryEngine} : Prop :=
  forall skip limit l r, In r (sortSkipLimit skip limit l) -> In r l.

(** Every wallet has withdrawn at least what its restaurant's Pending
    request asks for, and nothing negative. *)
Definition WithdrawnCovers (db : Db) : Prop :=
  (forall w, In w (wallets db) -> 0 <= totalWithdrawn w)
  /\ (forall r w, In r (requests db) -> status r = Pending ->
        findWallet (restaurantId r) (wallets db) = Some w ->
        amount r <= totalWithdrawn w).

(** The ledger as the three operations keep it. *)
Definition ClosedLedger (db : Db) : Prop :=
  OnePendingInv db /\ LedgerInv db /\ WithdrawnCovers db.

(** * The restaurant's notifications page

    [Notifications] of the frontend: the list it shows is computed from the
    orders it fetched and from the ids the user dismissed, which it keeps
    in local storage.  Strings are sequences of characters below 256. *)

(** [String.prototype.toLowerCase] on the letters A-Z; other characters
    stay as they are. *)
Definition lowerChar (c : ascii) : ascii :=
  let n := nat_of_ascii c in
  if ((65 <=? n) && (n <=? 90))%nat then ascii_of_nat (n + 32) else c.

Fixpoint toLowerCase (s : string) : string :=
  match s with
  | EmptyString => EmptyString
  | String c rest => String (lowerChar c) (toLowerCase rest)
  end.

(** [getStatusLabel]; an absent status is the default argument, the
    empty string. *)
Definition getStatusLabel (status : option string) : string :=
  let normalized :=
    toLowerCase (match status with Some s => s | None => EmptyString end) in
  if String.eqb normalized "confirmed" then "New order received"
  else if String.eqb normalized "preparing" then "Order is preparing"
  else if String.eqb normalized "ready" then "Order is ready for pickup"
  else if String.eqb normalized "out_for_delivery"
       then "Order out for delivery"
  else if String.eqb normalized "delivered" then "Order delivered"
  else if String.eqb normalized "cancelled" then "Order cancelled"
  else if String.eqb normalized "rejected" then "Order rejected"
  else "Order update".

(** An order as the page reads it; a date is given by its milliseconds
    when the field holds one. *)
Record OrderRow := mkOrderRow {
  row_id : option string;
  row_orderId : option string;
  row_status : option string;
  row_updatedAt : option Z;
  row_createdAt : option Z
}.

Record NotificationItem := mkNotificationItem {
  item_id : option string;
  item_orderId : string;
  item_message : string;
  item_timeValue : Z;
  item_time : string
}.

(** [a || b] on strings that may be absent. *)
Definition orElse (a b : option string) : option string :=
  match a with
  | Some (String _ _) => a
  | _ => b
  end.

(** [Date.prototype.toLocaleString] with the options of the page. *)
Class Locale := {
  toLocaleString : Z -> string
}.

(** [[...new Set(l)]]: the first occurrence of each element, in order. *)
Fixpoint setInOrder (seen l : list string) : list string :=
  match l with
  | [] => []
  | x :: rest =>
      if existsb (String.eqb x) seen then setInOrder seen rest
      else x :: setInOrder (x :: seen) rest
  end.

(** [Array.prototype.sort] with [(a, b) => b.timeValue - a.timeValue]:
    the stable sort, newest first. *)
Fixpoint insertByTime (x : NotificationItem) (l : list NotificationItem)
  : list NotificationItem :=
  match l with
  | [] => [x]
  | y :: rest =>
      if (item_timeValue y <=? item_timeValue x)%Z then x :: y :: rest
      else y :: insertByTime x rest
  end.

Definition sortByTime (l : list NotificationItem) : list NotificationItem :=
  fold_right insertByTime [] l.

(** The order the page shows its items in. *)
Definition newestFirst (a b : NotificationItem) : Prop :=
  (item_timeValue b <= item_timeValue a)%Z.

(** The filter of the page: [item.id && !dismissedIds.includes(item.id)]. *)
Definition shown (dismissedIds : list string) (item : NotificationItem)
  : bool :=
  match item_id item with
  | Some (String c rest) =>
      negb (existsb (String.eqb (String c rest)) dismissedIds)
  | _ => false
  end.

(** [removeNotification]. *)
Definition removeNotification (id : string) (prev : list string)
  : list string :=
  if existsb (String.eqb id) prev then prev else prev ++ [id].

Section NotificationsPage.

Context `{Locale}.

(** The object built for an order in the [map] of [notifications]. *)
Definition toItem (order : OrderRow) : NotificationItem :=
  let id := orElse (row_id order) (row_orderId order) in
  let timestamp :=
    match row_updatedAt order with
    | Some t => Some t
    | None => row_createdAt order
    end in
  mkNotificationItem id
    (match row_orderId order with
     | Some (String c rest) => String c rest
     | _ => "N/A"
     end)
    (getStatusLabel (row_status order))
    (match timestamp with Some t => t | None => 0%Z end)
    (match timestamp with Some t => toLocaleString t | None => "N/A" end).

(** [notifications]. *)
Definition notifications (orders : list OrderRow)
  (dismissedIds : list string) : list NotificationItem :=
  sortByTime (filter (shown dismissedIds) (map toItem orders)).

(** The ids [clearAll] collects: [notifications.map((n) =>
    n.id).filter(Boolean)]. *)
Definition shownIds (orders : list OrderRow) (dismissedIds : list string)
  : list string :=
  flat_map (fun n => match item_id n with
                     | Some (String c rest) => [String c rest]
                     | _ => []
                     end)
    (notifications orders dismissedIds).

(** [clearAll]. *)
Definition clearAll (orders : list OrderRow) (prev : list string)
  : list string :=
  setInOrder [] (prev ++ shownIds orders prev).

End NotificationsPage.

(** * The add-on list page: [formatAddonId] *)

Definition isDigit (c : ascii) : bool :=
  let n := nat_of_ascii c in ((48 <=? n) && (n <=? 57))%nat.

(** The separators of [split(/[-.]/)]. *)
Definition isSeparator (c : ascii) : bool :=
  let n := nat_of_ascii c in ((n =? 45) || (n =? 46))%nat.

(** [idString.split(/[-.]/)]. *)
Fixpoint splitParts (s : string) : list string :=
  match s with
  | EmptyString => [EmptyString]
  | String c rest =>
      if isSeparator c then EmptyString :: splitParts rest
      else match splitParts rest with
           | p :: ps => String c p :: ps
           | [] => [String c EmptyString]
           end
  end.

(** [s.match(/\d+/g).join("")], the empty string standing for no match. *)
Fixpoint digitsOf (s : string) : string :=
  match s with
  | EmptyString => EmptyString
  | String c rest =>
      if isDigit c then String c (digitsOf rest) else digitsOf rest
  end.

(** [parts.join("")]. *)
Definition joinParts (parts : list string) : string :=
  fold_right String.append EmptyString parts.

Fixpoint dropChars (n : nat) (s : string) : string :=
  match n, s with
  | O, _ => s
  | S k, String _ rest => dropChars k rest
  | S _, EmptyString => EmptyString
  end.

(** [s.slice(-n)]. *)
Definition sliceLast (n : nat) (s : string) : string :=
  dropChars (String.length s - n) s.

Fixpoint zeros (n : nat) : string :=
  match n with
  | O => EmptyString
  | S k => String "0" (zeros k)
  end.

(** [s.padStart(n, "0")]. *)
Definition padStart (n : nat) (s : string) : string :=
  (zeros (n - String.length s) ++ s)%string.

(** [x | 0]: the 32-bit signed integer of [x]. *)
Definition toInt32 (x : Z) : Z :=
  ((x + 2147483648) mod 4294967296 - 2147483648)%Z.

(** The hash of lines 534-536 of the page:
    [((acc << 5) - acc) + char.charCodeAt(0) | 0] over the characters. *)
Fixpoint hashFrom (acc : Z) (s : string) : Z :=
  match s with
  | EmptyString => acc
  | String c rest =>
      hashFrom
        (toInt32 (toInt32 (acc * 32) - acc + Z.of_nat (nat_of_ascii c)))
        rest
  end.

(** [Math.abs(hash).toString()]. *)
Definition absToString (hash : Z) : string :=
  NilZero.string_of_uint (N.to_uint (Z.to_N (Z.abs hash))).

(** [formatAddonId]; the id is given as its string, the empty string
    standing for a falsy id. *)
Definition formatAddonId (id : string) : string :=
  match id with
  | EmptyString => "ADDON000000"
  | _ =>
      let idString := id in
      let parts := splitParts idString in
      let lastPart := last parts EmptyString in
      let digits := digitsOf lastPart in
      let lastDigits :=
        match digits with
        | String _ _ => padStart 6 (sliceLast 6 digits)
        | EmptyString =>
            let allParts := joinParts parts in
            let allDigits := digitsOf allParts in
            match allDigits with
            | String _ _ => padStart 6 (sliceLast 6 allDigits)
            | EmptyString => EmptyString
            end
        end in
      let lastDigits :=
        match lastDigits with
        | EmptyString =>
            let hash := hashFrom 0 idString in
            padStart 6 (sliceLast 6 (absToString hash))
        | _ => lastDigits
        end in
      ("ADDON" ++ lastDigits)%string
  end.

(** Every character of a string is a decimal digit. *)
Fixpoint allDigits (s : string) : bool :=
  match s with
  | EmptyString => true
  | String c rest => isDigit c && allDigits rest
  end.

(** No character of a string is a separator. *)
Fixpoint noSeparator (s : string) : bool :=
  match s with
  | EmptyString => true
  | String c rest => negb (isSeparator c) && noSeparator rest
  end.

(** * Properties *)

(** ** Coercions *)

Lemma orZero_eq (x : Q) : orZero x == x.
Proof.
  unfold orZero. destruct (Qeq_bool x 0) eqn:E.
  - apply Qeq_bool_eq in E. symmetry. exact E.
  - reflexivity.
Qed.

Lemma Qgtb_true (a b : Q) : Qgtb a b = true <-> b < a.
Proof.
  unfold Qgtb. rewrite negb_true_iff. split; intro E.
  - apply Qnot_le_lt. intro L. apply Qle_bool_iff in L. congruence.
  - destruct (Qle_bool a b) eqn:L; [|reflexivity].
    apply Qle_bool_iff in L. lra.
Qed.

Lemma Qgtb_false (a b : Q) : Qgtb a b = false <-> a <= b.
Proof.
  unfold Qgtb. rewrite negb_false_iff. apply Qle_bool_iff.
Qed.

Lemma Qle_bool_false (a b : Q) : Qle_bool a b = false <-> b < a.
Proof.
  rewrite <- Qgtb_true. unfold Qgtb. rewrite negb_true_iff. reflexivity.
Qed.

(** ** Wallet storage *)

Lemma findWallet_owner rid ws w :
  findWallet rid ws = Some w -> w_restaurantId w = rid.
Proof.
  unfold findWallet. intro E. apply find_some in E. destruct E as [_ E].
  apply Nat.eqb_eq in E. exact E.
Qed.

Lemma findWallet_app_new rid rid' ws w :
  findWallet rid ws = None -> w_restaurantId w = rid ->
  findWallet rid' (ws ++ [w]) =
  if Nat.eqb rid rid' then Some w else findWallet rid' ws.
Proof.
  unfold findWallet. intros N O. induction ws as [|x ws IH]; simpl in *.
  - rewrite O. destruct (Nat.eqb rid rid'); reflexivity.
  - destruct (Nat.eqb (w_restaurantId x) rid) eqn:E1; [discriminate|].
    destruct (Nat.eqb (w_restaurantId x) rid') eqn:E2.
    + destruct (Nat.eqb rid rid') eqn:E3; [|reflexivity].
      apply Nat.eqb_eq in E3. subst rid'. congruence.
    + apply IH. exact N.
Qed.

Section WalletFacts.

Context `{WalletModel}.

Lemma findOrCreate_spec rid db wallet db1 :
  findOrCreateByRestaurantId rid db = (wallet, db1) ->
  requests db1 = requests db /\ orders db1 = orders db
  /\ restaurants db1 = restaurants db /\ nextId db1 = nextId db
  /\ findWallet rid (wallets db1) = Some wallet
  /\ w_restaurantId wallet = rid
  /\ (forall r w, findWallet r (wallets db) = Some w ->
                  findWallet r (wallets db1) = Some w)
  /\ (forall w, In w (wallets db1) ->
                In w (wallets db) \/ w = mkWallet rid 0 0 []).
Proof.
  unfold findOrCreateByRestaurantId. intro E.
  destruct (findWallet rid (wallets db)) as [w|] eqn:F.
  - inversion E; subst. repeat split; auto.
    eapply findWallet_owner; eauto.
  - inversion E; subst. simpl. repeat split; auto.
    + rewrite (findWallet_app_new rid rid); auto. now rewrite Nat.eqb_refl.
    + intros r w Fr. rewrite (findWallet_app_new rid r); auto.
      destruct (Nat.eqb rid r) eqn:Er; [|exact Fr].
      apply Nat.eqb_eq in Er. subst r. congruence.
    + intros w I. apply in_app_or in I. destruct I as [I|[I|[]]]; auto.
Qed.

(** An answer of [createWithdrawalRequest] other than the 201 leaves the
    requests and every stored wallet as they were. *)
Lemma create_refusal_frame now req db :
  isSuccess (fst (createWithdrawalRequest now req db)) = false ->
  requests (snd (createWithdrawalRequest now req db)) = requests db
  /\ nextId (snd (createWithdrawalRequest now req db)) = nextId db
  /\ (forall r w, findWallet r (wallets db) = Some w ->
       findWallet r (wallets (snd (createWithdrawalRequest now req db)))
       = Some w)
  /\ (forall w, In w (wallets (snd (createWithdrawalRequest now req db))) ->
       In w (wallets db) \/ totalBalance w = 0).
Proof.
  unfold createWithdrawalRequest.
  destruct (req_restaurant req) as [restaurant|]; [|auto].
  destruct (ra_id restaurant) as [rid|]; [|auto].
  destruct (amountFalsy (body_amount req) || amountLeZero (body_amount req));
    [auto|].
  destruct (findOrCreateByRestaurantId rid db) as [wallet db1] eqn:F.
  apply findOrCreate_spec in F.
  destruct F as (Rq & _ & _ & Nx & _ & _ & Keep & New).
  assert (New' : forall w, In w (wallets db1) ->
                           In w (wallets db) \/ totalBalance w = 0).
  { intros w I. destruct (New w I) as [O| ->]; [left; exact O|right].
    reflexivity. }
  destruct (parseFloat (body_amount req)) as [a|]; [|auto].
  destruct (Qle_bool a 0); [auto|].
  destruct (Qgtb a (effectiveAvailableBalance now rid wallet db1)); [auto|].
  destruct (find (pendingOf rid) (requests db1)); [auto|].
  simpl. discriminate.
Qed.

End WalletFacts.

Section CreateChecks.

Context `{WalletModel}.

(** C1.  A call of [createWithdrawalRequest] whose amount is greater than
    the effective available balance (the greater of the wallet's stored
    balance and the weekly-cycle availability) is answered with a client
    error, and no withdrawal request is created by it; the stored wallets
    keep their contents as well. *)
Theorem create_rejects_over_balance (now : Z) (req : CreateRequest) (db : Db)
  (a : Q) :
  parseFloat (body_amount req) = Some a ->
  (forall rid, authenticatedAs req = Some rid -> availableFor now rid db < a) ->
  isClientError (fst (createWithdrawalRequest now req db)) = true
  /\ requests (snd (createWithdrawalRequest now req db)) = requests db
  /\ forall r w, findWallet r (wallets db) = Some w ->
       findWallet r (wallets (snd (createWithdrawalRequest now req db)))
       = Some w.
Proof.
  intros P Over.
  assert (C : isClientError (fst (createWithdrawalRequest now req db)) = true).
  { revert Over. unfold authenticatedAs, availableFor, createWithdrawalRequest.
    destruct (req_restaurant req) as [restaurant|]; [|reflexivity].
    destruct (ra_id restaurant) as [rid|]; [|reflexivity].
    intro Over. specialize (Over rid eq_refl).
    destruct (amountFalsy (body_amount req)
              || amountLeZero (body_amount req)); [reflexivity|].
    destruct (findOrCreateByRestaurantId rid db) as [wallet db1].
    rewrite P.
    destruct (Qle_bool a 0); [reflexivity|].
    apply Qgtb_true in Over. rewrite Over. reflexivity. }
  split; [exact C|].
  assert (S : isSuccess (fst (createWithdrawalRequest now req db)) = false).
  { destruct (fst (createWithdrawalRequest now req db)); [reflexivity|].
    discriminate C. }
  destruct (create_refusal_frame now req db S) as (R & _ & W & _).
  split; assumption.
Qed.

End CreateChecks.

(** ** The weekly cycle is the current Monday-Sunday week *)

Lemma cycleStart_day (now : Z) :
  dayNumber (cycleStartOf now) = (7 * weekNumber now - 3)%Z.
Proof.
  unfold cycleStartOf, weekNumber, getDay.
  unfold dayNumber at 1. rewrite Z.div_mul by (unfold msPerDay; lia).
  generalize (dayNumber now). intro d.
  destruct (Z.eqb_spec ((d + 4) mod 7) 0); Z.div_mod_to_equations; lia.
Qed.

Lemma cycleStart_eq (now : Z) :
  cycleStartOf now = ((7 * weekNumber now - 3) * msPerDay)%Z.
Proof.
  rewrite <- cycleStart_day. unfold cycleStartOf.
  set (k := if (getDay now =? 0)%Z then 6%Z else (getDay now - 1)%Z).
  unfold dayNumber at 2. rewrite Z.div_mul by (unfold msPerDay; lia).
  reflexivity.
Qed.

Lemma cycle_window (now t : Z) :
  (cycleStartOf now <= t <= cycleEndOf (cycleStartOf now))%Z
  <-> weekNumber t = weekNumber now.
Proof.
  unfold cycleEndOf. rewrite cycleStart_day, cycleStart_eq.
  unfold weekNumber at 3. generalize (weekNumber now). intro w.
  unfold dayNumber, msPerDay. Z.div_mod_to_equations; lia.
Qed.

(** The cycle opens on a Monday at midnight, closes on the Sunday after,
    one millisecond before midnight, and contains the current instant. *)
Lemma cycle_is_monday_to_sunday (now : Z) :
  getDay (cycleStartOf now) = 1%Z
  /\ (cycleStartOf now mod msPerDay = 0)%Z
  /\ getDay (cycleEndOf (cycleStartOf now)) = 0%Z
  /\ (cycleEndOf (cycleStartOf now) mod msPerDay = msPerDay - 1)%Z
  /\ (cycleStartOf now <= now <= cycleEndOf (cycleStartOf now))%Z.
Proof.
  split; [|split; [|split; [|split]]].
  - unfold getDay. rewrite cycleStart_day. Z.div_mod_to_equations; lia.
  - rewrite cycleStart_eq. apply Z.mod_mul. unfold msPerDay; lia.
  - unfold getDay, cycleEndOf. rewrite cycleStart_day.
    generalize (weekNumber now). intro w.
    unfold dayNumber, msPerDay. Z.div_mod_to_equations; lia.
  - unfold cycleEndOf. rewrite cycleStart_day.
    generalize (weekNumber now). intro w.
    unfold msPerDay. Z.div_mod_to_equations; lia.
  - apply cycle_window. reflexivity.
Qed.

Lemma inRange_week (now : Z) (t : option Z) :
  inRange (cycleStartOf now) (cycleEndOf (cycleStartOf now)) t
  = inCurrentWeek now t.
Proof.
  destruct t as [x|]; [|reflexivity]. simpl.
  destruct (Z.eqb_spec (weekNumber x) (weekNumber now)) as [E|E].
  - apply cycle_window in E. destruct E as [E1 E2].
    apply Z.leb_le in E1, E2. rewrite E1, E2. reflexivity.
  - apply not_true_is_false. intro T. apply E. apply cycle_window.
    apply andb_prop in T. destruct T as [T1 T2].
    apply Z.leb_le in T1, T2. split; assumption.
Qed.

Lemma deliveredInCycle_spec (now : Z) (rid : ObjectId) (o : Order) :
  deliveredInCycle (restaurantIdVariations (idToString rid)) (idToString rid)
    (cycleStartOf now) (cycleEndOf (cycleStartOf now)) o
  = spec_deliveredThisWeek now rid o.
Proof.
  unfold deliveredInCycle, spec_deliveredThisWeek, restaurantIdVariations.
  rewrite !inRange_week. simpl. rewrite String.eqb_refl. simpl.
  destruct (String.eqb (o_status o) "delivered"); simpl; [|reflexivity].
  destruct (String.eqb (o_restaurantId o) (idToString rid)); reflexivity.
Qed.

(** ** Sums *)

Lemma fold_left_sum {A : Type} (f : A -> Q) (l : list A) (acc : Q) :
  fold_left (fun sum x => sum + f x) l acc == acc + sumQ (map f l).
Proof.
  revert acc. induction l as [|x l IH]; intro acc; simpl.
  - lra.
  - rewrite IH. lra.
Qed.

Lemma sumQ_ext {A : Type} (f g : A -> Q) (l : list A) :
  (forall x, f x == g x) -> sumQ (map f l) == sumQ (map g l).
Proof.
  intro E. induction l as [|x l IH]; simpl; [reflexivity|].
  rewrite IH, (E x). reflexivity.
Qed.

Lemma optOrZero_eq (o : option Q) : optOrZero o == valueOr0 o.
Proof. destruct o; simpl; [apply orZero_eq|reflexivity]. Qed.

Lemma cyclePayoutOf_sum (l : list Order) :
  cyclePayoutOf l == sumQ (map spec_netRevenue l).
Proof.
  unfold cyclePayoutOf. rewrite fold_left_sum.
  rewrite (sumQ_ext _ spec_netRevenue).
  - lra.
  - intro o. unfold spec_netRevenue. rewrite !optOrZero_eq.
    apply Q.max_compat; [reflexivity|]. field.
Qed.

Lemma totalExisting_sum (l : list WithdrawalRequest) :
  totalExistingWithdrawalsOf l == sumQ (map amount l).
Proof.
  unfold totalExistingWithdrawalsOf. rewrite fold_left_sum.
  rewrite (sumQ_ext _ amount).
  - lra.
  - intro r. apply orZero_eq.
Qed.

Lemma Qmax_clamp_absorbed (a b : Q) :
  0 <= a -> Qmax a (Qmax 0 b) == Qmax a b.
Proof.
  intro A.
  destruct (Q.max_spec 0 b) as [[? E]|[? E]]; rewrite E; [reflexivity|].
  destruct (Q.max_spec a b) as [[? E2]|[? E2]]; rewrite E2;
    destruct (Q.max_spec a 0) as [[? E3]|[? E3]]; rewrite E3; lra.
Qed.

(** C2.  For a wallet of the data model (stored balance not negative), the
    balance [createWithdrawalRequest] checks against is the greater of the
    stored [totalBalance] and the weekly-cycle payout -- over the delivered
    orders of the current Monday-Sunday week, the sum of
    max(0, foodPrice - 10% of foodPrice), foodPrice being subtotal minus
    discount -- less the amounts of the restaurant's Pending and Approved
    withdrawal requests. *)
Theorem effective_balance_formula (now : Z) (rid : ObjectId)
  (wallet : RestaurantWallet) (db : Db) :
  0 <= totalBalance wallet ->
  effectiveAvailableBalance now rid wallet db
  == spec_effectiveAvailableBalance now rid wallet db.
Proof.
  intro NonNeg.
  unfold effectiveAvailableBalance, spec_effectiveAvailableBalance,
    spec_weeklyCyclePayout, spec_existingWithdrawals.
  rewrite (filter_ext _ _ (deliveredInCycle_spec now rid)).
  rewrite cyclePayoutOf_sum, totalExisting_sum, orZero_eq.
  rewrite Qmax_clamp_absorbed by exact NonNeg.
  rewrite (filter_ext (pendingOrApprovedOf rid)
             (fun r => Nat.eqb (restaurantId r) rid
                       && match status r with
                          | Pending | Approved => true
                          | _ => false
                          end)).
  - reflexivity.
  - intro r. unfold pendingOrApprovedOf. destruct (status r); reflexivity.
Qed.

(** ** What a successful create leaves behind *)

Section CreateEffects.

Context `{WalletModel}.

(** Every step of the 201 path, read off the handler. *)
Lemma create_success_inv now req db resp db' :
  createWithdrawalRequest now req db = (resp, db') ->
  isSuccess resp = true ->
  exists rid a wallet db1 wr t,
    authenticatedAs req = Some rid
    /\ parseFloat (body_amount req) = Some a
    /\ 0 < a
    /\ findOrCreateByRestaurantId rid db = (wallet, db1)
    /\ a <= effectiveAvailableBalance now rid wallet db1
    /\ find (pendingOf rid) (requests db) = None
    /\ resp = successResponse 201 RequestCreated (RequestData wr)
    /\ (_id wr = nextId db /\ restaurantId wr = rid /\ amount wr = a
        /\ status wr = Pending /\ transactionId wr = Some (t_id t))
    /\ t = mkTransaction (S (nextId db)) a withdrawal TxPending
             ("Withdrawal request created - Request ID: "
                ++ idToString (nextId db)) None
    /\ requests db' =
         map (fun x => if Nat.eqb (_id x) (nextId db) then wr else x)
             (requests db) ++ [wr]
    /\ wallets db' =
         map (fun x =>
                if Nat.eqb (w_restaurantId x) rid
                then mkWallet rid
                       (Qmax 0 (orZero (totalBalance wallet) - a))
                       (orZero (totalWithdrawn wallet) + a)
                       (transactions wallet ++ [t])
                else x)
             (wallets db1)
    /\ nextId db' = S (S (nextId db))
    /\ orders db' = orders db /\ restaurants db' = restaurants db.
Proof.
  unfold createWithdrawalRequest, authenticatedAs.
  destruct (req_restaurant req) as [restaurant|];
    [|intros E; inversion E; subst; discriminate].
  destruct (ra_id restaurant) as [rid|];
    [|intros E; inversion E; subst; discriminate].
  destruct (amountFalsy (body_amount req) || amountLeZero (body_amount req));
    [intros E; inversion E; subst; discriminate|].
  destruct (findOrCreateByRestaurantId rid db) as [wallet db1] eqn:F.
  pose proof (findOrCreate_spec _ _ _ _ F)
    as (Rq & Or & Rs & Nx & _ & Ow & _ & _).
  destruct (parseFloat (body_amount req)) as [a|];
    [|intros E; inversion E; subst; discriminate].
  destruct (Qle_bool a 0) eqn:Pos;
    [intros E; inversion E; subst; discriminate|].
  destruct (Qgtb a (effectiveAvailableBalance now rid wallet db1)) eqn:Av;
    [intros E; inversion E; subst; discriminate|].
  destruct (find (pendingOf rid) (requests db1)) eqn:Pd;
    [intros E; inversion E; subst; discriminate|].
  intros E _. inversion E; subst resp db'; clear E.
  apply Qle_bool_false in Pos. apply Qgtb_false in Av.
  rewrite Rq in Pd.
  eexists rid, a, wallet, db1, _,
    (mkTransaction (S (nextId db)) a withdrawal TxPending
       ("Withdrawal request created - Request ID: "
          ++ idToString (nextId db)) None).
  repeat (split; [first [reflexivity | assumption]|]).
  cbn [addTransaction saveRequest saveWallet withNextId withRequests
       withWallets requests wallets nextId orders restaurants fst snd
       d_status d_amount d_type d_description _id w_restaurantId
       totalBalance totalWithdrawn transactions t_id restaurantId amount
       status transactionId].
  rewrite Nx, Rq, Ow.
  repeat match goal with |- _ /\ _ => split end;
    try reflexivity; try assumption.
  rewrite map_app. cbn [map _id]. rewrite Nat.eqb_refl. reflexivity.
Qed.

End CreateEffects.

(** ** What approve and reject do once their guards are passed *)

Section SettleEffects.

Context `{WalletModel}.

Lemma findById_id id rs r : findById id rs = Some r -> _id r = id.
Proof.
  unfold findById. intro E. apply find_some in E. destruct E as [_ E].
  apply Nat.eqb_eq in E. exact E.
Qed.

Lemma findById_In id rs r : findById id rs = Some r -> In r rs.
Proof.
  unfold findById. intro E. apply find_some in E. tauto.
Qed.

Lemma findRestaurantById_id id rs r :
  findRestaurantById id rs = Some r -> r_id r = id.
Proof.
  unfold findRestaurantById. intro E. apply find_some in E.
  destruct E as [_ E]. apply Nat.eqb_eq in E. exact E.
Qed.

Lemma RequestStatus_eqb_eq a b : RequestStatus_eqb a b = true <-> a = b.
Proof. destruct a, b; simpl; split; congruence. Qed.

Lemma locate_processed s now adminId reason wallet r :
  locateTransaction wallet (processRequest s now adminId reason r)
  = locateTransaction wallet r.
Proof. reflexivity. Qed.

Lemma approvedWallet_owner now newId wallet found :
  w_restaurantId (approvedWallet now newId wallet found)
  = w_restaurantId wallet.
Proof.
  unfold approvedWallet. destruct (locateTransaction wallet found);
    reflexivity.
Qed.

Lemma rejectedWallet_owner now newId wallet found :
  w_restaurantId (rejectedWallet now newId wallet found)
  = w_restaurantId wallet.
Proof.
  unfold rejectedWallet. destruct (locateTransaction wallet found);
    reflexivity.
Qed.

Lemma approve_success_inv now admin id db resp db' :
  approveWithdrawalRequest now admin id db = (resp, db') ->
  isSuccess resp = true ->
  exists adminDoc adminId found wallet db1,
    admin = Some adminDoc /\ admin_id adminDoc = Some adminId
    /\ findById id (requests db) = Some found
    /\ status found = Pending
    /\ findOrCreateByRestaurantId (restaurantId found) db = (wallet, db1)
    /\ resp = successResponse 200 RequestApproved
                (RequestData (processRequest Approved now adminId None found))
    /\ requests db' =
         map (fun x => if Nat.eqb (_id x) id
                       then processRequest Approved now adminId None found
                       else x) (requests db)
    /\ wallets db' =
         map (fun x => if Nat.eqb (w_restaurantId x) (restaurantId found)
                       then approvedWallet now (nextId db) wallet found
                       else x) (wallets db1)
    /\ (nextId db <= nextId db')%nat
    /\ orders db' = orders db /\ restaurants db' = restaurants db.
Proof.
  unfold approveWithdrawalRequest.
  destruct admin as [adminDoc|];
    [|intros E; inversion E; subst; discriminate].
  destruct (admin_id adminDoc) as [adminId|] eqn:A;
    [|intros E; inversion E; subst; discriminate].
  destruct (findById id (requests db)) as [found|] eqn:Fd;
    [|intros E; inversion E; subst; discriminate].
  destruct (negb (RequestStatus_eqb (status found) Pending)) eqn:St;
    [intros E; inversion E; subst; discriminate|].
  apply negb_false_iff, RequestStatus_eqb_eq in St.
  destruct (findRestaurantById (restaurantId found) (restaurants db))
    as [restaurant|] eqn:Rd;
    [|intros E; inversion E; subst; discriminate].
  rewrite (findRestaurantById_id _ _ _ Rd).
  destruct (findOrCreateByRestaurantId (restaurantId found) db)
    as [wallet db1] eqn:F.
  pose proof (findOrCreate_spec _ _ _ _ F)
    as (Rq & Or & Rs & Nx & _ & Ow & _ & _).
  pose proof (findById_id _ _ _ Fd) as Id.
  rewrite locate_processed.
  destruct (locateTransaction wallet found) as [i|] eqn:L;
    intros E _; inversion E; subst resp db'; clear E;
    exists adminDoc, adminId, found, wallet, db1;
    unfold approvedWallet; rewrite L;
    cbn [addTransaction saveRequest saveWallet withNextId withRequests
       withWallets requests wallets nextId orders restaurants fst snd
       d_status d_amount d_type d_description _id w_restaurantId
       totalBalance totalWithdrawn transactions processRequest];
    rewrite ?Nx, ?Rq, ?Ow, ?Id;
    repeat match goal with |- _ /\ _ => split end;
    try reflexivity; try assumption; lia.
Qed.

Lemma reject_success_inv now admin id reason db resp db' :
  rejectWithdrawalRequest now admin id reason db = (resp, db') ->
  isSuccess resp = true ->
  exists adminDoc adminId found wallet db1,
    admin = Some adminDoc /\ admin_id adminDoc = Some adminId
    /\ findById id (requests db) = Some found
    /\ status found = Pending
    /\ findOrCreateByRestaurantId (restaurantId found) db = (wallet, db1)
    /\ resp = successResponse 200 RequestRejected
                (RequestData
                   (processRequest Rejected now adminId reason found))
    /\ requests db' =
         map (fun x => if Nat.eqb (_id x) id
                       then processRequest Rejected now adminId reason found
                       else x) (requests db)
    /\ wallets db' =
         map (fun x => if Nat.eqb (w_restaurantId x) (restaurantId found)
                       then rejectedWallet now (nextId db) wallet found
                       else x) (wallets db1)
    /\ (nextId db <= nextId db')%nat
    /\ orders db' = orders db /\ restaurants db' = restaurants db.
Proof.
  unfold rejectWithdrawalRequest.
  destruct admin as [adminDoc|];
    [|intros E; inversion E; subst; discriminate].
  destruct (admin_id adminDoc) as [adminId|] eqn:A;
    [|intros E; inversion E; subst; discriminate].
  destruct (findById id (requests db)) as [found|] eqn:Fd;
    [|intros E; inversion E; subst; discriminate].
  destruct (negb (RequestStatus_eqb (status found) Pending)) eqn:St;
    [intros E; inversion E; subst; discriminate|].
  apply negb_false_iff, RequestStatus_eqb_eq in St.
  destruct (findRestaurantById (restaurantId found) (restaurants db))
    as [restaurant|] eqn:Rd;
    [|intros E; inversion E; subst; discriminate].
  rewrite (findRestaurantById_id _ _ _ Rd).
  destruct (findOrCreateByRestaurantId (restaurantId found) db)
    as [wallet db1] eqn:F.
  pose proof (findOrCreate_spec _ _ _ _ F)
    as (Rq & Or & Rs & Nx & _ & Ow & _ & _).
  pose proof (findById_id _ _ _ Fd) as Id.
  rewrite locate_processed.
  destruct (locateTransaction wallet found) as [i|] eqn:L;
    intros E _; inversion E; subst resp db'; clear E;
    exists adminDoc, adminId, found, wallet, db1;
    unfold rejectedWallet; rewrite L;
    cbn [addTransaction saveRequest saveWallet withNextId withRequests
       withWallets requests wallets nextId orders restaurants fst snd
       d_status d_amount d_type d_description _id w_restaurantId
       totalBalance totalWithdrawn transactions processRequest amount];
    rewrite ?Nx, ?Rq, ?Ow, ?Id;
    repeat match goal with |- _ /\ _ => split end;
    try reflexivity; try assumption; lia.
Qed.

End SettleEffects.

(** ** Requests that are no longer Pending *)

Section Refusals.

Context `{WalletModel}.

Lemma status_not_pending s :
  s <> Pending <-> negb (RequestStatus_eqb s Pending) = true.
Proof. destruct s; simpl; split; congruence. Qed.

(** The answer of approve and of reject, guard by guard. *)
Lemma approve_outcome now adminDoc adminId id db :
  admin_id adminDoc = Some adminId ->
  match findById id (requests db) with
  | None =>
      approveWithdrawalRequest now (Some adminDoc) id db
      = (errorResponse 404 RequestNotFound, db)
  | Some found =>
      if negb (RequestStatus_eqb (status found) Pending)
      then approveWithdrawalRequest now (Some adminDoc) id db
           = (errorResponse 400 (AlreadyProcessed (status found)), db)
      else match findRestaurantById (restaurantId found) (restaurants db) with
           | None =>
               approveWithdrawalRequest now (Some adminDoc) id db
               = (errorResponse 500 ApproveFailed, db)
           | Some _ =>
               isSuccess
                 (fst (approveWithdrawalRequest now (Some adminDoc) id db))
               = true
           end
  end.
Proof.
  intro A. unfold approveWithdrawalRequest. rewrite A.
  destruct (findById id (requests db)) as [found|]; [|reflexivity].
  destruct (negb (RequestStatus_eqb (status found) Pending)); [reflexivity|].
  destruct (findRestaurantById (restaurantId found) (restaurants db))
    as [restaurant|]; [|reflexivity].
  destruct (findOrCreateByRestaurantId (r_id restaurant) db) as [wallet db1].
  destruct (locateTransaction wallet _); reflexivity.
Qed.

Lemma reject_outcome now adminDoc adminId id reason db :
  admin_id adminDoc = Some adminId ->
  match findById id (requests db) with
  | None =>
      rejectWithdrawalRequest now (Some adminDoc) id reason db
      = (errorResponse 404 RequestNotFound, db)
  | Some found =>
      if negb (RequestStatus_eqb (status found) Pending)
      then rejectWithdrawalRequest now (Some adminDoc) id reason db
           = (errorResponse 400 (AlreadyProcessed (status found)), db)
      else match findRestaurantById (restaurantId found) (restaurants db) with
           | None =>
               rejectWithdrawalRequest now (Some adminDoc) id reason db
               = (errorResponse 500 RejectFailed, db)
           | Some _ =>
               isSuccess
                 (fst (rejectWithdrawalRequest now (Some adminDoc) id reason
                         db))
               = true
           end
  end.
Proof.
  intro A. unfold rejectWithdrawalRequest. rewrite A.
  destruct (findById id (requests db)) as [found|]; [|reflexivity].
  destruct (negb (RequestStatus_eqb (status found) Pending)); [reflexivity|].
  destruct (findRestaurantById (restaurantId found) (restaurants db))
    as [restaurant|]; [|reflexivity].
  destruct (findOrCreateByRestaurantId (r_id restaurant) db) as [wallet db1].
  destruct (locateTransaction wallet _); reflexivity.
Qed.

(** When a handler, called by an authenticated administrator, answers
    with a client error, and when it fails at all. *)
Lemma settle_failures (answer : Response * Db) (failed : Message)
  (db : Db) (id : ObjectId) :
  match findById id (requests db) with
  | None => answer = (errorResponse 404 RequestNotFound, db)
  | Some found =>
      if negb (RequestStatus_eqb (status found) Pending)
      then answer = (errorResponse 400 (AlreadyProcessed (status found)), db)
      else match findRestaurantById (restaurantId found) (restaurants db) with
           | None => answer = (errorResponse 500 failed, db)
           | Some _ => isSuccess (fst answer) = true
           end
  end ->
  (forall found, findById id (requests db) = Some found ->
     status found <> Pending ->
     answer = (errorResponse 400 (AlreadyProcessed (status found)), db))
  /\ (isClientError (fst answer) = true
      <-> (findById id (requests db) = None
           \/ exists found, findById id (requests db) = Some found
                            /\ status found <> Pending))
  /\ (isSuccess (fst answer) = false
      <-> (findById id (requests db) = None
           \/ exists found,
                findById id (requests db) = Some found
                /\ (status found <> Pending
                    \/ findRestaurantById (restaurantId found)
                         (restaurants db) = None)))
  /\ (isSuccess (fst answer) = false -> snd answer = db).
Proof.
  destruct (findById id (requests db)) as [found|].
  - destruct (negb (RequestStatus_eqb (status found) Pending)) eqn:St.
    + apply status_not_pending in St. intros ->.
      split; [|split; [|split]].
      * intros f E _. inversion E; subst f. reflexivity.
      * split; [|reflexivity]. intros _. right. exists found. auto.
      * split; [|reflexivity]. intros _. right. exists found. auto.
      * reflexivity.
    + assert (P : status found = Pending).
      { apply negb_false_iff, RequestStatus_eqb_eq in St. exact St. }
      destruct (findRestaurantById (restaurantId found) (restaurants db))
        as [restaurant|] eqn:Rd.
      * intro S. split; [|split; [|split]].
        -- intros f E N. inversion E; subst f. contradiction.
        -- split.
           ++ destruct (fst answer); simpl in *;
                [discriminate S|intro X; discriminate X].
           ++ intros [N|(f & E & N)]; [discriminate|].
              inversion E; subst f. contradiction.
        -- rewrite S. split; [discriminate|].
           intros [N|(f & E & [N|N])]; [discriminate N| |];
             inversion E; subst f; [contradiction|congruence].
        -- rewrite S. discriminate.
      * intros ->. split; [|split; [|split]].
        -- intros f E N. inversion E; subst f. contradiction.
        -- split; [discriminate|].
           intros [N|(f & E & N)]; [discriminate|].
           inversion E; subst f. contradiction.
        -- split; [|reflexivity]. intros _. right. exists found. auto.
        -- reflexivity.
  - intros ->. split; [|split; [|split]].
    + intros f E. discriminate E.
    + split; [|reflexivity]. intros _. left. reflexivity.
    + split; [|reflexivity]. intros _. left. reflexivity.
    + reflexivity.
Qed.

(** C8.  With an authenticated administrator, approve and reject answer a
    request whose status is not Pending with a 400 and leave the whole
    database -- the request and the wallet included -- as it was.  They
    answer with a client error exactly when the request does not exist or
    is not Pending.  They fail for one more reason only, with a 500: the
    request is Pending and its restaurant document is missing.  Every
    failure leaves the database as it was. *)
Theorem settled_requests_are_refused (now : Z) (admin : option AdminAuth)
  (adminDoc : AdminAuth) (adminId id : ObjectId) (reason : option string)
  (db : Db) :
  admin = Some adminDoc -> admin_id adminDoc = Some adminId ->
  (forall found, findById id (requests db) = Some found ->
     status found <> Pending ->
     approveWithdrawalRequest now admin id db
     = (errorResponse 400 (AlreadyProcessed (status found)), db)
     /\ rejectWithdrawalRequest now admin id reason db
        = (errorResponse 400 (AlreadyProcessed (status found)), db))
  /\ (isClientError (fst (approveWithdrawalRequest now admin id db)) = true
      <-> (findById id (requests db) = None
           \/ exists found, findById id (requests db) = Some found
                            /\ status found <> Pending))
  /\ (isClientError (fst (rejectWithdrawalRequest now admin id reason db))
      = true
      <-> (findById id (requests db) = None
           \/ exists found, findById id (requests db) = Some found
                            /\ status found <> Pending))
  /\ (isSuccess (fst (approveWithdrawalRequest now admin id db)) = false
      <-> (findById id (requests db) = None
           \/ exists found,
                findById id (requests db) = Some found
                /\ (status found <> Pending
                    \/ findRestaurantById (restaurantId found)
                         (restaurants db) = None)))
  /\ (isSuccess (fst (rejectWithdrawalRequest now admin id reason db)) = false
      <-> (findById id (requests db) = None
           \/ exists found,
                findById id (requests db) = Some found
                /\ (status found <> Pending
                    \/ findRestaurantById (restaurantId found)
                         (restaurants db) = None)))
  /\ (isSuccess (fst (approveWithdrawalRequest now admin id db)) = false ->
      snd (approveWithdrawalRequest now admin id db) = db)
  /\ (isSuccess (fst (rejectWithdrawalRequest now admin id reason db)) = false
      -> snd (rejectWithdrawalRequest now admin id reason db) = db).
Proof.
  intros A1 A2. subst admin.
  destruct (settle_failures _ ApproveFailed db id
              (approve_outcome now adminDoc adminId id db A2))
    as (R1 & C1 & F1 & U1).
  destruct (settle_failures _ RejectFailed db id
              (reject_outcome now adminDoc adminId id reason db A2))
    as (R2 & C2 & F2 & U2).
  repeat match goal with |- _ /\ _ => split end; try assumption.
  intros found E N. split; [apply R1|apply R2]; assumption.
Qed.

Lemma approve_refusal_frame now admin id db :
  isSuccess (fst (approveWithdrawalRequest now admin id db)) = false ->
  snd (approveWithdrawalRequest now admin id db) = db.
Proof.
  unfold approveWithdrawalRequest.
  destruct admin as [adminDoc|]; [|reflexivity].
  destruct (admin_id adminDoc); [|reflexivity].
  destruct (findById id (requests db)) as [found|]; [|reflexivity].
  destruct (negb (RequestStatus_eqb (status found) Pending)); [reflexivity|].
  destruct (findRestaurantById (restaurantId found) (restaurants db))
    as [restaurant|]; [|reflexivity].
  destruct (findOrCreateByRestaurantId (r_id restaurant) db).
  destruct (locateTransaction r _); simpl; discriminate.
Qed.

Lemma reject_refusal_frame now admin id reason db :
  isSuccess (fst (rejectWithdrawalRequest now admin id reason db)) = false ->
  snd (rejectWithdrawalRequest now admin id reason db) = db.
Proof.
  unfold rejectWithdrawalRequest.
  destruct admin as [adminDoc|]; [|reflexivity].
  destruct (admin_id adminDoc); [|reflexivity].
  destruct (findById id (requests db)) as [found|]; [|reflexivity].
  destruct (negb (RequestStatus_eqb (status found) Pending)); [reflexivity|].
  destruct (findRestaurantById (restaurantId found) (restaurants db))
    as [restaurant|]; [|reflexivity].
  destruct (findOrCreateByRestaurantId (r_id restaurant) db).
  destruct (locateTransaction r _); simpl; discriminate.
Qed.

Lemma create_refusal_is_client_error now req db :
  isSuccess (fst (createWithdrawalRequest now req db)) = false ->
  isClientError (fst (createWithdrawalRequest now req db)) = true.
Proof.
  unfold createWithdrawalRequest.
  destruct (req_restaurant req) as [restaurant|]; [|reflexivity].
  destruct (ra_id restaurant) as [rid|]; [|reflexivity].
  destruct (amountFalsy (body_amount req) || amountLeZero (body_amount req));
    [reflexivity|].
  destruct (findOrCreateByRestaurantId rid db) as [wallet db1].
  destruct (parseFloat (body_amount req)) as [a|]; [|reflexivity].
  destruct (Qle_bool a 0); [reflexivity|].
  destruct (Qgtb a (effectiveAvailableBalance now rid wallet db1));
    [reflexivity|].
  destruct (find (pendingOf rid) (requests db1)); [reflexivity|].
  simpl. discriminate.
Qed.

End Refusals.

(** ** One Pending request per restaurant *)

Lemma find_none_filter_nil {A : Type} (p : A -> bool) (l : list A) :
  find p l = None -> filter p l = [].
Proof.
  induction l as [|x l IH]; simpl; [reflexivity|].
  destruct (p x); [discriminate|exact IH].
Qed.

Lemma map_replace_fresh (n : ObjectId) (wr : WithdrawalRequest)
  (l : list WithdrawalRequest) :
  (forall r, In r l -> (_id r < n)%nat) ->
  map (fun x => if Nat.eqb (_id x) n then wr else x) l = l.
Proof.
  intro Fr. induction l as [|x l IH]; simpl; [reflexivity|].
  rewrite IH by (intros r I; apply Fr; right; exact I).
  assert (L : (_id x < n)%nat) by (apply Fr; left; reflexivity).
  destruct (Nat.eqb_spec (_id x) n); [lia|reflexivity].
Qed.

Lemma filter_replace_le {A : Type} (p c : A -> bool) (y : A) (l : list A) :
  p y = false ->
  (List.length (filter p (map (fun x => if c x then y else x) l))
   <= List.length (filter p l))%nat.
Proof.
  intro N. induction l as [|x l IH]; simpl; [lia|].
  destruct (c x).
  - rewrite N. destruct (p x); simpl; lia.
  - destruct (p x); simpl; lia.
Qed.

Section OnePending.

Context `{WalletModel}.

Lemma settle_keeps_one_pending s now adminId reason found id db db' :
  s <> Pending ->
  findById id (requests db) = Some found ->
  requests db' =
    map (fun x => if Nat.eqb (_id x) id
                  then processRequest s now adminId reason found
                  else x) (requests db) ->
  (nextId db <= nextId db')%nat ->
  OnePendingInv db -> OnePendingInv db'.
Proof.
  intros NP Fd Rq Nx [Fresh One]. split.
  - intros r I. rewrite Rq in I. apply in_map_iff in I.
    destruct I as (x & E & I).
    destruct (Nat.eqb (_id x) id).
    + subst r. simpl. apply findById_In in Fd. apply Fresh in Fd. lia.
    + subst r. apply Fresh in I. lia.
  - intro rid. unfold pendingCount. rewrite Rq.
    etransitivity; [apply filter_replace_le|apply One].
    unfold pendingOf. simpl. destruct s; try contradiction;
      apply andb_false_r.
Qed.

Lemma step_keeps_one_pending (op : Op) (db : Db) :
  OnePendingInv db -> OnePendingInv (snd (step op db)).
Proof.
  intro Inv.
  destruct op as [now req|now admin id|now admin id reason]; simpl.
  + destruct (isSuccess (fst (createWithdrawalRequest now req db))) eqn:S.
    * destruct (createWithdrawalRequest now req db) as [resp db'] eqn:E.
      simpl in *.
      destruct (create_success_inv _ _ _ _ _ E S)
        as (rid & a & wallet & db1 & wr & t & _ & _ & _ & _ & _ & Pd
            & _ & (Id & Rid & _ & St & _) & _ & Rq & _ & Nx & _).
      destruct Inv as [Fresh One].
      rewrite map_replace_fresh in Rq by exact Fresh.
      split.
      -- intros r I. rewrite Rq in I. rewrite Nx.
         apply in_app_or in I. destruct I as [I|[I|[]]].
         ++ apply Fresh in I. lia.
         ++ subst r. lia.
      -- intro rid'. unfold pendingCount. rewrite Rq, filter_app.
         rewrite length_app. simpl.
         unfold pendingOf at 2. rewrite Rid, St.
         destruct (Nat.eqb_spec rid rid') as [->|Ne]; simpl.
         ++ rewrite (find_none_filter_nil _ _ Pd). simpl. lia.
         ++ specialize (One rid'). unfold pendingCount in One. lia.
    * destruct (create_refusal_frame now req db S) as (Rq & Nx & _ & _).
      destruct Inv as [Fresh One]. split.
      -- intros r I. rewrite Rq in I. rewrite Nx. auto.
      -- intro rid. unfold pendingCount. rewrite Rq. apply One.
  + destruct (isSuccess (fst (approveWithdrawalRequest now admin id db)))
      eqn:S.
    * destruct (approveWithdrawalRequest now admin id db) as [resp db']
        eqn:E. simpl in *.
      destruct (approve_success_inv _ _ _ _ _ _ E S)
        as (adminDoc & adminId & found & wallet & db1 & _ & _ & Fd & _
            & _ & _ & Rq & _ & Nx & _).
      eapply settle_keeps_one_pending; eauto. discriminate.
    * rewrite (approve_refusal_frame _ _ _ _ S). exact Inv.
  + destruct (isSuccess
                (fst (rejectWithdrawalRequest now admin id reason db)))
      eqn:S.
    * destruct (rejectWithdrawalRequest now admin id reason db)
        as [resp db'] eqn:E. simpl in *.
      destruct (reject_success_inv _ _ _ _ _ _ _ E S)
        as (adminDoc & adminId & found & wallet & db1 & _ & _ & Fd & _
            & _ & _ & Rq & _ & Nx & _).
      eapply settle_keeps_one_pending; eauto. discriminate.
    * rewrite (reject_refusal_frame _ _ _ _ _ S). exact Inv.
Qed.

Lemma create_refused_when_pending now req rid db :
  authenticatedAs req = Some rid ->
  (exists r, In r (requests db) /\ restaurantId r = rid
             /\ status r = Pending) ->
  isClientError (fst (createWithdrawalRequest now req db)) = true
  /\ requests (snd (createWithdrawalRequest now req db)) = requests db.
Proof.
  intros Auth (r & I & Rid & St).
  assert (S : isSuccess (fst (createWithdrawalRequest now req db)) = false).
  { destruct (isSuccess (fst (createWithdrawalRequest now req db))) eqn:S;
      [|reflexivity].
    destruct (createWithdrawalRequest now req db) as [resp db'] eqn:E.
    simpl in S.
    destruct (create_success_inv _ _ _ _ _ E S)
      as (rid' & a & wallet & db1 & wr & t & Auth' & _ & _ & _ & _ & Pd
          & _).
    rewrite Auth in Auth'. inversion Auth'; subst rid'.
    pose proof (find_none _ _ Pd r I) as N. unfold pendingOf in N.
    rewrite Rid, St, Nat.eqb_refl in N. discriminate N. }
  split.
  + apply create_refusal_is_client_error. exact S.
  + apply create_refusal_frame. exact S.
Qed.

(** C3.  At most one Pending request per restaurant is an invariant of
    the three operations; and [createWithdrawalRequest], called for a
    restaurant that has a Pending request, answers with a client error
    and leaves the requests as they are. *)
Theorem one_pending_per_restaurant (op : Op) (db : Db) :
  OnePendingInv db ->
  OnePendingInv (snd (step op db))
  /\ forall now req rid,
       op = OpCreate now req ->
       authenticatedAs req = Some rid ->
       (exists r, In r (requests db) /\ restaurantId r = rid
                  /\ status r = Pending) ->
       isClientError (fst (step op db)) = true
       /\ requests (snd (step op db)) = requests db.
Proof.
  intro Inv. split.
  - apply step_keeps_one_pending. exact Inv.
  - intros now req rid -> Auth Ex. simpl.
    apply create_refused_when_pending with (rid := rid); assumption.
Qed.

(** The same along any sequence of operations. *)
Corollary one_pending_along_runs (ops : list Op) (db : Db) :
  OnePendingInv db -> OnePendingInv (run ops db).
Proof.
  revert db. induction ops as [|op ops IH]; intros db Inv; simpl.
  - exact Inv.
  - apply IH. apply step_keeps_one_pending. exact Inv.
Qed.

End OnePending.

(** ** A successful create *)

Lemma findWallet_replace rid ws w w' :
  findWallet rid ws = Some w -> w_restaurantId w' = rid ->
  findWallet rid
    (map (fun x => if Nat.eqb (w_restaurantId x) rid then w' else x) ws)
  = Some w'.
Proof.
  unfold findWallet. intros F O.
  induction ws as [|x ws IH]; simpl in *; [discriminate|].
  destruct (Nat.eqb (w_restaurantId x) rid) eqn:E; simpl.
  - rewrite O, Nat.eqb_refl. reflexivity.
  - rewrite E. apply IH. exact F.
Qed.

Lemma findWallet_replace_other rid rid' ws w' :
  w_restaurantId w' = rid -> rid <> rid' ->
  findWallet rid'
    (map (fun x => if Nat.eqb (w_restaurantId x) rid then w' else x) ws)
  = findWallet rid' ws.
Proof.
  unfold findWallet. intros O Ne.
  induction ws as [|x ws IH]; simpl in *; [reflexivity|].
  destruct (Nat.eqb_spec (w_restaurantId x) rid) as [E|E]; simpl.
  - rewrite O, E. destruct (Nat.eqb_spec rid rid'); [contradiction|exact IH].
  - destruct (Nat.eqb (w_restaurantId x) rid'); [reflexivity|exact IH].
Qed.

Lemma findById_replaced n wr l :
  _id wr = n ->
  findById n (map (fun x => if Nat.eqb (_id x) n then wr else x) l ++ [wr])
  = Some wr.
Proof.
  intro Id. unfold findById. induction l as [|x l IH]; simpl.
  - rewrite Id, Nat.eqb_refl. reflexivity.
  - destruct (Nat.eqb (_id x) n) eqn:E.
    + rewrite Id, Nat.eqb_refl. reflexivity.
    + rewrite E. exact IH.
Qed.

Section CreateSuccess.

Context `{WalletModel}.

(** C4, as the code has it.  A successful [createWithdrawalRequest] of
    amount [a] stores a new Pending request under the next id, appends a
    Pending withdrawal transaction of amount [a] to the restaurant's
    wallet and records its id in the request; [totalBalance] becomes
    max(0, totalBalance - a) -- a decrease by [a] when the stored balance
    covers [a], zero otherwise -- and [totalWithdrawn] grows by [a]. *)
Theorem create_success_effects (now : Z) (req : CreateRequest) (db : Db)
  (resp : Response) (db' : Db) :
  createWithdrawalRequest now req db = (resp, db') ->
  isSuccess resp = true ->
  exists rid a wallet wr t w',
    authenticatedAs req = Some rid
    /\ parseFloat (body_amount req) = Some a /\ 0 < a
    /\ wallet = fst (findOrCreateByRestaurantId rid db)
    /\ findById (nextId db) (requests db') = Some wr
    /\ status wr = Pending /\ amount wr = a /\ restaurantId wr = rid
    /\ transactionId wr = Some (t_id t)
    /\ findWallet rid (wallets db') = Some w'
    /\ transactions w' = transactions wallet ++ [t]
    /\ t_type t = withdrawal /\ t_status t = TxPending /\ t_amount t = a
    /\ totalBalance w' = Qmax 0 (orZero (totalBalance wallet) - a)
    /\ totalWithdrawn w' = orZero (totalWithdrawn wallet) + a
    /\ (a <= totalBalance wallet ->
        totalBalance w' == totalBalance wallet - a)
    /\ (totalBalance wallet <= a -> totalBalance w' == 0)
    /\ totalWithdrawn w' == totalWithdrawn wallet + a.
Proof.
  intros E S.
  destruct (create_success_inv _ _ _ _ _ E S)
    as (rid & a & wallet & db1 & wr & t & Auth & Pf & Pos & F & _ & _
        & _ & (Id & Rid & Am & St & Tx) & Et & Rq & Ws & _).
  pose proof (findOrCreate_spec _ _ _ _ F)
    as (_ & _ & _ & _ & Fw & Ow & _ & _).
  exists rid, a, wallet, wr, t,
    (mkWallet rid (Qmax 0 (orZero (totalBalance wallet) - a))
       (orZero (totalWithdrawn wallet) + a) (transactions wallet ++ [t])).
  repeat match goal with |- _ /\ _ => split end;
    try assumption; try reflexivity.
  - rewrite F. reflexivity.
  - rewrite Rq. apply findById_replaced. exact Id.
  - rewrite Ws. eapply findWallet_replace; eauto.
  - subst t. reflexivity.
  - subst t. reflexivity.
  - subst t. reflexivity.
  - intro L. simpl. rewrite orZero_eq. apply Q.max_r. lra.
  - intro L. simpl. rewrite orZero_eq. apply Q.max_l. lra.
  - simpl. rewrite orZero_eq. reflexivity.
Qed.

End CreateSuccess.

(** C4 as the specification words it fails where the weekly payout lets a
    request through that the stored balance does not cover: the cafe,
    holding 20, asks for 50 against a payout of 90; the request is
    accepted and the balance becomes 0, not 20 - 50. *)
Lemma create_may_clamp_balance :
  isSuccess
    (fst (createWithdrawalRequest (H := deductingWallet) wednesdayNoon
            (ask 50) cafeDb)) = true
  /\ exists w w',
       findWallet 7%nat (wallets cafeDb) = Some w
       /\ findWallet 7%nat
            (wallets (snd (createWithdrawalRequest (H := deductingWallet)
                             wednesdayNoon (ask 50) cafeDb))) = Some w'
       /\ totalBalance w == 20
       /\ ~ totalBalance w' == totalBalance w - 50.
Proof.
  split; [vm_compute; reflexivity|].
  eexists _, _. split; [vm_compute; reflexivity|].
  split; [vm_compute; reflexivity|].
  split; [reflexivity|]. simpl. intro E. vm_compute in E. discriminate E.
Qed.

(** ** Approve and reject on a Pending request *)

Lemma findIndex_nth {A : Type} (p : A -> bool) (l : list A) (i : nat) :
  findIndex p l = Some i ->
  exists x, nth_error l i = Some x /\ p x = true.
Proof.
  revert i. induction l as [|y l IH]; intros i E; simpl in E;
    [discriminate|].
  destruct (p y) eqn:P.
  - inversion E; subst i. exists y. split; [reflexivity|exact P].
  - destruct (findIndex p l) as [j|]; [|discriminate].
    inversion E; subst i. simpl. apply IH. reflexivity.
Qed.

Lemma updateAt_nth {A : Type} (f : A -> A) (l : list A) (i : nat) (x : A) :
  nth_error l i = Some x -> nth_error (updateAt i f l) i = Some (f x).
Proof.
  revert i. induction l as [|y l IH]; intros i E; destruct i; simpl in *;
    try discriminate.
  - inversion E; subst. reflexivity.
  - apply IH. exact E.
Qed.


Lemma findById_map_replace id wr l found :
  findById id l = Some found -> _id wr = id ->
  findById id (map (fun x => if Nat.eqb (_id x) id then wr else x) l)
  = Some wr.
Proof.
  unfold findById. intros F Id.
  induction l as [|x l IH]; simpl in *; [discriminate|].
  destruct (Nat.eqb (_id x) id) eqn:E.
  - simpl. rewrite Id, Nat.eqb_refl. reflexivity.
  - simpl. rewrite E. apply IH. exact F.
Qed.

Section Settle.

Context `{WalletModel}.


End Settle.

(** ** The balance never goes below zero *)

Lemma findIndex_updateAt {A : Type} (p : A -> bool) (f : A -> A)
  (l : list A) (i : nat) :
  (forall x, p (f x) = p x) ->
  findIndex p (updateAt i f l) = findIndex p l.
Proof.
  intro E. revert i. induction l as [|y l IH]; intros i; destruct i; simpl;
    try reflexivity.
  - rewrite E. reflexivity.
  - rewrite IH. reflexivity.
Qed.

Lemma findIndex_app_found {A : Type} (p : A -> bool) (l l' : list A) :
  findIndex p l <> None -> findIndex p (l ++ l') <> None.
Proof.
  induction l as [|y l IH]; simpl; [congruence|].
  destruct (p y); [congruence|].
  destruct (findIndex p l); [|congruence].
  intros _. destruct (findIndex p (l ++ l')); [congruence|].
  exfalso. apply IH; congruence.
Qed.

Lemma findIndex_last {A : Type} (p : A -> bool) (l : list A) (x : A) :
  p x = true -> findIndex p (l ++ [x]) <> None.
Proof.
  intro P. induction l as [|y l IH]; simpl.
  - rewrite P. congruence.
  - destruct (p y); [congruence|].
    destruct (findIndex p (l ++ [x])); congruence.
Qed.


Lemma findWallet_In rid ws w : findWallet rid ws = Some w -> In w ws.
Proof. unfold findWallet. intro E. apply find_some in E. tauto. Qed.

Lemma linked_located db r w :
  linked db r -> findWallet (restaurantId r) (wallets db) = Some w ->
  exists tid i,
    transactionId r = Some tid
    /\ findIndex (fun t => Nat.eqb (t_id t) tid) (transactions w) = Some i
    /\ locateTransaction w r = Some i.
Proof.
  intros (w0 & tid & Fw & Tx & Ix) F. rewrite Fw in F. inversion F; subst w0.
  destruct (findIndex (fun t => Nat.eqb (t_id t) tid) (transactions w))
    as [i|] eqn:E; [|congruence].
  exists tid, i. repeat split; auto.
  unfold locateTransaction. rewrite Tx, E. reflexivity.
Qed.

Section Ledger.

Context `{WalletModel}.

(** Approve and reject alike: the request leaves the Pending state, and
    its wallet is saved with a balance that is not negative and with the
    ids of its transactions in place. *)
Lemma settle_keeps_ledger s now adminId reason found id wallet w' i f
  db db1 db' :
  s <> Pending ->
  LedgerInv db ->
  findById id (requests db) = Some found ->
  findOrCreateByRestaurantId (restaurantId found) db = (wallet, db1) ->
  requests db' =
    map (fun x => if Nat.eqb (_id x) id
                  then processRequest s now adminId reason found
                  else x) (requests db) ->
  wallets db' =
    map (fun x => if Nat.eqb (w_restaurantId x) (restaurantId found)
                  then w' else x) (wallets db1) ->
  w_restaurantId w' = restaurantId found ->
  0 <= totalBalance w' ->
  transactions w' = updateAt i f (transactions wallet) ->
  (forall t, t_id (f t) = t_id t) ->
  LedgerInv db'.
Proof.
  intros NP (Bal & Amt & Lnk) Fd F Rq Ws Ow Pos Tr Ids.
  pose proof (findOrCreate_spec _ _ _ _ F)
    as (_ & _ & _ & _ & Fw & _ & Keep & New).
  split; [|split].
  - intros w I. rewrite Ws in I. apply in_map_iff in I.
    destruct I as (x & E & I).
    destruct (Nat.eqb (w_restaurantId x) (restaurantId found)).
    + subst w. exact Pos.
    + subst w. destruct (New x I) as [O| ->]; [apply Bal; exact O|].
      simpl. lra.
  - intros r I. rewrite Rq in I. apply in_map_iff in I.
    destruct I as (x & E & I).
    destruct (Nat.eqb (_id x) id).
    + subst r. simpl. apply Amt. eapply findById_In; eauto.
    + subst r. apply Amt. exact I.
  - intros r I P. rewrite Rq in I. apply in_map_iff in I.
    destruct I as (x & E & I).
    destruct (Nat.eqb (_id x) id).
    { subst r. simpl in P. contradiction. }
    subst r. destruct (Lnk x I P) as (w & tid & Fx & Tx & Ix).
    destruct (Nat.eqb_spec (restaurantId found) (restaurantId x)) as [Eq|Ne].
    + exists w', tid. rewrite Ws, <- Eq.
      split; [eapply findWallet_replace; eauto|]. split; [exact Tx|].
      rewrite Tr, findIndex_updateAt by (intro t; rewrite Ids; reflexivity).
      rewrite <- Eq in Fx. apply Keep in Fx. rewrite Fw in Fx.
      inversion Fx; subst w. exact Ix.
    + exists w, tid. rewrite Ws.
      rewrite findWallet_replace_other by assumption.
      split; [apply Keep; exact Fx|]. split; assumption.
Qed.

Lemma create_keeps_ledger now req db :
  LedgerInv db -> LedgerInv (snd (createWithdrawalRequest now req db)).
Proof.
  intros (Bal & Amt & Lnk).
  destruct (isSuccess (fst (createWithdrawalRequest now req db))) eqn:S.
  - destruct (createWithdrawalRequest now req db) as [resp db'] eqn:E.
    simpl in *.
    destruct (create_success_inv _ _ _ _ _ E S)
      as (rid & a & wallet & db1 & wr & t & _ & _ & Pos & F & _ & _
          & _ & (Id & Rid & Am & St & Tx) & Et & Rq & Ws & _).
    pose proof (findOrCreate_spec _ _ _ _ F)
      as (_ & _ & _ & _ & Fw & Ow & Keep & New).
    set (w2 := mkWallet rid (Qmax 0 (orZero (totalBalance wallet) - a))
                 (orZero (totalWithdrawn wallet) + a)
                 (transactions wallet ++ [t])) in *.
    assert (Lwr : linked db' wr).
    { exists w2, (t_id t). rewrite Rid, Ws.
      split; [eapply findWallet_replace; eauto|]. split; [exact Tx|].
      apply findIndex_last. apply Nat.eqb_refl. }
    split; [|split].
    + intros w I. rewrite Ws in I. apply in_map_iff in I.
      destruct I as (x & Ex & I).
      destruct (Nat.eqb (w_restaurantId x) rid).
      * subst w. apply Q.le_max_l.
      * subst w. destruct (New x I) as [O| ->]; [apply Bal; exact O|].
        simpl. lra.
    + intros r I. rewrite Rq in I. apply in_app_or in I.
      destruct I as [I|[I|[]]].
      * apply in_map_iff in I. destruct I as (x & Ex & I).
        destruct (Nat.eqb (_id x) (nextId db)).
        -- subst r. rewrite Am. lra.
        -- subst r. apply Amt. exact I.
      * subst r. rewrite Am. lra.
    + intros r I P. rewrite Rq in I. apply in_app_or in I.
      destruct I as [I|[I|[]]]; [|subst r; exact Lwr].
      apply in_map_iff in I. destruct I as (x & Ex & I).
      destruct (Nat.eqb (_id x) (nextId db)); [subst r; exact Lwr|].
      subst r. destruct (Lnk x I P) as (w & tid & Fx & Txx & Ix).
      destruct (Nat.eqb_spec rid (restaurantId x)) as [Eq|Ne].
      * exists w2, tid. rewrite Ws, <- Eq.
        split; [eapply findWallet_replace; eauto|]. split; [exact Txx|].
        simpl. apply findIndex_app_found.
        rewrite <- Eq in Fx. apply Keep in Fx. rewrite Fw in Fx.
        inversion Fx; subst w. exact Ix.
      * exists w, tid. rewrite Ws.
        rewrite findWallet_replace_other
          by first [reflexivity|assumption].
        split; [apply Keep; exact Fx|]. split; assumption.
  - destruct (create_refusal_frame now req db S) as (Rq & _ & Keep & New).
    split; [|split].
    + intros w I. destruct (New w I) as [O|Z0]; [apply Bal; exact O|].
      rewrite Z0. lra.
    + intros r I. rewrite Rq in I. apply Amt. exact I.
    + intros r I P. rewrite Rq in I.
      destruct (Lnk r I P) as (w & tid & Fx & Tx & Ix).
      exists w, tid. split; [apply Keep; exact Fx|]. split; assumption.
Qed.

Lemma approve_keeps_ledger now admin id db :
  LedgerInv db -> LedgerInv (snd (approveWithdrawalRequest now admin id db)).
Proof.
  intro Inv.
  destruct (isSuccess (fst (approveWithdrawalRequest now admin id db)))
    eqn:S; [|rewrite (approve_refusal_frame _ _ _ _ S); exact Inv].
  destruct (approveWithdrawalRequest now admin id db) as [resp db'] eqn:E.
  simpl in *.
  destruct (approve_success_inv _ _ _ _ _ _ E S)
    as (adminDoc & adminId & found & wallet & db1 & _ & _ & Fd & St & F
        & _ & Rq & Ws & _).
  pose proof (findOrCreate_spec _ _ _ _ F)
    as (_ & _ & _ & _ & Fw & Ow & Keep & _).
  pose proof Inv as (Bal & Amt & Lnk).
  pose proof (findById_In _ _ _ Fd) as I.
  destruct (Lnk found I St) as (w & tid & Fx & Tx & Ix).
  pose proof (Keep _ _ Fx) as Fx1. rewrite Fw in Fx1.
  inversion Fx1; subst w.
  destruct (linked_located db found wallet) as (tid' & i & _ & _ & L);
    [exists wallet, tid; auto|exact Fx|].
  eapply settle_keeps_ledger with (s := Approved) (i := i)
    (f := settleTransaction TxCompleted now); eauto.
  - discriminate.
  - rewrite approvedWallet_owner. exact Ow.
  - unfold approvedWallet. rewrite L. simpl. apply Bal.
    eapply findWallet_In; eauto.
  - unfold approvedWallet. rewrite L. reflexivity.
Qed.

Lemma reject_keeps_ledger now admin id reason db :
  LedgerInv db ->
  LedgerInv (snd (rejectWithdrawalRequest now admin id reason db)).
Proof.
  intro Inv.
  destruct (isSuccess (fst (rejectWithdrawalRequest now admin id reason db)))
    eqn:S; [|rewrite (reject_refusal_frame _ _ _ _ _ S); exact Inv].
  destruct (rejectWithdrawalRequest now admin id reason db) as [resp db']
    eqn:E.
  simpl in *.
  destruct (reject_success_inv _ _ _ _ _ _ _ E S)
    as (adminDoc & adminId & found & wallet & db1 & _ & _ & Fd & St & F
        & _ & Rq & Ws & _).
  pose proof (findOrCreate_spec _ _ _ _ F)
    as (_ & _ & _ & _ & Fw & Ow & Keep & _).
  pose proof Inv as (Bal & Amt & Lnk).
  pose proof (findById_In _ _ _ Fd) as I.
  destruct (Lnk found I St) as (w & tid & Fx & Tx & Ix).
  pose proof (Keep _ _ Fx) as Fx1. rewrite Fw in Fx1.
  inversion Fx1; subst w.
  destruct (linked_located db found wallet) as (tid' & i & _ & _ & L);
    [exists wallet, tid; auto|exact Fx|].
  eapply settle_keeps_ledger with (s := Rejected) (i := i)
    (f := settleTransaction TxCancelled now); eauto.
  - discriminate.
  - rewrite rejectedWallet_owner. exact Ow.
  - unfold rejectedWallet. rewrite L. simpl. rewrite orZero_eq.
    pose proof (Bal wallet (findWallet_In _ _ _ Fx)).
    pose proof (Amt found I). lra.
  - unfold rejectedWallet. rewrite L. reflexivity.
Qed.

Lemma step_keeps_ledger (op : Op) (db : Db) :
  LedgerInv db -> LedgerInv (snd (step op db)).
Proof.
  destruct op; simpl.
  - apply create_keeps_ledger.
  - apply approve_keeps_ledger.
  - apply reject_keeps_ledger.
Qed.


(** The clamp of lines 171-174 needs no invariant: whatever the wallet
    held, the balance a successful create saves is not negative. *)
Lemma create_saves_nonnegative_balance now req db resp db' rid w' :
  createWithdrawalRequest now req db = (resp, db') ->
  isSuccess resp = true ->
  authenticatedAs req = Some rid ->
  findWallet rid (wallets db') = Some w' ->
  0 <= totalBalance w'.
Proof.
  intros E S Auth Fw'.
  destruct (create_success_inv _ _ _ _ _ E S)
    as (rid' & a & wallet & db1 & wr & t & Auth' & _ & _ & F & _ & _
        & _ & _ & _ & _ & Ws & _).
  rewrite Auth in Auth'. inversion Auth'; subst rid'.
  pose proof (findOrCreate_spec _ _ _ _ F)
    as (_ & _ & _ & _ & Fw & _ & _ & _).
  rewrite Ws in Fw'.
  erewrite findWallet_replace in Fw'; [|exact Fw|reflexivity].
  inversion Fw'; subst w'. simpl. apply Q.le_max_l.
Qed.

End Ledger.

(** ** Every branch of the three operations

    A Pending request without its transaction sends approve and reject
    through [addTransaction], which is not among the sources; the data
    model of the specification has the balance at or above zero after every
    mutation of the wallet, [addTransaction] included. *)

Section Fallbacks.

Context `{WalletModel}.





End Fallbacks.

(** ** Create followed by reject *)

Lemma findOrCreate_existing rid db w :
  findWallet rid (wallets db) = Some w ->
  findOrCreateByRestaurantId rid db = (w, db).
Proof.
  unfold findOrCreateByRestaurantId. intro E. rewrite E. reflexivity.
Qed.

Section RoundTrip.

Context `{WalletModel}.


(** C10.  When a withdrawal of amount [a] is created for a wallet holding
    [b] and the request is then rejected by an administrator, the wallet
    holds max(0, b - a) + a, the sum the two handlers compute one after
    the other.  When [a > b] the first term is zero, the wallet holds [a],
    and that is more than [b]: create followed by reject is no round trip
    on the balance. *)
Theorem create_then_reject_balance (now1 now2 : Z) (req : CreateRequest)
  (admin : option AdminAuth) (reason : option string)
  (db : Db) (resp1 : Response) (db1 : Db) (resp2 : Response) (db2 : Db) :
  createWithdrawalRequest now1 req db = (resp1, db1) ->
  isSuccess resp1 = true ->
  rejectWithdrawalRequest now2 admin (nextId db) reason db1 = (resp2, db2) ->
  isSuccess resp2 = true ->
  exists rid a b w2,
    authenticatedAs req = Some rid
    /\ parseFloat (body_amount req) = Some a
    /\ b = totalBalance (fst (findOrCreateByRestaurantId rid db))
    /\ findWallet rid (wallets db2) = Some w2
    /\ totalBalance w2 = orZero (Qmax 0 (orZero b - a)) + a
    /\ totalBalance w2 == Qmax 0 (b - a) + a
    /\ (b < a -> totalBalance w2 == a /\ b < totalBalance w2).
Proof.
  intros E S E2 S2.
  destruct (create_success_inv _ _ _ _ _ E S)
    as (rid & a & wallet & dbw & wr & t & Auth & Pf & Pos & F & _ & _
        & _ & (Id & Rid & Am & St & Tx) & Et & Rq & Ws & _).
  pose proof (findOrCreate_spec _ _ _ _ F)
    as (_ & _ & _ & _ & Fw & Ow & _ & _).
  set (w1 := mkWallet rid (Qmax 0 (orZero (totalBalance wallet) - a))
               (orZero (totalWithdrawn wallet) + a)
               (transactions wallet ++ [t])) in *.
  assert (Fd : findById (nextId db) (requests db1) = Some wr).
  { rewrite Rq. apply findById_replaced. exact Id. }
  assert (Fw1 : findWallet rid (wallets db1) = Some w1).
  { rewrite Ws. eapply findWallet_replace; [exact Fw|reflexivity]. }
  destruct (reject_success_inv _ _ _ _ _ _ _ E2 S2)
    as (adminDoc' & adminId' & found & wallet' & db1' & _ & _ & Fd' & _ & F'
        & _ & _ & Ws2 & _).
  rewrite Fd in Fd'. inversion Fd'; subst found.
  rewrite Rid in F', Ws2.
  rewrite (findOrCreate_existing _ _ _ Fw1) in F'.
  inversion F'; subst wallet' db1'.
  assert (L : exists i, locateTransaction w1 wr = Some i).
  { unfold locateTransaction. rewrite Tx.
    destruct (findIndex (fun t0 => Nat.eqb (t_id t0) (t_id t))
                (transactions w1)) as [i|] eqn:Ix; [eauto|].
    exfalso. revert Ix. apply findIndex_last. apply Nat.eqb_refl. }
  destruct L as (i & L).
  assert (B0 : totalBalance (rejectedWallet now2 (nextId db1) w1 wr)
               = orZero (Qmax 0 (orZero (totalBalance wallet) - a)) + a).
  { unfold rejectedWallet. rewrite L. simpl. rewrite Am. reflexivity. }
  assert (B : totalBalance (rejectedWallet now2 (nextId db1) w1 wr)
              == Qmax 0 (totalBalance wallet - a) + a).
  { rewrite B0, !orZero_eq. reflexivity. }
  exists rid, a, (totalBalance wallet),
    (rejectedWallet now2 (nextId db1) w1 wr).
  split; [exact Auth|]. split; [exact Pf|].
  split; [rewrite F; reflexivity|].
  split.
  { rewrite Ws2. eapply findWallet_replace; [exact Fw1|].
    rewrite rejectedWallet_owner. reflexivity. }
  split; [exact B0|]. split; [exact B|].
  intro Lt. rewrite B. rewrite Q.max_l by lra. split; lra.
Qed.

End RoundTrip.

(** ** The status filter of the listings *)

Lemma definedStatuses_names (s : string) :
  In s definedStatuses <-> exists st, statusName st = s.
Proof.
  unfold definedStatuses. simpl. split.
  - intros [E|[E|[E|[E|[]]]]]; subst s;
      [exists Pending|exists Approved|exists Rejected|exists Processed];
      reflexivity.
  - intros [[] E]; simpl in E; auto.
Qed.

Lemma statusFilter_defined (s : string) :
  In s definedStatuses -> statusFilter (Some s) = Some s.
Proof.
  intro I. assert (Ex : existsb (String.eqb s) definedStatuses = true).
  { apply existsb_exists. exists s. split; [exact I|apply String.eqb_refl]. }
  destruct s as [|c rest].
  - apply definedStatuses_names in I. destruct I as [[] E]; discriminate E.
  - unfold statusFilter. rewrite Ex. reflexivity.
Qed.

Lemma statusFilter_other (s : string) :
  ~ In s definedStatuses -> statusFilter (Some s) = None.
Proof.
  intro N. destruct s as [|c rest]; [reflexivity|].
  unfold statusFilter.
  destruct (existsb (String.eqb (String c rest)) definedStatuses) eqn:Ex;
    [|reflexivity].
  apply existsb_exists in Ex. destruct Ex as (x & I & E).
  apply String.eqb_eq in E. subst x. contradiction.
Qed.

Section ListingFacts.

Context `{QueryEngine}.

Lemma listWith_pageOver query params db sel :
  (forall r, matchesQuery query r = sel r) ->
  listWith query params db
  = pageOver (p_page params) (p_limit params) (filter sel (requests db)).
Proof.
  intro E. unfold listWith, pageOver.
  rewrite (filter_ext _ _ E). reflexivity.
Qed.

(** C9.  In both listings a [status] parameter that is one of Pending,
    Approved, Rejected and Processed is applied as a filter: what the
    handler answers is the page, and the count, of the requests of that
    status (within the restaurant, or within the search).  Any other value
    is not applied: the handler answers the page and the count of the
    requests of every status, as it does without a [status] parameter. *)
Theorem status_filter_only_defined (s : string) (page limit : option Z)
  (search : option string) (restaurant : RestaurantAuth) (rid : ObjectId)
  (db : Db) :
  ra_id restaurant = Some rid ->
  (In s definedStatuses ->
   getRestaurantWithdrawalRequests (Some restaurant)
     (mkListingParams (Some s) page limit search) db
   = pageOver page limit
       (filter (fun r => belongsTo rid r && hasStatus s r) (requests db))
   /\ getAllWithdrawalRequests
        (mkListingParams (Some s) page limit search) db
      = pageOver page limit
          (filter (fun r => hasStatus s r && searched search r)
             (requests db)))
  /\ (~ In s definedStatuses ->
      getRestaurantWithdrawalRequests (Some restaurant)
        (mkListingParams (Some s) page limit search) db
      = pageOver page limit (filter (belongsTo rid) (requests db))
      /\ getRestaurantWithdrawalRequests (Some restaurant)
           (mkListingParams (Some s) page limit search) db
         = getRestaurantWithdrawalRequests (Some restaurant)
             (mkListingParams None page limit search) db
      /\ getAllWithdrawalRequests
           (mkListingParams (Some s) page limit search) db
         = pageOver page limit (filter (searched search) (requests db))
      /\ getAllWithdrawalRequests
           (mkListingParams (Some s) page limit search) db
         = getAllWithdrawalRequests
             (mkListingParams None page limit search) db).
Proof.
  intro Auth.
  assert (Sr : forall r,
             match searchFilter search with
             | Some p => regexTest p (restaurantName r)
                         || regexTest p (restaurantIdString r)
             | None => true
             end = searched search r).
  { intro r. destruct search as [[|c rest]|]; reflexivity. }
  unfold getRestaurantWithdrawalRequests, getAllWithdrawalRequests.
  rewrite Auth. cbn [p_status p_search].
  split.
  - intro I. rewrite (statusFilter_defined s I). split.
    + apply listWith_pageOver. intro r.
      unfold matchesQuery, belongsTo, hasStatus. cbn [q_restaurantId q_status
        q_or]. apply andb_true_r.
    + apply listWith_pageOver. intro r.
      unfold matchesQuery, hasStatus. cbn [q_restaurantId q_status q_or].
      rewrite (Sr r). reflexivity.
  - intro N. rewrite (statusFilter_other s N).
    assert (E0 : statusFilter None = None) by reflexivity. rewrite E0.
    split; [|split; [reflexivity|split; [|reflexivity]]].
    + apply listWith_pageOver. intro r.
      unfold matchesQuery, belongsTo. cbn [q_restaurantId q_status q_or].
      rewrite !andb_true_r. reflexivity.
    + apply listWith_pageOver. intro r.
      unfold matchesQuery. cbn [q_restaurantId q_status q_or].
      rewrite (Sr r). reflexivity.
Qed.

End ListingFacts.

(** * The theorems on sample data *)

(** Wednesday 7 January 1970 lies in the week of Monday 5 January. *)
Example cycle_of_wednesday :
  cycleStartOf wednesdayNoon = (4 * msPerDay)%Z
  /\ cycleEndOf (cycleStartOf wednesdayNoon) = (11 * msPerDay - 1)%Z.
Proof. split; reflexivity. Qed.

(** The string of an ObjectId has 24 digits, so that the description of
    the transaction of request 17 does not mention request 1. *)
Example idToString_17 :
  idToString 17%nat = "000000000000000000000011"%string
  /\ includes (idToString 1%nat)
       ("Withdrawal request created - Request ID: " ++ idToString 17%nat)
     = false
  /\ includes (idToString 17%nat)
       ("Withdrawal request created - Request ID: " ++ idToString 17%nat)
     = true.
Proof. repeat split; vm_compute; reflexivity. Qed.

(** The cafe may ask for up to 90: the payout of the week, above the 20 of
    its wallet. *)
Example cafe_available : availableFor wednesdayNoon 7%nat cafeDb == 90.
Proof. vm_compute. reflexivity. Qed.


(** The cafe holds 20 and has a weekly payout of 90: a request of 100
    exceeds both and is refused. *)
Lemma create_rejects_over_balance_witness :
  availableFor wednesdayNoon 7%nat cafeDb < 100
  /\ isClientError
       (fst (createWithdrawalRequest (H := deductingWallet) wednesdayNoon
               (ask 100) cafeDb)) = true
  /\ requests
       (snd (createWithdrawalRequest (H := deductingWallet) wednesdayNoon
               (ask 100) cafeDb)) = requests cafeDb.
Proof.
  split; [vm_compute; reflexivity|].
  destruct (create_rejects_over_balance (H := deductingWallet) wednesdayNoon
              (ask 100) cafeDb 100) as (C & R & _).
  - reflexivity.
  - intros rid E. inversion E; subst rid. vm_compute. reflexivity.
  - split; [exact C|exact R].
Defined.

Lemma effective_balance_formula_witness :
  0 <= totalBalance (mkWallet 7%nat 20 0 [])
  /\ effectiveAvailableBalance wednesdayNoon 7%nat (mkWallet 7%nat 20 0 [])
       cafeDb
     == spec_effectiveAvailableBalance wednesdayNoon 7%nat
          (mkWallet 7%nat 20 0 []) cafeDb.
Proof.
  assert (P : 0 <= totalBalance (mkWallet 7%nat 20 0 [])).
  { simpl. lra. }
  split; [exact P|].
  apply (effective_balance_formula wednesdayNoon 7%nat
           (mkWallet 7%nat 20 0 []) cafeDb P).
Defined.

Lemma lowWithdrawnDb_one_pending : OnePendingInv lowWithdrawnDb.
Proof.
  split.
  - intros r [<-|[]]. simpl. lia.
  - intro rid. unfold pendingCount, pendingOf.
    cbn [requests lowWithdrawnDb filter restaurantId status
         RequestStatus_eqb].
    destruct (Nat.eqb 7 rid); cbn; lia.
Qed.

(** The cafe has a Pending request in [lowWithdrawnDb]: a second create is
    refused, and the invariant stands. *)
Lemma one_pending_per_restaurant_witness :
  OnePendingInv lowWithdrawnDb
  /\ OnePendingInv
       (snd (step (H := deductingWallet) (OpCreate wednesdayNoon (ask 10))
               lowWithdrawnDb))
  /\ isClientError
       (fst (step (H := deductingWallet) (OpCreate wednesdayNoon (ask 10))
               lowWithdrawnDb)) = true
  /\ requests
       (snd (step (H := deductingWallet) (OpCreate wednesdayNoon (ask 10))
               lowWithdrawnDb)) = requests lowWithdrawnDb.
Proof.
  split; [exact lowWithdrawnDb_one_pending|].
  destruct (one_pending_per_restaurant (H := deductingWallet)
              (OpCreate wednesdayNoon (ask 10)) lowWithdrawnDb
              lowWithdrawnDb_one_pending) as (I & R).
  split; [exact I|].
  apply (R wednesdayNoon (ask 10) 7%nat eq_refl eq_refl).
  eexists. split; [left; reflexivity|]. split; reflexivity.
Defined.

(** The cafe asks for 50 while holding 20: accepted against the payout of
    90, balance clamped at 0, 50 more withdrawn. *)
Lemma create_success_effects_witness :
  let r := createWithdrawalRequest (H := deductingWallet) wednesdayNoon
             (ask 50) cafeDb in
  isSuccess (fst r) = true
  /\ exists rid a wallet wr t w',
       authenticatedAs (ask 50) = Some rid
       /\ parseFloat (body_amount (ask 50)) = Some a /\ 0 < a
       /\ wallet = fst (findOrCreateByRestaurantId rid cafeDb)
       /\ findById (nextId cafeDb) (requests (snd r)) = Some wr
       /\ status wr = Pending /\ amount wr = a /\ restaurantId wr = rid
       /\ transactionId wr = Some (t_id t)
       /\ findWallet rid (wallets (snd r)) = Some w'
       /\ transactions w' = transactions wallet ++ [t]
       /\ t_type t = withdrawal /\ t_status t = TxPending /\ t_amount t = a
       /\ totalBalance w' = Qmax 0 (orZero (totalBalance wallet) - a)
       /\ totalWithdrawn w' = orZero (totalWithdrawn wallet) + a
       /\ (a <= totalBalance wallet ->
           totalBalance w' == totalBalance wallet - a)
       /\ (totalBalance wallet <= a -> totalBalance w' == 0)
       /\ totalWithdrawn w' == totalWithdrawn wallet + a.
Proof.
  intro r.
  assert (S : isSuccess (fst r) = true) by (vm_compute; reflexivity).
  split; [exact S|].
  apply (create_success_effects (H := deductingWallet) wednesdayNoon (ask 50)
           cafeDb (fst r) (snd r) (surjective_pairing r) S).
Defined.






(** The request of [approvedDb] is Approved: neither handler touches it. *)
Lemma settled_requests_are_refused_witness :
  approveWithdrawalRequest (H := deductingWallet) wednesdayNoon theAdmin
    1%nat approvedDb
  = (errorResponse 400 (AlreadyProcessed Approved), approvedDb)
  /\ rejectWithdrawalRequest (H := deductingWallet) wednesdayNoon theAdmin
       1%nat None approvedDb
     = (errorResponse 400 (AlreadyProcessed Approved), approvedDb).
Proof.
  apply (proj1 (settled_requests_are_refused (H := deductingWallet)
                  wednesdayNoon theAdmin (mkAdminAuth (Some 99%nat)) 99%nat
                  1%nat None approvedDb eq_refl eq_refl)
           (mkRequest 1%nat 7%nat 50 Approved "Cafe" "R-7" (Some 2%nat)
              mondayNoon (Some wednesdayNoon) (Some 99%nat) None)).
  - reflexivity.
  - discriminate.
Defined.

(** [strandedDb] is what a create leaves for a restaurant whose document
    is gone. *)
Example strandedDb_is_created :
  createWithdrawalRequest (H := deductingWallet) wednesdayNoon (ask 10)
    noDocumentDb
  = (successResponse 201 RequestCreated
       (RequestData
          (mkRequest 1%nat 7%nat 10 Pending "Cafe" "R-7" (Some 2%nat)
             wednesdayNoon None None None)),
     strandedDb).
Proof. vm_compute. reflexivity. Qed.

(** C8 as the specification words it fails on [strandedDb]: the request
    exists and is Pending, the administrator is authenticated, and yet
    approve and reject fail -- with a 500, the restaurant document being
    gone -- and write nothing. *)
Lemma pending_request_may_fail :
  (exists found, findById 1%nat (requests strandedDb) = Some found
                 /\ status found = Pending)
  /\ approveWithdrawalRequest (H := deductingWallet) wednesdayNoon theAdmin
       1%nat strandedDb
     = (errorResponse 500 ApproveFailed, strandedDb)
  /\ rejectWithdrawalRequest (H := deductingWallet) wednesdayNoon theAdmin
       1%nat None strandedDb
     = (errorResponse 500 RejectFailed, strandedDb)
  /\ ~ (isSuccess
          (fst (approveWithdrawalRequest (H := deductingWallet) wednesdayNoon
                  theAdmin 1%nat strandedDb)) = false
        <-> (findById 1%nat (requests strandedDb) = None
             \/ exists found, findById 1%nat (requests strandedDb) = Some found
                              /\ status found <> Pending))
  /\ ~ (isSuccess
          (fst (rejectWithdrawalRequest (H := deductingWallet) wednesdayNoon
                  theAdmin 1%nat None strandedDb)) = false
        <-> (findById 1%nat (requests strandedDb) = None
             \/ exists found, findById 1%nat (requests strandedDb) = Some found
                              /\ status found <> Pending)).
Proof.
  assert (Fd : findById 1%nat (requests strandedDb)
               = Some (mkRequest 1%nat 7%nat 10 Pending "Cafe" "R-7"
                         (Some 2%nat) wednesdayNoon None None None))
    by reflexivity.
  assert (A : approveWithdrawalRequest (H := deductingWallet) wednesdayNoon
                theAdmin 1%nat strandedDb
              = (errorResponse 500 ApproveFailed, strandedDb))
    by reflexivity.
  assert (R : rejectWithdrawalRequest (H := deductingWallet) wednesdayNoon
                theAdmin 1%nat None strandedDb
              = (errorResponse 500 RejectFailed, strandedDb))
    by reflexivity.
  split; [eexists; split; [exact Fd|reflexivity]|].
  split; [exact A|]. split; [exact R|].
  split.
  - rewrite A. intros [F _].
    destruct (F eq_refl) as [N|(f & E & N)].
    + rewrite Fd in N. discriminate N.
    + rewrite Fd in E. inversion E; subst f. apply N. reflexivity.
  - rewrite R. intros [F _].
    destruct (F eq_refl) as [N|(f & E & N)].
    + rewrite Fd in N. discriminate N.
    + rewrite Fd in E. inversion E; subst f. apply N. reflexivity.
Qed.

(** The one request of [approvedDb] is Approved: asking for Pending lists
    nothing, asking for Approved lists it, and asking for [Cancelled],
    which is no status of the model, lists what no [status] lists. *)
Lemma status_filter_only_defined_witness :
  getAllWithdrawalRequests (H := listEngine)
    (mkListingParams (Some "Pending"%string) None None None) approvedDb
  = successResponse 200 RequestsRetrieved (ListData [] 1 20 0)
  /\ getRestaurantWithdrawalRequests (H := listEngine) (Some cafe)
       (mkListingParams (Some "Approved"%string) None None None) approvedDb
     = successResponse 200 RequestsRetrieved
         (ListData (requests approvedDb) 1 20 1)
  /\ getAllWithdrawalRequests (H := listEngine)
       (mkListingParams (Some "Cancelled"%string) None None None) approvedDb
     = getAllWithdrawalRequests (H := listEngine)
         (mkListingParams None None None None) approvedDb.
Proof.
  assert (P : In "Pending"%string definedStatuses) by (simpl; auto).
  assert (A : In "Approved"%string definedStatuses) by (simpl; auto).
  assert (N : ~ In "Cancelled"%string definedStatuses).
  { unfold definedStatuses. simpl. intros [E|[E|[E|[E|[]]]]]; discriminate E. }
  split; [|split].
  - rewrite (proj2 (proj1 (status_filter_only_defined (H := listEngine)
                             "Pending"%string None None None cafe 7%nat
                             approvedDb eq_refl) P)).
    reflexivity.
  - rewrite (proj1 (proj1 (status_filter_only_defined (H := listEngine)
                             "Approved"%string None None None cafe 7%nat
                             approvedDb eq_refl) A)).
    reflexivity.
  - apply (proj2 (status_filter_only_defined (H := listEngine)
                    "Cancelled"%string None None None cafe 7%nat
                    approvedDb eq_refl) N).
Defined.

(** The cafe, holding 20, asks for 50 and is rejected: it then holds 50. *)
Lemma create_then_reject_balance_witness :
  let r := createWithdrawalRequest (H := deductingWallet) wednesdayNoon
             (ask 50) cafeDb in
  let r2 := rejectWithdrawalRequest (H := deductingWallet) wednesdayNoon
              theAdmin (nextId cafeDb) None (snd r) in
  isSuccess (fst r) = true /\ isSuccess (fst r2) = true
  /\ exists rid a b w2,
       authenticatedAs (ask 50) = Some rid
       /\ parseFloat (body_amount (ask 50)) = Some a
       /\ b = totalBalance (fst (findOrCreateByRestaurantId rid cafeDb))
       /\ findWallet rid (wallets (snd r2)) = Some w2
       /\ totalBalance w2 = orZero (Qmax 0 (orZero b - a)) + a
       /\ totalBalance w2 == Qmax 0 (b - a) + a
       /\ (b < a -> totalBalance w2 == a /\ b < totalBalance w2).
Proof.
  intros r r2.
  assert (S : isSuccess (fst r) = true) by (vm_compute; reflexivity).
  assert (S2 : isSuccess (fst r2) = true) by (vm_compute; reflexivity).
  split; [exact S|]. split; [exact S2|].
  apply (create_then_reject_balance (H := deductingWallet) wednesdayNoon
           wednesdayNoon (ask 50) theAdmin None cafeDb (fst r) (snd r)
           (fst r2) (snd r2) (surjective_pairing r) S
           (surjective_pairing r2) S2).
Defined.

(** C10 as the specification words it fails on the numbers of the code.
    A wallet holding 0.3 from which 0.03 is asked, 0.03 being less than
    0.3: create leaves 0.27, reject adds 0.03 to that, and the sum of the
    two doubles is 0.30000000000000004, which is more than the balance
    before. *)
Lemma create_then_reject_rounds :
  PrimFloat.ltb PrimFloat.zero Binary64.threeHundredths = true
  /\ PrimFloat.leb Binary64.threeHundredths Binary64.threeTenths = true
  /\ Binary64.balanceAfterReject
       (Binary64.balanceAfterCreate Binary64.threeTenths
          Binary64.threeHundredths)
       Binary64.threeHundredths
     = Binary64.aboveThreeTenths
  /\ Binary64.balanceAfterReject
       (Binary64.balanceAfterCreate Binary64.threeTenths
          Binary64.threeHundredths)
       Binary64.threeHundredths
     <> Binary64.threeTenths
  /\ PrimFloat.ltb Binary64.threeTenths
       (Binary64.balanceAfterReject
          (Binary64.balanceAfterCreate Binary64.threeTenths
             Binary64.threeHundredths)
          Binary64.threeHundredths)
     = true.
Proof.
  assert (E : Binary64.balanceAfterReject
                (Binary64.balanceAfterCreate Binary64.threeTenths
                   Binary64.threeHundredths)
                Binary64.threeHundredths
              = Binary64.aboveThreeTenths)
    by (vm_compute; reflexivity).
  split; [vm_compute; reflexivity|]. split; [vm_compute; reflexivity|].
  split; [exact E|]. split.
  - rewrite E. intro X.
    assert (F : PrimFloat.eqb Binary64.aboveThreeTenths
                  Binary64.threeTenths = false)
      by (vm_compute; reflexivity).
    rewrite X in F. vm_compute in F. discriminate F.
  - rewrite E. vm_compute. reflexivity.
Qed.

(** * Further properties of the controller *)

(** X1.  Whatever the current instant, the cycle of lines 53-61 opens on a
    Monday at 00:00:00.000, closes on a Sunday at 23:59:59.999, lasts seven
    days less a millisecond, contains the instant, and is the same cycle
    for every instant inside it. *)
Theorem weekly_cycle_window (now : Z) :
  getDay (cycleStartOf now) = 1%Z
  /\ (cycleStartOf now mod msPerDay = 0)%Z
  /\ getDay (cycleEndOf (cycleStartOf now)) = 0%Z
  /\ cycleEndOf (cycleStartOf now)
     = (cycleStartOf now + 7 * msPerDay - 1)%Z
  /\ (cycleStartOf now <= now <= cycleEndOf (cycleStartOf now))%Z
  /\ forall t,
       (cycleStartOf now <= t <= cycleEndOf (cycleStartOf now))%Z ->
       cycleStartOf t = cycleStartOf now.
Proof.
  split; [|split; [|split; [|split; [|split]]]].
  - unfold getDay. rewrite cycleStart_day. Z.div_mod_to_equations; lia.
  - rewrite cycleStart_eq. apply Z.mod_mul. unfold msPerDay; lia.
  - unfold getDay, cycleEndOf. rewrite cycleStart_day.
    generalize (weekNumber now). intro w.
    unfold dayNumber, msPerDay. Z.div_mod_to_equations; lia.
  - unfold cycleEndOf. rewrite cycleStart_day, cycleStart_eq.
    unfold msPerDay. lia.
  - apply cycle_window. reflexivity.
  - intros t In. apply cycle_window in In.
    rewrite !cycleStart_eq, In. reflexivity.
Qed.

Lemma sumQ_scale {A : Type} (c : Q) (f : A -> Q) (l : list A) :
  sumQ (map (fun x => c * f x) l) == c * sumQ (map f l).
Proof.
  induction l as [|x l IH]; simpl; [lra|]. rewrite IH. lra.
Qed.

Lemma sumQ_nonneg {A : Type} (f : A -> Q) (l : list A) :
  (forall x, 0 <= f x) -> 0 <= sumQ (map f l).
Proof.
  intro P. induction l as [|x l IH]; simpl; [lra|].
  pose proof (P x). lra.
Qed.

Lemma net_of_food_price (fp : Q) :
  Qmax 0 (fp - (fp * 10) / 100) == (9 # 10) * Qmax 0 fp.
Proof.
  assert (E : fp - (fp * 10) / 100 == (9 # 10) * fp) by field.
  rewrite E.
  destruct (Q.max_spec 0 fp) as [[L M]|[L M]]; rewrite M.
  - apply Q.max_r. lra.
  - rewrite Q.max_l by lra. lra.
Qed.

(** X2.  The payout of lines 94-98 is nine tenths of the food prices of
    the orders, an order whose discount exceeds its subtotal counting for
    nothing; it is never negative. *)
Theorem cycle_payout_is_ninety_percent (deliveredOrders : list Order) :
  cyclePayoutOf deliveredOrders
  == (9 # 10) * sumQ (map (fun o => Qmax 0 (foodPriceOf o)) deliveredOrders)
  /\ 0 <= cyclePayoutOf deliveredOrders.
Proof.
  assert (E : cyclePayoutOf deliveredOrders
              == (9 # 10)
                 * sumQ (map (fun o => Qmax 0 (foodPriceOf o))
                           deliveredOrders)).
  { unfold cyclePayoutOf. rewrite fold_left_sum.
    rewrite (sumQ_ext _ (fun o => (9 # 10) * Qmax 0 (foodPriceOf o))).
    - rewrite sumQ_scale. lra.
    - intro o. unfold foodPriceOf. apply net_of_food_price. }
  split; [exact E|]. rewrite E.
  assert (0 <= sumQ (map (fun o => Qmax 0 (foodPriceOf o)) deliveredOrders)).
  { apply sumQ_nonneg. intro o. apply Q.le_max_l. }
  lra.
Qed.

Lemma effective_at_least_stored now rid wallet db :
  totalBalance wallet <= effectiveAvailableBalance now rid wallet db
  /\ 0 <= effectiveAvailableBalance now rid wallet db.
Proof.
  unfold effectiveAvailableBalance. split.
  - rewrite <- (orZero_eq (totalBalance wallet)) at 1. apply Q.le_max_l.
  - apply Qle_trans with (Qmax 0 (cyclePayoutOf
        (filter (deliveredInCycle
                   (restaurantIdVariations (idToString rid))
                   (idToString rid) (cycleStartOf now)
                   (cycleEndOf (cycleStartOf now))) (orders db))
        - totalExistingWithdrawalsOf
            (filter (pendingOrApprovedOf rid) (requests db))));
      [apply Q.le_max_l|apply Q.le_max_r].
Qed.

Section CreateDecision.

Context `{WalletModel}.

(** X3.  [createWithdrawalRequest] answers 201 exactly when the caller is
    an authenticated restaurant, the amount is truthy, not below or at
    zero, parses to a positive number that does not exceed the effective
    available balance, and the restaurant has no Pending request. *)
Theorem create_succeeds_iff (now : Z) (req : CreateRequest) (db : Db) :
  isSuccess (fst (createWithdrawalRequest now req db)) = true
  <-> exists rid a,
        authenticatedAs req = Some rid
        /\ amountFalsy (body_amount req) = false
        /\ amountLeZero (body_amount req) = false
        /\ parseFloat (body_amount req) = Some a
        /\ 0 < a
        /\ a <= availableFor now rid db
        /\ forall r, In r (requests db) -> restaurantId r = rid ->
                     status r <> Pending.
Proof.
  unfold createWithdrawalRequest, authenticatedAs, availableFor.
  destruct (req_restaurant req) as [restaurant|];
    [|split; [discriminate|intros (rid & a & E & _); discriminate]].
  destruct (ra_id restaurant) as [rid|];
    [|split; [discriminate|intros (rid & a & E & _); discriminate]].
  destruct (amountFalsy (body_amount req)) eqn:Fa; simpl.
  { split; [discriminate|]. intros (r & a & _ & E & _). discriminate. }
  destruct (amountLeZero (body_amount req)) eqn:Le; simpl.
  { split; [discriminate|]. intros (r & a & _ & _ & E & _). discriminate. }
  destruct (findOrCreateByRestaurantId rid db) as [wallet db1] eqn:F.
  pose proof (findOrCreate_spec _ _ _ _ F) as (Rq & _).
  destruct (parseFloat (body_amount req)) as [a|] eqn:Pf; simpl.
  2:{ split; [discriminate|]. intros (r & a & _ & _ & _ & E & _).
      discriminate. }
  destruct (Qle_bool a 0) eqn:Pos; simpl.
  { split; [discriminate|]. intros (r & a' & _ & _ & _ & E & P & _).
    inversion E; subst a'. apply Qle_bool_iff in Pos. lra. }
  apply Qle_bool_false in Pos.
  destruct (Qgtb a (effectiveAvailableBalance now rid wallet db1)) eqn:Av;
    simpl.
  { split; [discriminate|].
    intros (r & a' & Er & _ & _ & E & _ & L & _).
    inversion E; subst a'. inversion Er; subst r. rewrite F in L.
    apply Qgtb_true in Av. lra. }
  apply Qgtb_false in Av.
  destruct (find (pendingOf rid) (requests db1)) as [p|] eqn:Pd; simpl.
  - split; [discriminate|].
    intros (r & a' & Er & _ & _ & _ & _ & _ & NoP).
    inversion Er; subst r. apply find_some in Pd. destruct Pd as [I P].
    rewrite Rq in I. unfold pendingOf in P. apply andb_prop in P.
    destruct P as [P1 P2]. apply Nat.eqb_eq in P1.
    apply RequestStatus_eqb_eq in P2. exfalso. exact (NoP p I P1 P2).
  - split; [|reflexivity]. intros _. exists rid, a.
    repeat match goal with |- _ /\ _ => split end;
      try reflexivity; try assumption.
    + rewrite F. exact Av.
    + intros r I Er St. rewrite <- Rq in I.
      pose proof (find_none _ _ Pd r I) as N. unfold pendingOf in N.
      rewrite Er, St, Nat.eqb_refl in N. discriminate N.
Qed.

(** X4.  The stored balance can always be withdrawn: an authenticated
    restaurant without a Pending request that asks for a positive number
    not above the [totalBalance] of its stored wallet is answered 201,
    whatever its orders and earlier withdrawals. *)
Theorem stored_balance_is_withdrawable (now : Z) (restaurant : RestaurantAuth)
  (rid : ObjectId) (a : Q) (w : RestaurantWallet) (db : Db) :
  ra_id restaurant = Some rid ->
  findWallet rid (wallets db) = Some w ->
  0 < a -> a <= totalBalance w ->
  (forall r, In r (requests db) -> restaurantId r = rid ->
             status r <> Pending) ->
  isSuccess
    (fst (createWithdrawalRequest now
            (mkCreateRequest (Some restaurant) (AmountNumber a)) db)) = true.
Proof.
  intros Auth Fw Pos Le NoP.
  unfold createWithdrawalRequest. cbn [req_restaurant body_amount].
  rewrite Auth. cbn [amountFalsy amountLeZero parseFloat].
  assert (E1 : Qeq_bool a 0 = false).
  { destruct (Qeq_bool a 0) eqn:E; [|reflexivity].
    apply Qeq_bool_eq in E. lra. }
  assert (E2 : Qle_bool a 0 = false) by (apply Qle_bool_false; exact Pos).
  rewrite E1, E2. simpl orb. cbv iota.
  rewrite (findOrCreate_existing _ _ _ Fw).
  pose proof (effective_at_least_stored now rid w db) as [B _].
  assert (E3 : Qgtb a (effectiveAvailableBalance now rid w db) = false).
  { apply Qgtb_false. lra. }
  rewrite E3.
  destruct (find (pendingOf rid) (requests db)) as [p|] eqn:Pd;
    [|reflexivity].
  apply find_some in Pd. destruct Pd as [I P].
  unfold pendingOf in P. apply andb_prop in P. destruct P as [P1 P2].
  apply Nat.eqb_eq in P1. apply RequestStatus_eqb_eq in P2.
  exfalso. exact (NoP p I P1 P2).
Qed.

(** X5.  A create that is refused, for whatever reason, stores no request
    and moves no money: the requests, the id counter, the orders and the
    restaurants are as before, every stored wallet is found unchanged, and
    a wallet that was not there before is an empty one. *)
Theorem refused_create_writes_nothing (now : Z) (req : CreateRequest)
  (db : Db) :
  isSuccess (fst (createWithdrawalRequest now req db)) = false ->
  isClientError (fst (createWithdrawalRequest now req db)) = true
  /\ requests (snd (createWithdrawalRequest now req db)) = requests db
  /\ nextId (snd (createWithdrawalRequest now req db)) = nextId db
  /\ orders (snd (createWithdrawalRequest now req db)) = orders db
  /\ restaurants (snd (createWithdrawalRequest now req db))
     = restaurants db
  /\ (forall r w, findWallet r (wallets db) = Some w ->
        findWallet r (wallets (snd (createWithdrawalRequest now req db)))
        = Some w)
  /\ (forall w,
        In w (wallets (snd (createWithdrawalRequest now req db))) ->
        In w (wallets db)
        \/ (totalBalance w = 0 /\ totalWithdrawn w = 0
            /\ transactions w = [])).
Proof.
  intro S.
  split; [apply create_refusal_is_client_error; exact S|].
  revert S. unfold createWithdrawalRequest.
  destruct (req_restaurant req) as [restaurant|]; [|simpl; auto 10].
  destruct (ra_id restaurant) as [rid|]; [|simpl; auto 10].
  destruct (amountFalsy (body_amount req) || amountLeZero (body_amount req));
    [simpl; auto 10|].
  destruct (findOrCreateByRestaurantId rid db) as [wallet db1] eqn:F.
  apply findOrCreate_spec in F.
  destruct F as (Rq & Or & Rs & Nx & _ & _ & Keep & New).
  assert (New' : forall w, In w (wallets db1) ->
            In w (wallets db)
            \/ (totalBalance w = 0 /\ totalWithdrawn w = 0
                /\ transactions w = [])).
  { intros w I. destruct (New w I) as [O| ->]; [left; exact O|right].
    simpl. auto. }
  destruct (parseFloat (body_amount req)) as [a|]; [|simpl; auto 10].
  destruct (Qle_bool a 0); [simpl; auto 10|].
  destruct (Qgtb a (effectiveAvailableBalance now rid wallet db1));
    [simpl; auto 10|].
  destruct (find (pendingOf rid) (requests db1)); [simpl; auto 10|].
  simpl. discriminate.
Qed.

End CreateDecision.

(** ** Requests are kept, and settled ones are final *)

Lemma unique_by_id (l : list WithdrawalRequest) (x y : WithdrawalRequest) :
  NoDup (map _id l) -> In x l -> In y l -> _id x = _id y -> x = y.
Proof.
  induction l as [|z l IH]; simpl; intros N Ix Iy E; [contradiction|].
  inversion N as [|? ? Nz Nl]; subst.
  destruct Ix as [->|Ix], Iy as [->|Iy]; auto.
  - exfalso. apply Nz. rewrite E. apply in_map. exact Iy.
  - exfalso. apply Nz. rewrite <- E. apply in_map. exact Ix.
Qed.

Lemma map_id_replace (id : ObjectId) (wr : WithdrawalRequest)
  (l : list WithdrawalRequest) :
  _id wr = id ->
  map _id (map (fun x => if Nat.eqb (_id x) id then wr else x) l)
  = map _id l.
Proof.
  intro E. rewrite map_map. apply map_ext. intro x.
  destruct (Nat.eqb_spec (_id x) id); congruence.
Qed.

Lemma replace_found_only (id : ObjectId) (found wr : WithdrawalRequest)
  (l : list WithdrawalRequest) (x : WithdrawalRequest) :
  NoDup (map _id l) -> findById id l = Some found -> In x l ->
  (if Nat.eqb (_id x) id then wr else x) = x \/ x = found.
Proof.
  intros N Fd I. destruct (Nat.eqb_spec (_id x) id) as [E|E]; [|auto].
  right. apply (unique_by_id l); auto.
  - eapply findById_In; eauto.
  - rewrite (findById_id _ _ _ Fd). exact E.
Qed.

Section Permanence.

Context `{WalletModel}.

(** The ids of the stored requests after an operation. *)
Lemma step_ids (op : Op) (db : Db) :
  map _id (requests (snd (step op db)))
  = map _id (requests db) ++ (if createdBy op db then [nextId db] else [])
  /\ (nextId db <= nextId (snd (step op db)))%nat
  /\ (createdBy op db = true -> (nextId db < nextId (snd (step op db)))%nat).
Proof.
  destruct op as [now req|now admin id|now admin id reason];
    cbn [createdBy step].
  - destruct (isSuccess (fst (createWithdrawalRequest now req db))) eqn:S.
    + destruct (createWithdrawalRequest now req db) as [resp db'] eqn:E.
      simpl in *.
      destruct (create_success_inv _ _ _ _ _ E S)
        as (rid & a & wallet & db1 & wr & t & _ & _ & _ & _ & _ & _
            & _ & (Id & _) & _ & Rq & _ & Nx & _).
      rewrite Rq, Nx, map_app, map_id_replace by exact Id. simpl.
      rewrite Id. split; [reflexivity|]. split; intros; lia.
    + destruct (create_refusal_frame now req db S) as (Rq & Nx & _).
      rewrite Rq, Nx, app_nil_r. split; [reflexivity|].
      split; [lia|discriminate].
  - rewrite app_nil_r.
    destruct (isSuccess (fst (approveWithdrawalRequest now admin id db)))
      eqn:S.
    + destruct (approveWithdrawalRequest now admin id db) as [resp db']
        eqn:E. simpl in *.
      destruct (approve_success_inv _ _ _ _ _ _ E S)
        as (adminDoc & adminId & found & wallet & db1 & _ & _ & Fd & _
            & _ & _ & Rq & _ & Nx & _).
      rewrite Rq, map_id_replace by (apply (findById_id _ _ _ Fd)).
      split; [reflexivity|]. split; [exact Nx|discriminate].
    + rewrite (approve_refusal_frame _ _ _ _ S).
      split; [reflexivity|]. split; [lia|discriminate].
  - rewrite app_nil_r.
    destruct (isSuccess
                (fst (rejectWithdrawalRequest now admin id reason db)))
      eqn:S.
    + destruct (rejectWithdrawalRequest now admin id reason db)
        as [resp db'] eqn:E. simpl in *.
      destruct (reject_success_inv _ _ _ _ _ _ _ E S)
        as (adminDoc & adminId & found & wallet & db1 & _ & _ & Fd & _
            & _ & _ & Rq & _ & Nx & _).
      rewrite Rq, map_id_replace by (apply (findById_id _ _ _ Fd)).
      split; [reflexivity|]. split; [exact Nx|discriminate].
    + rewrite (reject_refusal_frame _ _ _ _ _ S).
      split; [reflexivity|]. split; [lia|discriminate].
Qed.

Lemma step_keeps_unique_ids (op : Op) (db : Db) :
  UniqueIds db -> UniqueIds (snd (step op db)).
Proof.
  intros [N Fresh]. destruct (step_ids op db) as (Ids & Nx & Nx').
  assert (FreshIds : forall i, In i (map _id (requests db)) ->
                               (i < nextId db)%nat).
  { intros i I. apply in_map_iff in I. destruct I as (r & <- & I).
    apply Fresh. exact I. }
  split.
  - rewrite Ids. destruct (createdBy op db); [|rewrite app_nil_r; exact N].
    apply NoDup_app; [exact N|repeat constructor; intros []|].
    intros i I [<-|[]]. apply FreshIds in I. lia.
  - intros r I. apply (in_map _id) in I. rewrite Ids in I.
    apply in_app_or in I. destruct I as [I|I].
    + apply FreshIds in I. lia.
    + destruct (createdBy op db); [|contradiction].
      destruct I as [<-|[]]. apply Nx'. reflexivity.
Qed.

Lemma settle_keeps_cores s now adminId reason found id
  (l : list WithdrawalRequest) :
  NoDup (map _id l) -> findById id l = Some found ->
  map requestCore
    (map (fun x => if Nat.eqb (_id x) id
                   then processRequest s now adminId reason found
                   else x) l)
  = map requestCore l.
Proof.
  intros N Fd. rewrite map_map. apply map_ext_in. intros x I.
  destruct (Nat.eqb_spec (_id x) id) as [E|E]; [|reflexivity].
  assert (x = found).
  { apply (unique_by_id l); auto.
    - eapply findById_In; eauto.
    - rewrite (findById_id _ _ _ Fd). exact E. }
  subst x. reflexivity.
Qed.

(** X6.  No operation deletes a request or rewrites what identifies it:
    over unique ids, the stored requests keep their order, id, restaurant,
    amount, creation date and names; a successful create appends one
    request and every other call appends none, and the ids stay unique. *)
Theorem requests_are_never_deleted (op : Op) (db : Db) :
  UniqueIds db ->
  UniqueIds (snd (step op db))
  /\ exists new,
       map requestCore (requests (snd (step op db)))
       = map requestCore (requests db) ++ new
       /\ List.length new = (if createdBy op db then 1%nat else 0%nat).
Proof.
  intro U. split; [apply step_keeps_unique_ids; exact U|].
  destruct U as [N Fresh].
  destruct op as [now req|now admin id|now admin id reason];
    cbn [createdBy step].
  - destruct (isSuccess (fst (createWithdrawalRequest now req db))) eqn:S.
    + destruct (createWithdrawalRequest now req db) as [resp db'] eqn:E.
      simpl in *.
      destruct (create_success_inv _ _ _ _ _ E S)
        as (rid & a & wallet & db1 & wr & t & _ & _ & _ & _ & _ & _
            & _ & _ & _ & Rq & _).
      rewrite map_replace_fresh in Rq by exact Fresh.
      exists [requestCore wr]. rewrite Rq, map_app. split; reflexivity.
    + destruct (create_refusal_frame now req db S) as (Rq & _).
      exists []. rewrite Rq, app_nil_r. split; reflexivity.
  - exists []. rewrite app_nil_r. split; [|reflexivity].
    destruct (isSuccess (fst (approveWithdrawalRequest now admin id db)))
      eqn:S.
    + destruct (approveWithdrawalRequest now admin id db) as [resp db']
        eqn:E. simpl in *.
      destruct (approve_success_inv _ _ _ _ _ _ E S)
        as (adminDoc & adminId & found & wallet & db1 & _ & _ & Fd & _
            & _ & _ & Rq & _).
      rewrite Rq. apply settle_keeps_cores; assumption.
    + rewrite (approve_refusal_frame _ _ _ _ S). reflexivity.
  - exists []. rewrite app_nil_r. split; [|reflexivity].
    destruct (isSuccess
                (fst (rejectWithdrawalRequest now admin id reason db)))
      eqn:S.
    + destruct (rejectWithdrawalRequest now admin id reason db)
        as [resp db'] eqn:E. simpl in *.
      destruct (reject_success_inv _ _ _ _ _ _ _ E S)
        as (adminDoc & adminId & found & wallet & db1 & _ & _ & Fd & _
            & _ & _ & Rq & _).
      rewrite Rq. apply settle_keeps_cores; assumption.
    + rewrite (reject_refusal_frame _ _ _ _ _ S). reflexivity.
Qed.

Lemma settled_request_survives_replace id wr found
  (l : list WithdrawalRequest) (r : WithdrawalRequest) :
  NoDup (map _id l) -> findById id l = Some found ->
  status found = Pending -> In r l -> status r <> Pending ->
  In r (map (fun x => if Nat.eqb (_id x) id then wr else x) l).
Proof.
  intros N Fd St I NP. apply in_map_iff. exists r. split; [|exact I].
  destruct (replace_found_only id found wr l r N Fd I) as [E|E];
    [exact E|]. subst r. contradiction.
Qed.

Lemma step_keeps_settled (op : Op) (db : Db) (r : WithdrawalRequest) :
  UniqueIds db -> In r (requests db) -> status r <> Pending ->
  In r (requests (snd (step op db))).
Proof.
  intros [N Fresh] I NP.
  destruct op as [now req|now admin id|now admin id reason]; cbn [step].
  - destruct (isSuccess (fst (createWithdrawalRequest now req db))) eqn:S.
    + destruct (createWithdrawalRequest now req db) as [resp db'] eqn:E.
      simpl in *.
      destruct (create_success_inv _ _ _ _ _ E S)
        as (rid & a & wallet & db1 & wr & t & _ & _ & _ & _ & _ & _
            & _ & _ & _ & Rq & _).
      rewrite map_replace_fresh in Rq by exact Fresh.
      rewrite Rq. apply in_or_app. left. exact I.
    + destruct (create_refusal_frame now req db S) as (Rq & _).
      rewrite Rq. exact I.
  - destruct (isSuccess (fst (approveWithdrawalRequest now admin id db)))
      eqn:S.
    + destruct (approveWithdrawalRequest now admin id db) as [resp db']
        eqn:E. simpl in *.
      destruct (approve_success_inv _ _ _ _ _ _ E S)
        as (adminDoc & adminId & found & wallet & db1 & _ & _ & Fd & St
            & _ & _ & Rq & _).
      rewrite Rq. eapply settled_request_survives_replace; eauto.
    + rewrite (approve_refusal_frame _ _ _ _ S). exact I.
  - destruct (isSuccess
                (fst (rejectWithdrawalRequest now admin id reason db)))
      eqn:S.
    + destruct (rejectWithdrawalRequest now admin id reason db)
        as [resp db'] eqn:E. simpl in *.
      destruct (reject_success_inv _ _ _ _ _ _ _ E S)
        as (adminDoc & adminId & found & wallet & db1 & _ & _ & Fd & St
            & _ & _ & Rq & _).
      rewrite Rq. eapply settled_request_survives_replace; eauto.
    + rewrite (reject_refusal_frame _ _ _ _ _ S). exact I.
Qed.

(** X7.  A request that has left the Pending state is final: over unique
    ids, whatever sequence of creates, approves and rejects follows, the
    request stays in the collection exactly as it is -- status, stamps and
    reason included. *)
Theorem settled_requests_are_final (ops : list Op) (db : Db)
  (r : WithdrawalRequest) :
  UniqueIds db -> In r (requests db) -> status r <> Pending ->
  In r (requests (run ops db)).
Proof.
  revert db. induction ops as [|op ops IH]; intros db U I NP; simpl.
  - exact I.
  - apply IH; [apply step_keeps_unique_ids; exact U| |exact NP].
    apply step_keeps_settled; assumption.
Qed.

Lemma refused_after_settling now admin adminDoc adminId id reason db r :
  admin = Some adminDoc -> admin_id adminDoc = Some adminId ->
  findById id (requests db) = Some r -> status r <> Pending ->
  approveWithdrawalRequest now admin id db
  = (errorResponse 400 (AlreadyProcessed (status r)), db)
  /\ rejectWithdrawalRequest now admin id reason db
     = (errorResponse 400 (AlreadyProcessed (status r)), db).
Proof.
  intros -> A Fd NP. apply status_not_pending in NP.
  unfold approveWithdrawalRequest, rejectWithdrawalRequest.
  rewrite A, Fd, NP. split; reflexivity.
Qed.

(** X8.  A request is processed once: after a successful approve or a
    successful reject of a request, every further approve and reject of it
    by an authenticated administrator is answered 400 with the status it
    was given, and changes nothing. *)
Theorem processed_once (now now' : Z) (admin : option AdminAuth)
  (id : ObjectId) (reason reason' : option string) (db : Db)
  (adminDoc' : AdminAuth) (adminId' : ObjectId) (approving : bool) :
  isSuccess
    (fst (if approving then approveWithdrawalRequest now admin id db
          else rejectWithdrawalRequest now admin id reason db)) = true ->
  admin_id adminDoc' = Some adminId' ->
  let db' := snd (if approving then approveWithdrawalRequest now admin id db
                  else rejectWithdrawalRequest now admin id reason db) in
  let s := if approving then Approved else Rejected in
  approveWithdrawalRequest now' (Some adminDoc') id db'
  = (errorResponse 400 (AlreadyProcessed s), db')
  /\ rejectWithdrawalRequest now' (Some adminDoc') id reason' db'
     = (errorResponse 400 (AlreadyProcessed s), db').
Proof.
  intros S A db' s. subst db' s. destruct approving.
  - destruct (approveWithdrawalRequest now admin id db) as [resp db'] eqn:E.
    simpl in *.
    destruct (approve_success_inv _ _ _ _ _ _ E S)
      as (adminDoc & adminId & found & wallet & db1 & _ & _ & Fd & _
          & _ & _ & Rq & _).
    eapply (refused_after_settling now' (Some adminDoc') adminDoc' adminId'
              id reason' db'
              (processRequest Approved now adminId None found));
      try reflexivity; try assumption; [|discriminate].
    rewrite Rq. eapply findById_map_replace; [exact Fd|].
    apply (findById_id _ _ _ Fd).
  - destruct (rejectWithdrawalRequest now admin id reason db)
      as [resp db'] eqn:E.
    simpl in *.
    destruct (reject_success_inv _ _ _ _ _ _ _ E S)
      as (adminDoc & adminId & found & wallet & db1 & _ & _ & Fd & _
          & _ & _ & Rq & _).
    eapply (refused_after_settling now' (Some adminDoc') adminDoc' adminId'
              id reason' db'
              (processRequest Rejected now adminId reason found));
      try reflexivity; try assumption; [|discriminate].
    rewrite Rq. eapply findById_map_replace; [exact Fd|].
    apply (findById_id _ _ _ Fd).
Qed.

(** X9.  The request a success answer carries is the stored one: after
    any operation that succeeds, looking up the id of the request in the
    answer finds exactly that request. *)
Theorem success_answer_is_stored (op : Op) (db : Db) :
  isSuccess (fst (step op db)) = true ->
  exists code m r,
    fst (step op db) = successResponse code m (RequestData r)
    /\ findById (_id r) (requests (snd (step op db))) = Some r.
Proof.
  destruct op as [now req|now admin id|now admin id reason]; cbn [step];
    intro S.
  - destruct (createWithdrawalRequest now req db) as [resp db'] eqn:E.
    simpl in *.
    destruct (create_success_inv _ _ _ _ _ E S)
      as (rid & a & wallet & db1 & wr & t & _ & _ & _ & _ & _ & _
          & Er & (Id & _) & _ & Rq & _).
    exists 201%nat, RequestCreated, wr. split; [exact Er|].
    rewrite Rq, Id. apply findById_replaced. exact Id.
  - destruct (approveWithdrawalRequest now admin id db) as [resp db'] eqn:E.
    simpl in *.
    destruct (approve_success_inv _ _ _ _ _ _ E S)
      as (adminDoc & adminId & found & wallet & db1 & _ & _ & Fd & _
          & _ & Er & Rq & _).
    exists 200%nat, RequestApproved,
      (processRequest Approved now adminId None found).
    split; [exact Er|]. rewrite Rq. cbn [processRequest _id].
    rewrite (findById_id _ _ _ Fd).
    eapply findById_map_replace; [exact Fd|apply (findById_id _ _ _ Fd)].
  - destruct (rejectWithdrawalRequest now admin id reason db)
      as [resp db'] eqn:E.
    simpl in *.
    destruct (reject_success_inv _ _ _ _ _ _ _ E S)
      as (adminDoc & adminId & found & wallet & db1 & _ & _ & Fd & _
          & _ & Er & Rq & _).
    exists 200%nat, RequestRejected,
      (processRequest Rejected now adminId reason found).
    split; [exact Er|]. rewrite Rq. cbn [processRequest _id].
    rewrite (findById_id _ _ _ Fd).
    eapply findById_map_replace; [exact Fd|apply (findById_id _ _ _ Fd)].
Qed.

End Permanence.

(** ** A created request on its way to approval or rejection *)

Lemma map_entryCore_updateAt (s : TxStatus) (now : Z) (i : nat)
  (l : list Transaction) :
  map entryCore (updateAt i (settleTransaction s now) l) = map entryCore l.
Proof.
  revert i. induction l as [|t l IH]; intros i; destruct i; simpl;
    try reflexivity.
  rewrite IH. reflexivity.
Qed.

Section CreatedThenSettled.

Context `{WalletModel}.

(** What a successful create hands over to the administrator: the stored
    request, Pending and linked, and the wallet holding a transaction of
    the linked id. *)
Lemma created_request_is_ready now req db resp db1 :
  createWithdrawalRequest now req db = (resp, db1) ->
  isSuccess resp = true ->
  exists rid a wallet wr w1 i t,
    authenticatedAs req = Some rid
    /\ parseFloat (body_amount req) = Some a /\ 0 < a
    /\ wallet = fst (findOrCreateByRestaurantId rid db)
    /\ findById (nextId db) (requests db1) = Some wr
    /\ restaurantId wr = rid /\ amount wr = a /\ status wr = Pending
    /\ findWallet rid (wallets db1) = Some w1
    /\ w_restaurantId w1 = rid
    /\ totalBalance w1 = Qmax 0 (orZero (totalBalance wallet) - a)
    /\ totalWithdrawn w1 = orZero (totalWithdrawn wallet) + a
    /\ locateTransaction w1 wr = Some i
    /\ nth_error (transactions w1) i = Some t
    /\ transactionId wr = Some (t_id t).
Proof.
  intros E S.
  destruct (create_success_inv _ _ _ _ _ E S)
    as (rid & a & wallet & dbw & wr & t & Auth & Pf & Pos & F & _ & _
        & _ & (Id & Rid & Am & St & Tx) & Et & Rq & Ws & _).
  pose proof (findOrCreate_spec _ _ _ _ F)
    as (_ & _ & _ & _ & Fw & Ow & _ & _).
  set (w1 := mkWallet rid (Qmax 0 (orZero (totalBalance wallet) - a))
               (orZero (totalWithdrawn wallet) + a)
               (transactions wallet ++ [t])) in *.
  destruct (findIndex (fun t0 => Nat.eqb (t_id t0) (t_id t))
              (transactions w1)) as [i|] eqn:Ix.
  2:{ exfalso. revert Ix. apply findIndex_last. apply Nat.eqb_refl. }
  destruct (findIndex_nth _ _ _ Ix) as (t' & N & P).
  apply Nat.eqb_eq in P.
  exists rid, a, wallet, wr, w1, i, t'.
  repeat match goal with |- _ /\ _ => split end;
    try assumption; try reflexivity.
  - rewrite F. reflexivity.
  - rewrite Rq. apply findById_replaced. exact Id.
  - rewrite Ws. eapply findWallet_replace; [exact Fw|reflexivity].
  - unfold locateTransaction. rewrite Tx, Ix. reflexivity.
  - rewrite P. exact Tx.
Qed.

Lemma approve_succeeds now adminDoc adminId id db found restaurant :
  admin_id adminDoc = Some adminId ->
  findById id (requests db) = Some found -> status found = Pending ->
  findRestaurantById (restaurantId found) (restaurants db) = Some restaurant ->
  isSuccess (fst (approveWithdrawalRequest now (Some adminDoc) id db))
  = true.
Proof.
  intros A Fd St Rd.
  pose proof (approve_outcome now adminDoc adminId id db A) as O.
  rewrite Fd, St, Rd in O. exact O.
Qed.

(** X10.  Create, then approve: as long as the restaurant's document is
    there, the approval of a request that [createWithdrawalRequest] has
    just stored succeeds, stamps the request as Approved by that
    administrator at that time, turns the linked transaction into a
    Completed one, and takes no second deduction -- the wallet keeps the
    max(0, b - a) and the withdrawn total the create left. *)
Theorem create_then_approve (now1 now2 : Z) (req : CreateRequest)
  (adminDoc : AdminAuth) (adminId : ObjectId) (db : Db) (resp1 : Response)
  (db1 : Db) :
  createWithdrawalRequest now1 req db = (resp1, db1) ->
  isSuccess resp1 = true ->
  admin_id adminDoc = Some adminId ->
  (forall rid, authenticatedAs req = Some rid ->
     findRestaurantById rid (restaurants db) <> None) ->
  exists rid a wallet r2 w2 i t,
    authenticatedAs req = Some rid
    /\ parseFloat (body_amount req) = Some a
    /\ wallet = fst (findOrCreateByRestaurantId rid db)
    /\ isSuccess
         (fst (approveWithdrawalRequest now2 (Some adminDoc) (nextId db)
                 db1)) = true
    /\ findById (nextId db)
         (requests
            (snd (approveWithdrawalRequest now2 (Some adminDoc) (nextId db)
                    db1))) = Some r2
    /\ status r2 = Approved /\ amount r2 = a
    /\ processedAt r2 = Some now2 /\ processedBy r2 = Some adminId
    /\ findWallet rid
         (wallets
            (snd (approveWithdrawalRequest now2 (Some adminDoc) (nextId db)
                    db1))) = Some w2
    /\ totalBalance w2 == Qmax 0 (totalBalance wallet - a)
    /\ totalWithdrawn w2 == totalWithdrawn wallet + a
    /\ nth_error (transactions w2) i = Some t
    /\ transactionId r2 = Some (t_id t)
    /\ t_status t = TxCompleted /\ t_processedAt t = Some now2.
Proof.
  intros E S A Doc.
  destruct (created_request_is_ready _ _ _ _ _ E S)
    as (rid & a & wallet & wr & w1 & i & t & Auth & Pf & Pos & Ew & Fd
        & Rid & Am & St & Fw1 & Ow1 & B1 & W1 & L & N & Tx).
  destruct (create_success_inv _ _ _ _ _ E S)
    as (_ & _ & _ & _ & _ & _ & _ & _ & _ & _ & _ & _ & _ & _ & _ & _ & _
        & _ & _ & Rs).
  destruct (findRestaurantById rid (restaurants db)) as [restaurant|] eqn:Rd;
    [|exfalso; apply (Doc rid Auth); exact Rd].
  rewrite <- Rs, <- Rid in Rd.
  pose proof (approve_succeeds now2 adminDoc adminId (nextId db) db1 wr
                restaurant A Fd St Rd) as S2.
  destruct (approveWithdrawalRequest now2 (Some adminDoc) (nextId db) db1)
    as [resp2 db2] eqn:E2.
  simpl in S2 |- *.
  destruct (approve_success_inv _ _ _ _ _ _ E2 S2)
    as (adminDoc' & adminId' & found & wallet' & db1' & Ea & Eid & Fd' & _
        & F' & _ & Rq2 & Ws2 & _).
  inversion Ea; subst adminDoc'. rewrite A in Eid.
  inversion Eid; subst adminId'.
  rewrite Fd in Fd'. inversion Fd'; subst found.
  rewrite Rid in F', Ws2.
  rewrite (findOrCreate_existing _ _ _ Fw1) in F'.
  inversion F'; subst wallet' db1'.
  exists rid, a, wallet, (processRequest Approved now2 adminId None wr),
    (approvedWallet now2 (nextId db1) w1 wr), i,
    (settleTransaction TxCompleted now2 t).
  repeat match goal with |- _ /\ _ => split end;
    try assumption; try reflexivity.
  - rewrite Rq2. eapply findById_map_replace; [exact Fd|].
    apply (findById_id _ _ _ Fd).
  - rewrite Ws2. eapply findWallet_replace; [exact Fw1|].
    rewrite approvedWallet_owner. exact Ow1.
  - unfold approvedWallet. rewrite L. cbn [totalBalance]. rewrite B1.
    rewrite orZero_eq. reflexivity.
  - unfold approvedWallet. rewrite L. cbn [totalWithdrawn]. rewrite W1.
    rewrite orZero_eq. reflexivity.
  - unfold approvedWallet. rewrite L. cbn [transactions].
    apply updateAt_nth. exact N.
Qed.

(** X12.  The ledger of a wallet is append-only: whatever the operation,
    a stored wallet is still stored afterwards, and its transactions are
    the ones it had -- same order, ids, amounts, types and descriptions,
    only status and processing date may differ -- followed by at most one
    new transaction. *)
Theorem ledger_is_append_only (op : Op) (db : Db) (rid : ObjectId)
  (w : RestaurantWallet) :
  findWallet rid (wallets db) = Some w ->
  exists w' added,
    findWallet rid (wallets (snd (step op db))) = Some w'
    /\ map entryCore (transactions w')
       = map entryCore (transactions w) ++ added
    /\ (List.length added <= 1)%nat.
Proof.
  intro Fw.
  assert (Same : exists w' added,
             findWallet rid (wallets db) = Some w'
             /\ map entryCore (transactions w')
                = map entryCore (transactions w) ++ added
             /\ (List.length added <= 1)%nat).
  { exists w, []. rewrite app_nil_r. simpl. auto. }
  destruct op as [now req|now admin id|now admin id reason]; cbn [step].
  - destruct (isSuccess (fst (createWithdrawalRequest now req db))) eqn:S.
    + destruct (createWithdrawalRequest now req db) as [resp db'] eqn:E.
      simpl in *.
      destruct (create_success_inv _ _ _ _ _ E S)
        as (rid0 & a & wallet & db1 & wr & t & _ & _ & _ & F & _ & _
            & _ & _ & _ & _ & Ws & _).
      pose proof (findOrCreate_spec _ _ _ _ F)
        as (_ & _ & _ & _ & Fw0 & Ow & Keep & _).
      rewrite Ws. destruct (Nat.eqb_spec rid0 rid) as [->|Ne].
      * apply Keep in Fw. rewrite Fw0 in Fw. inversion Fw; subst wallet.
        eexists _, [entryCore t].
        split; [eapply findWallet_replace; [exact Fw0|reflexivity]|].
        cbn [transactions]. rewrite map_app. split; [reflexivity|].
        simpl. lia.
      * exists w, []. rewrite app_nil_r.
        rewrite findWallet_replace_other by first [reflexivity|assumption].
        split; [apply Keep; exact Fw|]. simpl. auto.
    + destruct (create_refusal_frame now req db S) as (_ & _ & Keep & _).
      exists w, []. rewrite app_nil_r. split; [apply Keep; exact Fw|].
      simpl. auto.
  - destruct (isSuccess (fst (approveWithdrawalRequest now admin id db)))
      eqn:S; [|rewrite (approve_refusal_frame _ _ _ _ S); exact Same].
    destruct (approveWithdrawalRequest now admin id db) as [resp db'] eqn:E.
    simpl in *.
    destruct (approve_success_inv _ _ _ _ _ _ E S)
      as (adminDoc & adminId & found & wallet & db1 & _ & _ & _ & _ & F
          & _ & _ & Ws & _).
    pose proof (findOrCreate_spec _ _ _ _ F)
      as (_ & _ & _ & _ & Fw0 & Ow & Keep & _).
    rewrite Ws.
    destruct (Nat.eqb_spec (restaurantId found) rid) as [Eq|Ne].
    + apply Keep in Fw. rewrite <- Eq, Fw0 in Fw.
      inversion Fw; subst wallet. rewrite <- Eq.
      exists (approvedWallet now (nextId db) w found).
      unfold approvedWallet.
      destruct (locateTransaction w found) as [i|].
      * exists []. rewrite app_nil_r.
        split; [eapply findWallet_replace; [exact Fw0|exact Ow]|].
        cbn [transactions]. rewrite map_entryCore_updateAt. simpl. auto.
      * eexists [_].
        split; [eapply findWallet_replace; [exact Fw0|exact Ow]|].
        cbn [addTransaction fst transactions]. rewrite map_app.
        split; [reflexivity|simpl; lia].
    + exists w, []. rewrite app_nil_r.
      rewrite findWallet_replace_other;
        [|rewrite approvedWallet_owner; exact Ow|exact Ne].
      split; [apply Keep; exact Fw|]. simpl. auto.
  - destruct (isSuccess
                (fst (rejectWithdrawalRequest now admin id reason db)))
      eqn:S; [|rewrite (reject_refusal_frame _ _ _ _ _ S); exact Same].
    destruct (rejectWithdrawalRequest now admin id reason db)
      as [resp db'] eqn:E.
    simpl in *.
    destruct (reject_success_inv _ _ _ _ _ _ _ E S)
      as (adminDoc & adminId & found & wallet & db1 & _ & _ & _ & _ & F
          & _ & _ & Ws & _).
    pose proof (findOrCreate_spec _ _ _ _ F)
      as (_ & _ & _ & _ & Fw0 & Ow & Keep & _).
    rewrite Ws.
    destruct (Nat.eqb_spec (restaurantId found) rid) as [Eq|Ne].
    + apply Keep in Fw. rewrite <- Eq, Fw0 in Fw.
      inversion Fw; subst wallet. rewrite <- Eq.
      exists (rejectedWallet now (nextId db) w found).
      unfold rejectedWallet.
      destruct (locateTransaction w found) as [i|].
      * exists []. rewrite app_nil_r.
        split; [eapply findWallet_replace; [exact Fw0|exact Ow]|].
        cbn [transactions]. rewrite map_entryCore_updateAt. simpl. auto.
      * eexists [_].
        split; [eapply findWallet_replace; [exact Fw0|exact Ow]|].
        cbn [addTransaction fst transactions]. rewrite map_app.
        split; [reflexivity|simpl; lia].
    + exists w, []. rewrite app_nil_r.
      rewrite findWallet_replace_other;
        [|rewrite rejectedWallet_owner; exact Ow|exact Ne].
      split; [apply Keep; exact Fw|]. simpl. auto.
Qed.

End CreatedThenSettled.

(** ** What the listings show *)

Lemma In_firstn_list {A : Type} (n : nat) (l : list A) (x : A) :
  In x (firstn n l) -> In x l.
Proof.
  revert l. induction n as [|n IH]; intros [|y l]; simpl; try tauto.
  intros [E|I]; [left; exact E|right; apply IH; exact I].
Qed.

Lemma In_skipn_list {A : Type} (n : nat) (l : list A) (x : A) :
  In x (skipn n l) -> In x l.
Proof.
  revert l. induction n as [|n IH]; intros [|y l]; simpl; try tauto.
  intro I. right. apply IH. exact I.
Qed.

Lemma In_insertNewestFirst r x l :
  In r (insertNewestFirst x l) -> r = x \/ In r l.
Proof.
  induction l as [|y l IH]; simpl.
  - intros [E|[]]. left. symmetry. exact E.
  - destruct (createdAt y <=? createdAt x)%Z; simpl.
    + intros [E|I]; [left; symmetry; exact E|right; exact I].
    + intros [E|I]; [right; left; exact E|].
      destruct (IH I) as [E|I']; [left; exact E|right; right; exact I'].
Qed.

Lemma In_sortNewestFirst r l : In r (sortNewestFirst l) -> In r l.
Proof.
  induction l as [|x l IH]; simpl; [tauto|].
  intro I. apply In_insertNewestFirst in I.
  destruct I as [E|I]; [left; symmetry; exact E|right; apply IH; exact I].
Qed.

Lemma listEngine_answers_from_input : AnswersFromInput (H := listEngine).
Proof.
  intros skip limit l r I. simpl in I.
  apply In_firstn_list, In_skipn_list, In_sortNewestFirst in I. exact I.
Qed.

Section ListingScope.

Context `{QueryEngine}.

Lemma listWith_rows query params db :
  AnswersFromInput ->
  exists rows page limit,
    listWith query params db
    = successResponse 200 RequestsRetrieved
        (ListData rows page limit
           (List.length (filter (matchesQuery query) (requests db))))
    /\ forall r, In r rows ->
         In r (requests db) /\ matchesQuery query r = true.
Proof.
  intro Sub. unfold listWith. eexists _, _, _. split; [reflexivity|].
  intros r I. apply Sub in I. apply filter_In in I. exact I.
Qed.


(** X14.  The administrator's search: with a database that answers a
    query with rows of the collection, every row of
    [getAllWithdrawalRequests] under a non-empty search string matches it
    in the restaurant name or in the restaurant id string; an empty search
    string searches for nothing, the answer being the one without a
    search. *)
Theorem admin_listing_search (status : option string)
  (page limit : option Z) (search : string) (db : Db) :
  AnswersFromInput ->
  (search <> EmptyString ->
   exists rows p l total,
     getAllWithdrawalRequests
       (mkListingParams status page limit (Some search)) db
     = successResponse 200 RequestsRetrieved (ListData rows p l total)
     /\ forall r, In r rows ->
          In r (requests db)
          /\ (regexTest search (restaurantName r)
              || regexTest search (restaurantIdString r)) = true)
  /\ getAllWithdrawalRequests
       (mkListingParams status page limit (Some EmptyString)) db
     = getAllWithdrawalRequests (mkListingParams status page limit None) db.
Proof.
  intro Sub. split; [|reflexivity].
  intro NE. unfold getAllWithdrawalRequests. cbn [p_status p_search].
  assert (Es : searchFilter (Some search) = Some search).
  { destruct search; [contradiction|reflexivity]. }
  rewrite Es.
  destruct (listWith_rows
              (mkQuery None (statusFilter status) (Some search))
              (mkListingParams status page limit (Some search)) db Sub)
    as (rows & p & l & E & Rows).
  eexists rows, p, l, _. split; [exact E|].
  intros r I. destruct (Rows r I) as [Ir M]. split; [exact Ir|].
  unfold matchesQuery in M. cbn [q_restaurantId q_status q_or] in M.
  apply andb_prop in M. destruct M as [_ M]. exact M.
Qed.

End ListingScope.

(** ** The ledger the operations keep *)

Lemma findOrCreate_others rid rid' db wallet db1 :
  findOrCreateByRestaurantId rid db = (wallet, db1) -> rid <> rid' ->
  findWallet rid' (wallets db1) = findWallet rid' (wallets db).
Proof.
  unfold findOrCreateByRestaurantId. intros E Ne.
  destruct (findWallet rid (wallets db)) as [w|] eqn:F;
    inversion E; subst; [reflexivity|].
  simpl. rewrite (findWallet_app_new rid rid'); auto.
  destruct (Nat.eqb_spec rid rid'); [contradiction|reflexivity].
Qed.

Lemma findOrCreate_new_wallet rid db wallet db1 w :
  findOrCreateByRestaurantId rid db = (wallet, db1) ->
  In w (wallets db1) -> In w (wallets db) \/ totalWithdrawn w = 0.
Proof.
  intros F I. destruct (findOrCreate_spec _ _ _ _ F) as (_ & _ & _ & _
    & _ & _ & _ & New).
  destruct (New w I) as [O| ->]; [left; exact O|right; reflexivity].
Qed.

Lemma two_in_filter {A : Type} (p : A -> bool) (l : list A) (x y : A) :
  In x l -> In y l -> x <> y -> p x = true -> p y = true ->
  (2 <= List.length (filter p l))%nat.
Proof.
  induction l as [|z l IH]; simpl; intros Ix Iy Ne Px Py; [contradiction|].
  assert (One : forall u, In u l -> p u = true ->
                          (1 <= List.length (filter p l))%nat).
  { intros u Iu Pu. assert (I : In u (filter p l)).
    { apply filter_In. split; assumption. }
    destruct (filter p l); [contradiction|simpl; lia]. }
  destruct Ix as [->|Ix], Iy as [->|Iy].
  - contradiction.
  - rewrite Px. simpl. pose proof (One y Iy Py). lia.
  - rewrite Py. simpl. pose proof (One x Ix Px). lia.
  - pose proof (IH Ix Iy Ne Px Py). destruct (p z); simpl; lia.
Qed.

Section Closed.

Context `{WalletModel}.

Lemma refused_create_wallets now req db w :
  isSuccess (fst (createWithdrawalRequest now req db)) = false ->
  In w (wallets (snd (createWithdrawalRequest now req db))) ->
  In w (wallets db) \/ totalWithdrawn w = 0.
Proof.
  unfold createWithdrawalRequest.
  destruct (req_restaurant req) as [restaurant|]; [|simpl; auto].
  destruct (ra_id restaurant) as [rid|]; [|simpl; auto].
  destruct (amountFalsy (body_amount req) || amountLeZero (body_amount req));
    [simpl; auto|].
  destruct (findOrCreateByRestaurantId rid db) as [wallet db1] eqn:F.
  pose proof (findOrCreate_new_wallet _ _ _ _ w F) as New.
  destruct (parseFloat (body_amount req)) as [a|]; [|simpl; auto].
  destruct (Qle_bool a 0); [simpl; auto|].
  destruct (Qgtb a (effectiveAvailableBalance now rid wallet db1));
    [simpl; auto|].
  destruct (find (pendingOf rid) (requests db1)); [simpl; auto|].
  simpl. discriminate.
Qed.

Lemma settle_keeps_withdrawn s now adminId reason found id wallet w'
  db db1 db' :
  s <> Pending ->
  OnePendingInv db -> WithdrawnCovers db ->
  findById id (requests db) = Some found -> status found = Pending ->
  findOrCreateByRestaurantId (restaurantId found) db = (wallet, db1) ->
  requests db' =
    map (fun x => if Nat.eqb (_id x) id
                  then processRequest s now adminId reason found
                  else x) (requests db) ->
  wallets db' =
    map (fun x => if Nat.eqb (w_restaurantId x) (restaurantId found)
                  then w' else x) (wallets db1) ->
  w_restaurantId w' = restaurantId found ->
  0 <= totalWithdrawn w' ->
  WithdrawnCovers db'.
Proof.
  intros NP [_ One] [Wd Cov] Fd St F Rq Ws Ow Pw. split.
  - intros w I. rewrite Ws in I. apply in_map_iff in I.
    destruct I as (x & E & I).
    destruct (Nat.eqb (w_restaurantId x) (restaurantId found)).
    + subst w. exact Pw.
    + subst w. destruct (findOrCreate_new_wallet _ _ _ _ x F I) as [O|Z0];
        [apply Wd; exact O|rewrite Z0; lra].
  - intros r w I P Fw. rewrite Rq in I. apply in_map_iff in I.
    destruct I as (x & E & I).
    destruct (Nat.eqb_spec (_id x) id) as [Ei|Ei].
    { subst r. simpl in P. contradiction. }
    subst r.
    destruct (Nat.eqb_spec (restaurantId found) (restaurantId x))
      as [Eq|Ne].
    + exfalso. pose proof (findById_In _ _ _ Fd) as If.
      assert (Nxf : x <> found).
      { intro Ex. subst x. apply Ei. apply (findById_id _ _ _ Fd). }
      pose proof (two_in_filter (pendingOf (restaurantId x)) (requests db)
                    x found I If Nxf) as Two.
      specialize (One (restaurantId x)). unfold pendingCount in One.
      assert (2 <= 1)%nat; [|lia].
      etransitivity; [apply Two|exact One].
      * unfold pendingOf. rewrite P, Nat.eqb_refl. reflexivity.
      * unfold pendingOf. rewrite St, Eq, Nat.eqb_refl. reflexivity.
    + rewrite Ws in Fw.
      rewrite findWallet_replace_other in Fw by assumption.
      rewrite (findOrCreate_others _ _ _ _ _ F Ne) in Fw.
      apply (Cov x w I P Fw).
Qed.

Lemma step_keeps_withdrawn (op : Op) (db : Db) :
  ClosedLedger db -> WithdrawnCovers (snd (step op db)).
Proof.
  intros (One & Led & Wc).
  destruct op as [now req|now admin id|now admin id reason]; cbn [step].
  - destruct Wc as [Wd Cov].
    destruct (isSuccess (fst (createWithdrawalRequest now req db))) eqn:S.
    + destruct (createWithdrawalRequest now req db) as [resp db'] eqn:E.
      simpl in *.
      destruct (create_success_inv _ _ _ _ _ E S)
        as (rid & a & wallet & db1 & wr & t & _ & _ & Pos & F & _ & Pd
            & _ & (Id & Rid & Am & St & Tx) & _ & Rq & Ws & _).
      pose proof (findOrCreate_spec _ _ _ _ F)
        as (_ & _ & _ & _ & Fw0 & Ow & _ & _).
      destruct One as [Fresh _].
      rewrite map_replace_fresh in Rq by exact Fresh.
      assert (Pw : 0 <= totalWithdrawn wallet).
      { destruct (findOrCreate_new_wallet _ _ _ _ wallet F
                    (findWallet_In _ _ _ Fw0)) as [O|Z0];
          [apply Wd; exact O|rewrite Z0; lra]. }
      split.
      * intros w I. rewrite Ws in I. apply in_map_iff in I.
        destruct I as (x & Ex & I).
        destruct (Nat.eqb (w_restaurantId x) rid).
        -- subst w. simpl. rewrite orZero_eq. lra.
        -- subst w.
           destruct (findOrCreate_new_wallet _ _ _ _ x F I) as [O|Z0];
             [apply Wd; exact O|rewrite Z0; lra].
      * intros r w I P Fw. rewrite Rq in I. apply in_app_or in I.
        destruct I as [I|[I|[]]].
        -- destruct (Nat.eqb_spec rid (restaurantId r)) as [Eq|Ne].
           ++ exfalso. pose proof (find_none _ _ Pd r I) as N.
              unfold pendingOf in N.
              rewrite <- Eq, P, Nat.eqb_refl in N. discriminate N.
           ++ rewrite Ws in Fw.
              rewrite findWallet_replace_other in Fw
                by first [reflexivity|assumption].
              rewrite (findOrCreate_others _ _ _ _ _ F Ne) in Fw.
              apply (Cov r w I P Fw).
        -- subst r. rewrite Rid, Ws in Fw.
           erewrite findWallet_replace in Fw; [|exact Fw0|reflexivity].
           inversion Fw; subst w. simpl. rewrite Am, orZero_eq. lra.
    + destruct (create_refusal_frame now req db S) as (Rq & _ & Keep & _).
      split.
      * intros w I. destruct (refused_create_wallets now req db w S I)
          as [O|Z0]; [apply Wd; exact O|rewrite Z0; lra].
      * intros r w I P Fw. rewrite Rq in I.
        destruct Led as (_ & _ & Lnk).
        destruct (Lnk r I P) as (w0 & tid & Fw0 & _).
        pose proof (Keep _ _ Fw0) as K. rewrite Fw in K.
        inversion K; subst w0. apply (Cov r w I P Fw0).
  - destruct (isSuccess (fst (approveWithdrawalRequest now admin id db)))
      eqn:S; [|rewrite (approve_refusal_frame _ _ _ _ S); exact Wc].
    destruct (approveWithdrawalRequest now admin id db) as [resp db'] eqn:E.
    simpl in *.
    destruct (approve_success_inv _ _ _ _ _ _ E S)
      as (adminDoc & adminId & found & wallet & db1 & _ & _ & Fd & St & F
          & _ & Rq & Ws & _).
    pose proof (findOrCreate_spec _ _ _ _ F)
      as (_ & _ & _ & _ & Fw & Ow & Keep & _).
    pose proof Led as (_ & _ & Lnk).
    pose proof (findById_In _ _ _ Fd) as I.
    destruct (Lnk found I St) as (w & tid & Fx & Tx & Ix).
    pose proof (Keep _ _ Fx) as Fx1. rewrite Fw in Fx1.
    inversion Fx1; subst w.
    destruct (linked_located db found wallet) as (tid' & i & _ & _ & L);
      [exists wallet, tid; auto|exact Fx|].
    eapply settle_keeps_withdrawn with (s := Approved); eauto.
    + discriminate.
    + rewrite approvedWallet_owner. exact Ow.
    + unfold approvedWallet. rewrite L. simpl.
      destruct Wc as [Wd _]. apply Wd. eapply findWallet_In; eauto.
  - destruct (isSuccess
                (fst (rejectWithdrawalRequest now admin id reason db)))
      eqn:S; [|rewrite (reject_refusal_frame _ _ _ _ _ S); exact Wc].
    destruct (rejectWithdrawalRequest now admin id reason db)
      as [resp db'] eqn:E.
    simpl in *.
    destruct (reject_success_inv _ _ _ _ _ _ _ E S)
      as (adminDoc & adminId & found & wallet & db1 & _ & _ & Fd & St & F
          & _ & Rq & Ws & _).
    pose proof (findOrCreate_spec _ _ _ _ F)
      as (_ & _ & _ & _ & Fw & Ow & Keep & _).
    eapply settle_keeps_withdrawn with (s := Rejected); eauto.
    + discriminate.
    + rewrite rejectedWallet_owner. exact Ow.
    + unfold rejectedWallet.
      destruct (locateTransaction wallet found); simpl; apply Q.le_max_l.
Qed.

Lemma step_keeps_closed (op : Op) (db : Db) :
  ClosedLedger db -> ClosedLedger (snd (step op db)).
Proof.
  intros C. pose proof C as (One & Led & Wc).
  split; [apply step_keeps_one_pending; exact One|].
  split; [apply step_keeps_ledger; exact Led|].
  apply step_keeps_withdrawn. exact C.
Qed.

Lemma run_keeps_closed (ops : list Op) (db : Db) :
  ClosedLedger db -> ClosedLedger (run ops db).
Proof.
  revert db. induction ops as [|op ops IH]; intros db C; simpl.
  - exact C.
  - apply IH. apply step_keeps_closed. exact C.
Qed.

(** A database without requests, whose wallets hold nothing negative, is
    such a ledger: every history of the three operations starts there. *)
Lemma fresh_ledger_closed (db : Db) :
  requests db = [] ->
  (forall w, In w (wallets db) ->
     0 <= totalBalance w /\ 0 <= totalWithdrawn w) ->
  ClosedLedger db.
Proof.
  intros E W. split; [|split].
  - split.
    + intros r I. rewrite E in I. destruct I.
    + intro rid. unfold pendingCount. rewrite E. simpl. lia.
  - split; [|split].
    + intros w I. apply W. exact I.
    + intros r I. rewrite E in I. destruct I.
    + intros r I. rewrite E in I. destruct I.
  - split.
    + intros w I. apply W. exact I.
    + intros r w I. rewrite E in I. destruct I.
Qed.


(** X15.  On a ledger kept by the three operations alone -- ids from the
    counter, one Pending request per restaurant at most, every Pending request
    linked to its transaction, nothing negative, and each wallet having
    withdrawn at least its Pending amount -- these conditions hold again
    after any sequence of operations, and every reject that succeeds
    there is exact: the balance grows by the amount, [totalWithdrawn]
    shrinks by the amount and stays at or above zero, the clamp of lines
    564-567 never cutting anything off. *)
Theorem reject_is_exact_on_closed_ledger (ops : list Op) (db0 : Db)
  (now : Z) (admin : option AdminAuth) (id : ObjectId)
  (reason : option string) :
  ClosedLedger db0 ->
  isSuccess
    (fst (rejectWithdrawalRequest now admin id reason (run ops db0)))
  = true ->
  ClosedLedger (run ops db0)
  /\ exists found w w',
       findById id (requests (run ops db0)) = Some found
       /\ findWallet (restaurantId found) (wallets (run ops db0)) = Some w
       /\ findWallet (restaurantId found)
            (wallets
               (snd (rejectWithdrawalRequest now admin id reason
                       (run ops db0)))) = Some w'
       /\ totalBalance w' == totalBalance w + amount found
       /\ totalWithdrawn w' == totalWithdrawn w - amount found
       /\ 0 <= totalWithdrawn w'.
Proof.
  intros C0 S. pose proof (run_keeps_closed ops db0 C0) as C.
  split; [exact C|].
  set (db := run ops db0) in *.
  destruct C as (One & (_ & _ & Lnk) & (Wd & Cov)).
  destruct (rejectWithdrawalRequest now admin id reason db) as [resp db']
    eqn:E.
  simpl in *.
  destruct (reject_success_inv _ _ _ _ _ _ _ E S)
    as (adminDoc & adminId & found & wallet & db1 & _ & _ & Fd & St & F
        & _ & _ & Ws & _).
  pose proof (findOrCreate_spec _ _ _ _ F)
    as (_ & _ & _ & _ & Fw & Ow & Keep & _).
  pose proof (findById_In _ _ _ Fd) as I.
  destruct (Lnk found I St) as (w & tid & Fx & Tx & Ix).
  pose proof (Keep _ _ Fx) as Fx1. rewrite Fw in Fx1.
  inversion Fx1; subst w.
  destruct (linked_located db found wallet) as (tid' & i & _ & _ & L);
    [exists wallet, tid; auto|exact Fx|].
  pose proof (Cov found wallet I St Fx) as Le.
  exists found, wallet, (rejectedWallet now (nextId db) wallet found).
  split; [exact Fd|]. split; [exact Fx|].
  split.
  { rewrite Ws. eapply findWallet_replace; [exact Fw|].
    rewrite rejectedWallet_owner. exact Ow. }
  unfold rejectedWallet. rewrite L. simpl. rewrite !orZero_eq.
  split; [reflexivity|]. split.
  - apply Q.max_r. lra.
  - apply Q.le_max_l.
Qed.

End Closed.

(** * Properties of the notifications page *)

Lemma existsb_eqb_In (x : string) (l : list string) :
  existsb (String.eqb x) l = true <-> In x l.
Proof.
  rewrite existsb_exists. split.
  - intros (y & I & E). apply String.eqb_eq in E. subst y. exact I.
  - intro I. exists x. split; [exact I|apply String.eqb_refl].
Qed.

Lemma existsb_eqb_notIn (x : string) (l : list string) :
  existsb (String.eqb x) l = false <-> ~ In x l.
Proof.
  rewrite <- existsb_eqb_In. destruct (existsb (String.eqb x) l);
    split; congruence.
Qed.

Lemma insertByTime_In x y l :
  In y (insertByTime x l) <-> y = x \/ In y l.
Proof.
  induction l as [|z l IH]; simpl.
  - split; [intros [E|[]]; auto|intros [E|[]]; auto].
  - destruct (item_timeValue z <=? item_timeValue x)%Z; simpl.
    + split; [intros [E|I]; auto|intros [E|I]; auto].
    + rewrite IH. split; [intros [E|[E|I]]; auto|intros [E|[E|I]]; auto].
Qed.

Lemma insertByTime_sorted x l :
  StronglySorted newestFirst l -> StronglySorted newestFirst (insertByTime x l).
Proof.
  induction l as [|y l IH]; simpl; intro S.
  - repeat constructor.
  - inversion S as [|? ? Sl Fy]; subst.
    destruct (Z.leb_spec (item_timeValue y) (item_timeValue x)) as [L|L].
    + constructor; [exact S|]. constructor; [exact L|].
      eapply Forall_impl; [|exact Fy]. unfold newestFirst. intros a Ha. lia.
    + constructor; [apply IH; exact Sl|].
      apply Forall_forall. intros a Ia. apply insertByTime_In in Ia.
      destruct Ia as [->|Ia]; [unfold newestFirst; lia|].
      rewrite Forall_forall in Fy. apply Fy. exact Ia.
Qed.

Lemma sortByTime_sorted l : StronglySorted newestFirst (sortByTime l).
Proof.
  induction l as [|x l IH]; simpl; [constructor|].
  apply insertByTime_sorted. exact IH.
Qed.

Lemma insertByTime_perm x l : Permutation (insertByTime x l) (x :: l).
Proof.
  induction l as [|y l IH]; simpl; [reflexivity|].
  destruct (item_timeValue y <=? item_timeValue x)%Z; [reflexivity|].
  rewrite IH. apply perm_swap.
Qed.

Lemma sortByTime_perm l : Permutation (sortByTime l) l.
Proof.
  induction l as [|x l IH]; simpl; [reflexivity|].
  rewrite insertByTime_perm, IH. reflexivity.
Qed.

Lemma insertByTime_front x l :
  Forall (newestFirst x) l -> insertByTime x l = x :: l.
Proof.
  destruct l as [|y l]; simpl; [reflexivity|].
  intro F. inversion F as [|? ? Hy _]; subst. unfold newestFirst in Hy.
  apply Z.leb_le in Hy. rewrite Hy. reflexivity.
Qed.

Lemma filter_insertByTime (p : NotificationItem -> bool) x l :
  StronglySorted newestFirst l ->
  filter p (insertByTime x l)
  = if p x then insertByTime x (filter p l) else filter p l.
Proof.
  induction l as [|y l IH]; intro S.
  - simpl. destruct (p x); reflexivity.
  - inversion S as [|? ? Sl Fy]; subst. cbn [insertByTime].
    destruct (Z.leb_spec (item_timeValue y) (item_timeValue x)) as [L|L].
    + cbn [filter]. destruct (p x); [|reflexivity].
      symmetry. apply insertByTime_front.
      apply Forall_forall. intros a Ia.
      assert (Ia' : In a (y :: l)).
      { destruct (p y); [|right; apply filter_In in Ia; tauto].
        destruct Ia as [<-|Ia]; [left; reflexivity|right].
        apply filter_In in Ia. tauto. }
      destruct Ia' as [<-|Ia']; [exact L|].
      rewrite Forall_forall in Fy. specialize (Fy a Ia').
      unfold newestFirst in *. lia.
    + cbn [filter]. rewrite (IH Sl).
      destruct (p y), (p x); try reflexivity.
      cbn [insertByTime].
      destruct (Z.leb_spec (item_timeValue y) (item_timeValue x)); [lia|].
      reflexivity.
Qed.

Lemma filter_sortByTime (p : NotificationItem -> bool) l :
  filter p (sortByTime l) = sortByTime (filter p l).
Proof.
  induction l as [|x l IH]; [reflexivity|]. cbn [sortByTime fold_right].
  fold (sortByTime l). rewrite filter_insertByTime by apply sortByTime_sorted.
  cbn [filter]. rewrite IH. destruct (p x); reflexivity.
Qed.

Lemma filter_filter_and {A : Type} (f g : A -> bool) (l : list A) :
  filter (fun x => f x && g x) l = filter g (filter f l).
Proof.
  induction l as [|x l IH]; simpl; [reflexivity|].
  destruct (f x); simpl; [|exact IH]. destruct (g x); rewrite IH; reflexivity.
Qed.

Lemma filter_all {A : Type} (p : A -> bool) (l : list A) :
  (forall x, In x l -> p x = true) -> filter p l = l.
Proof.
  induction l as [|x l IH]; simpl; intro P; [reflexivity|].
  rewrite (P x) by (left; reflexivity). rewrite IH; [reflexivity|].
  intros y I. apply P. right. exact I.
Qed.

Lemma filter_none {A : Type} (p : A -> bool) (l : list A) :
  (forall x, In x l -> p x = false) -> filter p l = [].
Proof.
  induction l as [|x l IH]; simpl; intro P; [reflexivity|].
  rewrite (P x) by (left; reflexivity). apply IH.
  intros y I. apply P. right. exact I.
Qed.

Lemma shown_spec d item :
  shown d item = true
  <-> exists s, item_id item = Some s /\ s <> EmptyString /\ ~ In s d.
Proof.
  unfold shown. destruct (item_id item) as [[|c rest]|].
  - split; [discriminate|]. intros (s & E & N & _). inversion E; subst s.
    contradiction.
  - rewrite negb_true_iff, existsb_eqb_notIn. split.
    + intro N. exists (String c rest). repeat split; [discriminate|exact N].
    + intros (s & E & _ & N). inversion E; subst s. exact N.
  - split; [discriminate|]. intros (s & E & _). discriminate.
Qed.

Lemma setInOrder_In seen l x :
  In x (setInOrder seen l) <-> In x l /\ ~ In x seen.
Proof.
  revert seen. induction l as [|y l IH]; intro seen; simpl; [tauto|].
  destruct (existsb (String.eqb y) seen) eqn:E.
  - apply existsb_eqb_In in E. rewrite IH. split.
    + intros [I N]. auto.
    + intros [[->|I] N]; [contradiction|auto].
  - apply existsb_eqb_notIn in E. simpl. rewrite IH. simpl. split.
    + intros [->|[I N]]; [auto|]. split; [auto|]. intro Ix. apply N. auto.
    + intros [[->|I] N]; [auto|].
      destruct (string_dec y x) as [->|Ne]; [auto|].
      right. split; [exact I|]. intros [Ey|Is]; auto.
Qed.

Lemma setInOrder_NoDup seen l : NoDup (setInOrder seen l).
Proof.
  revert seen. induction l as [|y l IH]; intro seen; simpl; [constructor|].
  destruct (existsb (String.eqb y) seen); [apply IH|].
  constructor; [|apply IH]. intro I. apply setInOrder_In in I.
  destruct I as [_ N]. apply N. left. reflexivity.
Qed.

Section NotificationFacts.

Context `{Locale}.

Lemma notifications_In orders d item :
  In item (notifications orders d)
  <-> In item (map toItem orders) /\ shown d item = true.
Proof.
  unfold notifications.
  split.
  - intro I. apply (Permutation_in _ (sortByTime_perm _)) in I.
    apply filter_In in I. exact I.
  - intro I. apply (Permutation_in _ (Permutation_sym (sortByTime_perm _))).
    apply filter_In. exact I.
Qed.

Lemma shownIds_In orders d s :
  In s (shownIds orders d)
  <-> exists item, In item (notifications orders d)
                   /\ item_id item = Some s /\ s <> EmptyString.
Proof.
  unfold shownIds. rewrite in_flat_map. split.
  - intros (item & I & Is). exists item. split; [exact I|].
    destruct (item_id item) as [[|c rest]|]; try contradiction.
    destruct Is as [<-|[]]. split; [reflexivity|discriminate].
  - intros (item & I & E & N). exists item. split; [exact I|].
    rewrite E. destruct s; [contradiction|]. left. reflexivity.
Qed.


Lemma notifications_after_dismissing orders d s :
  ~ In s d ->
  notifications orders (d ++ [s])
  = filter (fun item =>
              negb (match item_id item with
                    | Some s' => String.eqb s' s
                    | None => false
                    end))
      (notifications orders d).
Proof.
  intro N. unfold notifications. rewrite filter_sortByTime. f_equal.
  rewrite <- filter_filter_and. apply filter_ext. intro item.
  unfold shown. destruct (item_id item) as [[|c rest]|]; try reflexivity.
  rewrite existsb_app. simpl. rewrite orb_false_r, negb_orb. reflexivity.
Qed.

(** X17.  Dismissing one notification removes the notifications of that
    id and nothing else: the list after [removeNotification] is the list
    before without the items of that id, in the same order. *)
Theorem removeNotification_hides_only_that (orders : list OrderRow)
  (dismissedIds : list string) (id : string) :
  notifications orders (removeNotification id dismissedIds)
  = filter (fun item =>
              negb (match item_id item with
                    | Some s => String.eqb s id
                    | None => false
                    end))
      (notifications orders dismissedIds).
Proof.
  unfold removeNotification.
  destruct (existsb (String.eqb id) dismissedIds) eqn:E.
  - apply existsb_eqb_In in E. symmetry. apply filter_all.
    intros item I. apply notifications_In in I. destruct I as [_ S].
    apply shown_spec in S. destruct S as (s & Es & _ & N). rewrite Es.
    apply negb_true_iff. apply String.eqb_neq. intros ->. contradiction.
  - apply existsb_eqb_notIn in E.
    apply notifications_after_dismissing. exact E.
Qed.

(** X18.  [clearAll] clears the page: with the ids it stores, no
    notification is left to show for the same orders. *)
Theorem clearAll_empties (orders : list OrderRow) (prev : list string) :
  notifications orders (clearAll orders prev) = [].
Proof.
  unfold notifications at 1.
  rewrite filter_none; [reflexivity|].
  intros item I. destruct (shown (clearAll orders prev) item) eqn:S;
    [|reflexivity].
  exfalso. apply shown_spec in S. destruct S as (s & Es & Ne & N).
  apply N. unfold clearAll. apply setInOrder_In. split; [|intros []].
  apply in_or_app.
  destruct (in_dec string_dec s prev) as [Ip|Np]; [left; exact Ip|right].
  apply shownIds_In. exists item. split; [|split; assumption].
  apply notifications_In. split; [exact I|].
  apply shown_spec. exists s. auto.
Qed.

(** X19.  The dismissed ids only grow and hold no id twice:
    [removeNotification] and [clearAll] keep every id already dismissed;
    [removeNotification] adds the id at most once, so that dismissing
    twice is dismissing once; [clearAll] leaves a list without
    repetition, whatever it was given. *)
Theorem dismissed_ids_grow_without_repetition (orders : list OrderRow)
  (prev : list string) (id : string) :
  (forall s, In s prev -> In s (removeNotification id prev))
  /\ In id (removeNotification id prev)
  /\ (NoDup prev -> NoDup (removeNotification id prev))
  /\ removeNotification id (removeNotification id prev)
     = removeNotification id prev
  /\ (forall s, In s prev -> In s (clearAll orders prev))
  /\ NoDup (clearAll orders prev).
Proof.
  unfold removeNotification.
  destruct (existsb (String.eqb id) prev) eqn:E.
  - pose proof E as I. apply existsb_eqb_In in I.
    repeat match goal with |- _ /\ _ => split end; auto.
    + rewrite E. reflexivity.
    + intros s Is. apply setInOrder_In. split; [|intros []].
      apply in_or_app. left. exact Is.
    + apply setInOrder_NoDup.
  - pose proof E as N. apply existsb_eqb_notIn in N.
    repeat match goal with |- _ /\ _ => split end.
    + intros s Is. apply in_or_app. left. exact Is.
    + apply in_or_app. right. left. reflexivity.
    + intro Nd. apply NoDup_app; [exact Nd|repeat constructor; intros []|].
      intros s Is [<-|[]]. contradiction.
    + assert (E' : existsb (String.eqb id) (prev ++ [id]) = true).
      { apply existsb_eqb_In. apply in_or_app. right. left. reflexivity. }
      rewrite E'. reflexivity.
    + intros s Is. apply setInOrder_In. split; [|intros []].
      apply in_or_app. left. exact Is.
    + apply setInOrder_NoDup.
Qed.

End NotificationFacts.

(** * Properties of [formatAddonId] *)

Lemma allDigits_digitsOf (s : string) : allDigits (digitsOf s) = true.
Proof.
  induction s as [|c s IH]; simpl; [reflexivity|].
  destruct (isDigit c) eqn:D; [|exact IH]. simpl. rewrite D, IH.
  reflexivity.
Qed.

Lemma allDigits_dropChars (n : nat) (s : string) :
  allDigits s = true -> allDigits (dropChars n s) = true.
Proof.
  revert s. induction n as [|n IH]; intros [|c s]; simpl; auto.
  intro A. apply andb_prop in A. destruct A as [_ A]. apply IH. exact A.
Qed.

Lemma length_dropChars (n : nat) (s : string) :
  String.length (dropChars n s) = (String.length s - n)%nat.
Proof.
  revert s. induction n as [|n IH]; intros [|c s]; simpl; auto.
Qed.

Lemma allDigits_append (a b : string) :
  allDigits a = true -> allDigits b = true ->
  allDigits (a ++ b)%string = true.
Proof.
  intros A B. induction a as [|c a IH]; simpl in *; [exact B|].
  apply andb_prop in A. destruct A as [A1 A2]. rewrite A1, (IH A2).
  reflexivity.
Qed.

Lemma allDigits_zeros (n : nat) : allDigits (zeros n) = true.
Proof. induction n as [|n IH]; simpl; [reflexivity|exact IH]. Qed.

Lemma length_zeros (n : nat) : String.length (zeros n) = n.
Proof. induction n as [|n IH]; simpl; [reflexivity|rewrite IH; reflexivity]. Qed.

Lemma length_append (a b : string) :
  String.length (a ++ b)%string = (String.length a + String.length b)%nat.
Proof. induction a as [|c a IH]; simpl; [reflexivity|rewrite IH; reflexivity]. Qed.

(** The last six characters of a digit string, padded: six digits. *)
Lemma six_digits (s : string) :
  allDigits s = true ->
  String.length (padStart 6 (sliceLast 6 s)) = 6%nat
  /\ allDigits (padStart 6 (sliceLast 6 s)) = true.
Proof.
  intro A. unfold padStart, sliceLast. split.
  - rewrite length_append, length_zeros, length_dropChars. lia.
  - apply allDigits_append; [apply allDigits_zeros|].
    apply allDigits_dropChars. exact A.
Qed.

Lemma allDigits_uint (u : Decimal.uint) :
  allDigits (NilEmpty.string_of_uint u) = true.
Proof. induction u; simpl; auto. Qed.

Lemma allDigits_absToString (hash : Z) : allDigits (absToString hash) = true.
Proof.
  unfold absToString, NilZero.string_of_uint.
  destruct (N.to_uint (Z.to_N (Z.abs hash))) eqn:E;
    try (rewrite <- E; apply allDigits_uint); reflexivity.
Qed.

(** X20.  Whatever the id, [formatAddonId] answers ADDON followed by
    exactly six decimal digits. *)
Theorem formatAddonId_shape (id : string) :
  exists d,
    formatAddonId id = ("ADDON" ++ d)%string
    /\ String.length d = 6%nat /\ allDigits d = true.
Proof.
  unfold formatAddonId. destruct id as [|c rest].
  - exists "000000"%string. repeat split.
  - set (id := String c rest).
    destruct (digitsOf (last (splitParts id) EmptyString)) as [|d ds] eqn:D.
    + destruct (digitsOf (joinParts (splitParts id))) as [|e es] eqn:D2.
      * eexists. split; [reflexivity|].
        apply six_digits. apply allDigits_absToString.
      * assert (A : allDigits (String e es) = true).
        { rewrite <- D2. apply allDigits_digitsOf. }
        destruct (six_digits _ A) as [L6 A6].
        destruct (padStart 6 (sliceLast 6 (String e es))) as [|x xs] eqn:P;
          [discriminate L6|].
        eexists. split; [reflexivity|]. split; assumption.
    + assert (A : allDigits (String d ds) = true).
      { rewrite <- D. apply allDigits_digitsOf. }
      destruct (six_digits _ A) as [L6 A6].
      destruct (padStart 6 (sliceLast 6 (String d ds))) as [|x xs] eqn:P;
        [discriminate L6|].
      eexists. split; [reflexivity|]. split; assumption.
Qed.

Lemma splitParts_whole (s : string) :
  noSeparator s = true -> splitParts s = [s].
Proof.
  induction s as [|c s IH]; simpl; [reflexivity|].
  intro N. apply andb_prop in N. destruct N as [N1 N2].
  apply negb_true_iff in N1. rewrite N1, (IH N2). reflexivity.
Qed.

Lemma splitParts_tail (prefix tail : string) (c : ascii) :
  isSeparator c = true -> noSeparator tail = true ->
  exists p ps,
    splitParts (prefix ++ String c tail)%string = (p :: ps) ++ [tail].
Proof.
  intros Sc N. induction prefix as [|a prefix IH].
  - simpl. rewrite Sc, (splitParts_whole _ N).
    exists EmptyString, []. reflexivity.
  - destruct IH as (p & ps & E). simpl. rewrite E.
    destruct (isSeparator a).
    + exists EmptyString, (p :: ps). reflexivity.
    + exists (String a p), ps. reflexivity.
Qed.

(** X21.  Only the part after the last dash or dot counts when it holds a
    digit: for an id ending in a separator-free part with at least one
    digit, the answer is ADDON and the last six digits of that part,
    padded with zeros -- whatever stands before the separator, so that
    two ids with the same last part get the same label. *)
Theorem formatAddonId_reads_last_part (prefix prefix' tail : string)
  (c c' : ascii) :
  isSeparator c = true -> isSeparator c' = true ->
  noSeparator tail = true ->
  digitsOf tail <> EmptyString ->
  formatAddonId (prefix ++ String c tail)%string
  = ("ADDON" ++ padStart 6 (sliceLast 6 (digitsOf tail)))%string
  /\ formatAddonId (prefix ++ String c tail)%string
     = formatAddonId (prefix' ++ String c' tail)%string.
Proof.
  intros Sc Sc' N D.
  assert (One : forall pre sep, isSeparator sep = true ->
            formatAddonId (pre ++ String sep tail)%string
            = ("ADDON" ++ padStart 6 (sliceLast 6 (digitsOf tail)))%string).
  { intros pre sep Ss. unfold formatAddonId.
    destruct (splitParts_tail pre tail sep Ss N) as (p & ps & E).
    rewrite E, last_last.
    assert (A : allDigits (digitsOf tail) = true)
      by apply allDigits_digitsOf.
    destruct (six_digits _ A) as [L6 _].
    destruct (digitsOf tail) as [|d ds] eqn:Dt; [contradiction|].
    destruct (padStart 6 (sliceLast 6 (String d ds))) as [|x xs] eqn:P;
      [discriminate L6|].
    destruct pre; reflexivity. }
  split; [apply One; exact Sc|].
  rewrite (One prefix c Sc), (One prefix' c' Sc'). reflexivity.
Qed.

Section AmountTexts.

Context `{WalletModel}.

(** X23.  An amount sent as text is read by [parseFloat]: when the text
    is not a number for the comparison of line 36 (or is a positive one)
    and [parseFloat] reads a positive number from it, the handler does
    exactly what it does for that number -- a text like 5abc asks for 5. *)
Theorem text_amount_is_read_by_parseFloat (now : Z)
  (restaurant : option RestaurantAuth) (toNumber : option Q) (a : Q)
  (db : Db) :
  0 < a ->
  (forall n, toNumber = Some n -> 0 < n) ->
  createWithdrawalRequest now
    (mkCreateRequest restaurant (AmountOther toNumber (Some a))) db
  = createWithdrawalRequest now
      (mkCreateRequest restaurant (AmountNumber a)) db.
Proof.
  intros Pos Num. unfold createWithdrawalRequest.
  cbn [req_restaurant body_amount amountFalsy amountLeZero parseFloat].
  assert (E1 : Qeq_bool a 0 = false).
  { destruct (Qeq_bool a 0) eqn:E; [|reflexivity].
    apply Qeq_bool_eq in E. lra. }
  assert (E2 : Qle_bool a 0 = false) by (apply Qle_bool_false; exact Pos).
  assert (E3 : match toNumber with
               | Some n => Qle_bool n 0
               | None => false
               end = false).
  { destruct toNumber as [n|]; [|reflexivity].
    apply Qle_bool_false. apply Num. reflexivity. }
  rewrite E1, E2, E3. reflexivity.
Qed.

End AmountTexts.

(** * The further properties on sample data *)

Lemma stored_balance_is_withdrawable_witness :
  0 < 15 /\ 15 <= totalBalance (mkWallet 7%nat 20 0 [])
  /\ isSuccess
       (fst (createWithdrawalRequest (H := deductingWallet) wednesdayNoon
               (mkCreateRequest (Some cafe) (AmountNumber 15)) cafeDb))
     = true.
Proof.
  assert (P : 0 < 15) by reflexivity.
  assert (L : 15 <= totalBalance (mkWallet 7%nat 20 0 []))
    by (vm_compute; discriminate).
  split; [exact P|]. split; [exact L|].
  apply (stored_balance_is_withdrawable (H := deductingWallet) wednesdayNoon
           cafe 7%nat 15 (mkWallet 7%nat 20 0 []) cafeDb eq_refl eq_refl
           P L).
  intros r [].
Defined.

Lemma refused_create_writes_nothing_witness :
  let r := createWithdrawalRequest (H := deductingWallet) wednesdayNoon
             (ask 100) cafeDb in
  isSuccess (fst r) = false
  /\ isClientError (fst r) = true
  /\ requests (snd r) = requests cafeDb
  /\ nextId (snd r) = nextId cafeDb.
Proof.
  intro r.
  assert (S : isSuccess (fst r) = false) by (vm_compute; reflexivity).
  split; [exact S|].
  destruct (refused_create_writes_nothing (H := deductingWallet)
              wednesdayNoon (ask 100) cafeDb S) as (C & R & N & _).
  split; [exact C|]. split; [exact R|exact N].
Defined.

Lemma lowWithdrawnDb_unique_ids : UniqueIds lowWithdrawnDb.
Proof.
  split.
  - simpl. repeat constructor. intros [].
  - intros r [<-|[]]. simpl. lia.
Qed.

Lemma requests_are_never_deleted_witness :
  let op := OpReject wednesdayNoon theAdmin 1%nat None in
  UniqueIds lowWithdrawnDb
  /\ UniqueIds (snd (step (H := deductingWallet) op lowWithdrawnDb))
  /\ exists new,
       map requestCore
         (requests (snd (step (H := deductingWallet) op lowWithdrawnDb)))
       = map requestCore (requests lowWithdrawnDb) ++ new
       /\ List.length new
          = (if createdBy (H := deductingWallet) op lowWithdrawnDb
             then 1%nat else 0%nat).
Proof.
  intro op. split; [exact lowWithdrawnDb_unique_ids|].
  apply (requests_are_never_deleted (H := deductingWallet) op lowWithdrawnDb
           lowWithdrawnDb_unique_ids).
Defined.

Lemma approvedDb_unique_ids : UniqueIds approvedDb.
Proof.
  split.
  - simpl. repeat constructor. intros [].
  - intros r [<-|[]]. simpl. lia.
Qed.

Lemma settled_requests_are_final_witness :
  let r := mkRequest 1%nat 7%nat 50 Approved "Cafe" "R-7" (Some 2%nat)
             mondayNoon (Some wednesdayNoon) (Some 99%nat) None in
  status r <> Pending
  /\ In r (requests
             (run (H := deductingWallet)
                [OpReject wednesdayNoon theAdmin 1%nat None;
                 OpCreate wednesdayNoon (ask 10);
                 OpApprove wednesdayNoon theAdmin 1%nat]
                approvedDb)).
Proof.
  intro r.
  assert (N : status r <> Pending) by discriminate.
  split; [exact N|].
  apply (settled_requests_are_final (H := deductingWallet) _ approvedDb r
           approvedDb_unique_ids).
  - left. reflexivity.
  - exact N.
Defined.

Lemma processed_once_witness :
  let db' := snd (approveWithdrawalRequest (H := deductingWallet)
                    wednesdayNoon theAdmin 1%nat lowWithdrawnDb) in
  approveWithdrawalRequest (H := deductingWallet) wednesdayNoon
    (Some (mkAdminAuth (Some 98%nat))) 1%nat db'
  = (errorResponse 400 (AlreadyProcessed Approved), db')
  /\ rejectWithdrawalRequest (H := deductingWallet) wednesdayNoon
       (Some (mkAdminAuth (Some 98%nat))) 1%nat None db'
     = (errorResponse 400 (AlreadyProcessed Approved), db').
Proof.
  apply (processed_once (H := deductingWallet) wednesdayNoon wednesdayNoon
           theAdmin 1%nat None None lowWithdrawnDb
           (mkAdminAuth (Some 98%nat)) 98%nat true);
    [vm_compute; reflexivity|reflexivity].
Defined.

Lemma success_answer_is_stored_witness :
  let op := OpCreate wednesdayNoon (ask 50) in
  isSuccess (fst (step (H := deductingWallet) op cafeDb)) = true
  /\ exists code m r,
       fst (step (H := deductingWallet) op cafeDb)
       = successResponse code m (RequestData r)
       /\ findById (_id r)
            (requests (snd (step (H := deductingWallet) op cafeDb)))
          = Some r.
Proof.
  intro op.
  assert (S : isSuccess (fst (step (H := deductingWallet) op cafeDb)) = true)
    by (vm_compute; reflexivity).
  split; [exact S|].
  apply (success_answer_is_stored (H := deductingWallet) op cafeDb S).
Defined.

Lemma create_then_approve_witness :
  let r := createWithdrawalRequest (H := deductingWallet) wednesdayNoon
             (ask 50) cafeDb in
  let r2 := approveWithdrawalRequest (H := deductingWallet) wednesdayNoon
              (Some (mkAdminAuth (Some 99%nat))) (nextId cafeDb) (snd r) in
  isSuccess (fst r) = true
  /\ exists rid a wallet q2 w2 i t,
       authenticatedAs (ask 50) = Some rid
       /\ parseFloat (body_amount (ask 50)) = Some a
       /\ wallet = fst (findOrCreateByRestaurantId rid cafeDb)
       /\ isSuccess (fst r2) = true
       /\ findById (nextId cafeDb) (requests (snd r2)) = Some q2
       /\ status q2 = Approved /\ amount q2 = a
       /\ processedAt q2 = Some wednesdayNoon
       /\ processedBy q2 = Some 99%nat
       /\ findWallet rid (wallets (snd r2)) = Some w2
       /\ totalBalance w2 == Qmax 0 (totalBalance wallet - a)
       /\ totalWithdrawn w2 == totalWithdrawn wallet + a
       /\ nth_error (transactions w2) i = Some t
       /\ transactionId q2 = Some (t_id t)
       /\ t_status t = TxCompleted
       /\ t_processedAt t = Some wednesdayNoon.
Proof.
  intros r r2.
  assert (S : isSuccess (fst r) = true) by (vm_compute; reflexivity).
  split; [exact S|].
  apply (create_then_approve (H := deductingWallet) wednesdayNoon
           wednesdayNoon (ask 50) (mkAdminAuth (Some 99%nat)) 99%nat cafeDb
           (fst r) (snd r) (surjective_pairing r) S eq_refl).
  intros rid Auth. inversion Auth; subst rid. discriminate.
Defined.

Lemma ledger_is_append_only_witness :
  let op := OpApprove wednesdayNoon theAdmin 1%nat in
  let w := mkWallet 7%nat 0 20
             [mkTransaction 2%nat 50 withdrawal TxPending
                "Withdrawal request created - Request ID: 000000000000000000000001"
                None] in
  findWallet 7%nat (wallets lowWithdrawnDb) = Some w
  /\ exists w' added,
       findWallet 7%nat
         (wallets (snd (step (H := deductingWallet) op lowWithdrawnDb)))
       = Some w'
       /\ map entryCore (transactions w')
          = map entryCore (transactions w) ++ added
       /\ (List.length added <= 1)%nat.
Proof.
  intros op w.
  assert (F : findWallet 7%nat (wallets lowWithdrawnDb) = Some w)
    by reflexivity.
  split; [exact F|].
  apply (ledger_is_append_only (H := deductingWallet) op lowWithdrawnDb
           7%nat w F).
Defined.


Lemma admin_listing_search_witness :
  exists rows p l total,
    getAllWithdrawalRequests (H := listEngine)
      (mkListingParams None None None (Some "Caf"%string)) approvedDb
    = successResponse 200 RequestsRetrieved (ListData rows p l total)
    /\ forall r, In r rows ->
         In r (requests approvedDb)
         /\ (regexTest (QueryEngine := listEngine) "Caf" (restaurantName r)
             || regexTest (QueryEngine := listEngine) "Caf"
                  (restaurantIdString r)) = true.
Proof.
  apply (proj1 (admin_listing_search (H := listEngine) None None None
                  "Caf"%string approvedDb listEngine_answers_from_input)).
  discriminate.
Defined.

Lemma cafeDb_closed : ClosedLedger cafeDb.
Proof.
  split; [|split].
  - split; [intros r []|]. intro rid. unfold pendingCount. simpl. lia.
  - split; [|split].
    + intros w [<-|[]]. simpl. lra.
    + intros r [].
    + intros r [].
  - split.
    + intros w [<-|[]]. simpl. lra.
    + intros r w [].
Qed.

Lemma reject_is_exact_on_closed_ledger_witness :
  let db := run (H := deductingWallet) [OpCreate wednesdayNoon (ask 50)]
              cafeDb in
  let r := rejectWithdrawalRequest (H := deductingWallet) wednesdayNoon
             theAdmin 1%nat None db in
  isSuccess (fst r) = true
  /\ ClosedLedger db
  /\ exists found w w',
       findById 1%nat (requests db) = Some found
       /\ findWallet (restaurantId found) (wallets db) = Some w
       /\ findWallet (restaurantId found) (wallets (snd r)) = Some w'
       /\ totalBalance w' == totalBalance w + amount found
       /\ totalWithdrawn w' == totalWithdrawn w - amount found
       /\ 0 <= totalWithdrawn w'.
Proof.
  intros db r.
  assert (S : isSuccess (fst r) = true) by (vm_compute; reflexivity).
  split; [exact S|].
  apply (reject_is_exact_on_closed_ledger (H := deductingWallet)
           [OpCreate wednesdayNoon (ask 50)] cafeDb wednesdayNoon theAdmin
           1%nat None cafeDb_closed S).
Defined.


Lemma formatAddonId_reads_last_part_witness :
  formatAddonId "addon-1768285606927-r7kwd45t8" = "ADDON007458"%string
  /\ formatAddonId "addon-1768285606927-r7kwd45t8"
     = formatAddonId "x.r7kwd45t8".
Proof.
  destruct (formatAddonId_reads_last_part "addon-1768285606927" "x"
              "r7kwd45t8" "-"%char "."%char eq_refl eq_refl eq_refl)
    as [E1 E2].
  - discriminate.
  - split; [exact E1|exact E2].
Defined.

Lemma text_amount_is_read_by_parseFloat_witness :
  createWithdrawalRequest (H := deductingWallet) wednesdayNoon
    (mkCreateRequest (Some cafe) (AmountOther None (Some 5))) cafeDb
  = createWithdrawalRequest (H := deductingWallet) wednesdayNoon
      (mkCreateRequest (Some cafe) (AmountNumber 5)) cafeDb.
Proof.
  apply (text_amount_is_read_by_parseFloat (H := deductingWallet)
           wednesdayNoon (Some cafe) None 5 cafeDb).
  - reflexivity.
  - intros n E. discriminate E.
Defined.
